(** * Data-format experiment harness: a shallow embedding and its properties

    The development follows the four Python modules of the project:
    [data_loader] (tabular store access), [csv_to_english] (prose renderer),
    [experiment] (format selector, experiment runners, comparison) and
    [web_app] (HTTP handlers).  Python values are modelled as the code sees
    them: text as [string] (one character per code point, code points below
    256), integers as [Z], floats as binary64 primitive floats, exceptions
    as values of an error monad, dictionaries as finite maps or association
    lists (where insertion order is observable), generators as resumable
    state machines. *)

From Stdlib Require Import ZArith Floats Ascii String DecimalString List Bool Lia.
From Stdlib Require Import Sorting.Permutation Sorting.Sorted.
From stdpp Require Import base option list gmap strings sorting.

Set Warnings "-inexact-float,-register-all".
Local Open Scope string_scope.
Local Open Scope Z_scope.
Local Open Scope list_scope.

(** ** Python exceptions and the error monad *)

(** The exception classes that the modelled code can raise.  All of them
    derive from [Exception], so every [except Exception] clause catches
    them.  [EndpointError] stands for whatever the model client library
    raises (network, quota, authentication, malformed response). *)
Inductive exn_class :=
| KeyError
| IndexError
| ZeroDivisionError
| TypeError
| ValueError
| FileNotFoundError
| EndpointError.

(** An exception instance; [exn_str] is what [str(e)] returns. *)
Record exn := Exn { exn_cls : exn_class; exn_str : string }.

Inductive outcome (A : Type) :=
| Ok (a : A)
| Raise (e : exn).
Arguments Ok {A} a.
Arguments Raise {A} e.

#[global] Instance outcome_ret : MRet outcome := fun _ a => Ok a.
#[global] Instance outcome_bind : MBind outcome := fun _ _ f m =>
  match m with
  | Ok a => f a
  | Raise e => Raise e
  end.
#[global] Instance outcome_fmap : FMap outcome := fun _ _ f m =>
  match m with
  | Ok a => Ok (f a)
  | Raise e => Raise e
  end.

(** [try: m except Exception as e: h e] *)
Definition try_except {A} (m : outcome A) (h : exn -> outcome A) : outcome A :=
  match m with
  | Ok a => Ok a
  | Raise e => h e
  end.

(** A comprehension [[f x for x in l]]: the first exception aborts it. *)
Fixpoint comprehension {A B} (f : A -> outcome B) (l : list A) : outcome (list B) :=
  match l with
  | [] => Ok []
  | x :: l' =>
      y ← f x;
      ys ← comprehension f l';
      Ok (y :: ys)
  end.

(** ** Text helpers *)

(** [sep.join(parts)] *)
Definition join (sep : string) (parts : list string) : string :=
  String.concat sep parts.

(** [needle in haystack] for strings. *)
Fixpoint contains (needle haystack : string) : bool :=
  String.prefix needle haystack ||
  match haystack with
  | EmptyString => false
  | String _ rest => contains needle rest
  end.

(** [str(n)] for an [int]. *)
Definition str_int (n : Z) : string :=
  NilZero.string_of_int (Z.to_int n).

(** [s * n]: [n] copies of a character. *)
Fixpoint replicate_char (n : nat) (c : ascii) : string :=
  match n with
  | O => EmptyString
  | S n' => String c (replicate_char n' c)
  end.

(** ** Python floats *)

Module PyFloat.

(** [float(n)] for an [int]: the nearest binary64 value, ties to even. *)
Definition of_int (n : Z) : float :=
  SF2Prim (binary_normalize prec emax n 0 false).

Definition is_zero (x : float) : bool := PrimFloat.eqb x 0%float.

(** Round the rational [num / 2^k] ([k >= 0]) to the nearest integer,
    ties to even. *)
Definition round_half_even_shift (num : Z) (k : Z) : Z :=
  let den := 2 ^ k in
  let q := num / den in
  let r := num mod den in
  if (2 * r <? den) then q
  else if (den <? 2 * r) then q + 1
  else if Z.even q then q else q + 1.

(** The decimal digits of a non-negative integer, padded on the left
    with zeros to at least [width] characters. *)
Definition digits_padded (width : nat) (n : Z) : string :=
  let s := str_int n in
  replicate_char (width - String.length s) "0"%char +:+ s.

(** Insert the thousands separators that the [,] option of the format
    mini-language asks for into a string of digits. *)
Fixpoint group_thousands (s : string) : string :=
  match s with
  | EmptyString => EmptyString
  | String c rest =>
      let n := String.length rest in
      if ((0 <? n)%nat && (n mod 3 =? 0)%nat)%bool
      then String c ("," +:+ group_thousands rest)
      else String c (group_thousands rest)
  end.

(** The magnitude [m * 2^e] in fixed notation with [p] fractional
    digits, correctly rounded (ties to even), as [float.__format__]
    produces it. *)
Definition fixed_digits (grouped : bool) (p : nat) (m e : Z) : string :=
  let scaled := m * 10 ^ Z.of_nat p in
  let n := if (0 <=? e) then scaled * 2 ^ e
           else round_half_even_shift scaled (- e) in
  let s := digits_padded (S p) n in
  let int_len := (String.length s - p)%nat in
  let int_part := String.substring 0 int_len s in
  let int_part := if grouped then group_thousands int_part else int_part in
  match p with
  | O => int_part
  | _ => int_part +:+ "." +:+ String.substring int_len p s
  end.

Definition sign_text (negative : bool) : string :=
  if negative then "-" else "".

(** [format(x, ".pf")] and, with [grouped], [format(x, ",.pf")]. *)
Definition format_f (grouped : bool) (p : nat) (x : float) : string :=
  match Prim2SF x with
  | S754_nan => "nan"
  | S754_infinity s => sign_text s +:+ "inf"
  | S754_zero s => sign_text s +:+ fixed_digits grouped p 0 0
  | S754_finite s m e => sign_text s +:+ fixed_digits grouped p (Z.pos m) e
  end.

(** *** [repr]: the shortest decimal that reads back as the same float *)

(** Compare [a * 10^k] with [b * 2^e] exactly. *)
Definition compare_dec_bin (a k b e : Z) : comparison :=
  (a * 10 ^ Z.max k 0 * 2 ^ Z.max (- e) 0 ?= b * 2 ^ Z.max e 0 * 10 ^ Z.max (- k) 0).

(** [floor (m * 2^e / 10^k)] *)
Definition floor_scaled (m e k : Z) : Z :=
  (m * 2 ^ Z.max e 0 * 10 ^ Z.max (- k) 0) / (2 ^ Z.max (- e) 0 * 10 ^ Z.max k 0).

(** The decimal exponent [t] with [10^t <= m * 2^e < 10^(t+1)]. *)
Definition decimal_exponent (m e : Z) : Z :=
  Z.of_nat (String.length (str_int (floor_scaled m e (-400)))) - 401.

(** Does the decimal [d * 10^k] round to the float [m * 2^e]?  The
    rounding interval runs from the midpoint with the float below to the
    midpoint with the float above, and includes them when [m] is even. *)
Definition rounds_to (m e d k : Z) : bool :=
  let below := if (m =? 2 ^ 52) && (-1074 <? e) then 1 else 2 in
  match compare_dec_bin d k (4 * m - below) (e - 2),
        compare_dec_bin d k (4 * m + 2) (e - 2) with
  | Gt, Lt => true
  | Eq, Lt | Gt, Eq => Z.even m
  | _, _ => false
  end.

(** The shortest decimal with [n] or more significant digits that rounds
    to [m * 2^e], the nearest one when two of that length do: its digits
    as an integer [d] and the exponent [k] of [d * 10^k]. *)
Fixpoint shortest_digits (fuel : nat) (n : Z) (m e t : Z) : Z * Z :=
  let k := t - n + 1 in
  let lo := floor_scaled m e k in
  let hi := lo + 1 in
  match fuel with
  | O => (lo, k)
  | S fuel' =>
      let lo_ok := rounds_to m e lo k in
      let hi_ok := rounds_to m e hi k in
      let lo_nearer :=
        match compare_dec_bin (2 * lo + 1) k (2 * m) e with
        | Gt => true
        | Eq => Z.even lo
        | Lt => false
        end in
      if lo_ok && (negb hi_ok || lo_nearer) then (lo, k)
      else if hi_ok then (hi, k)
      else shortest_digits fuel' (n + 1) m e t
  end.

(** The decimal digits of a positive integer. *)
Definition digit_text (d : Z) : string :=
  NilZero.string_of_uint (Pos.to_uint (Z.to_pos d)).

(** A string of digits without its trailing zeros, and their number. *)
Fixpoint strip_trailing_zeros (s : string) : string * Z :=
  match s with
  | EmptyString => (EmptyString, 0)
  | String c rest =>
      let '(rest', k) := strip_trailing_zeros rest in
      match rest' with
      | EmptyString =>
          if Ascii.eqb c "0" then (EmptyString, k + 1) else (String c EmptyString, k)
      | _ => (String c rest', k)
      end
  end.

(** The exponent of the scientific notation: a sign and two digits or
    more. *)
Definition exponent_text (x : Z) : string :=
  let s := str_int (Z.abs x) in
  (if x <? 0 then "-" else "+") +:+
  replicate_char (2 - String.length s) "0"%char +:+ s.

(** [repr] of the magnitude [m * 2^e], [m > 0]: fixed notation when the
    decimal point falls within [(-4, 16]], scientific otherwise. *)
Definition repr_magnitude (m e : Z) : string :=
  let t := decimal_exponent m e in
  let '(d, k) := shortest_digits 17 1 m e t in
  let '(digits, zeros) := strip_trailing_zeros (digit_text d) in
  let k := k + zeros in
  let n := Z.of_nat (String.length digits) in
  let decpt := n + k in
  if (-4 <? decpt) && (decpt <=? 16) then
    if decpt <=? 0 then
      "0." +:+ replicate_char (Z.to_nat (- decpt)) "0"%char +:+ digits
    else if n <=? decpt then
      digits +:+ replicate_char (Z.to_nat (decpt - n)) "0"%char +:+ ".0"
    else
      String.substring 0 (Z.to_nat decpt) digits +:+ "." +:+
      String.substring (Z.to_nat decpt) (Z.to_nat (n - decpt)) digits
  else
    String.substring 0 1 digits +:+
    (if 1 <? n then "." +:+ String.substring 1 (Z.to_nat (n - 1)) digits else "") +:+
    "e" +:+ exponent_text (decpt - 1).

(** [repr(x)], which is also [str(x)] and what [json.dumps] writes for a
    finite float. *)
Definition repr (x : float) : string :=
  match Prim2SF x with
  | S754_nan => "nan"
  | S754_infinity s => sign_text s +:+ "inf"
  | S754_zero s => sign_text s +:+ "0.0"
  | S754_finite s m e => sign_text s +:+ repr_magnitude (Z.pos m) e
  end.

End PyFloat.

(** ** Python scalars as they appear in table rows *)

(** A value of a row: [read_csv] yields text, 64-bit integer and float
    columns; a missing value is the float NaN.  Rows reach the renderer
    through [iterrows] over frames that also hold text columns, so the
    numbers are Python [int] and [float] objects. *)
Inductive cell :=
| CStr (s : string)
| CInt (n : Z)
| CFloat (x : float).

Module PyVal.

Definition unsupported (op l r : string) : exn :=
  Exn TypeError ("unsupported operand type(s) for " +:+ op +:+ ": '" +:+ l +:+
                 "' and '" +:+ r +:+ "'").

Definition type_name (c : cell) : string :=
  match c with
  | CStr _ => "str"
  | CInt _ => "int"
  | CFloat _ => "float"
  end.

(** [str(c)], which is what an f-string field without format writes. *)
Definition str (c : cell) : string :=
  match c with
  | CStr s => s
  | CInt n => str_int n
  | CFloat x => PyFloat.repr x
  end.

(** [format(c, ".pf")] *)
Definition format_f (grouped : bool) (p : nat) (c : cell) : outcome string :=
  match c with
  | CStr _ => Raise (Exn ValueError "Unknown format code 'f' for object of type 'str'")
  | CInt n => Ok (PyFloat.format_f grouped p (PyFloat.of_int n))
  | CFloat x => Ok (PyFloat.format_f grouped p x)
  end.

(** [a - b] *)
Definition sub (a b : cell) : outcome cell :=
  match a, b with
  | CInt x, CInt y => Ok (CInt (x - y))
  | CInt x, CFloat y => Ok (CFloat (PrimFloat.sub (PyFloat.of_int x) y))
  | CFloat x, CInt y => Ok (CFloat (PrimFloat.sub x (PyFloat.of_int y)))
  | CFloat x, CFloat y => Ok (CFloat (PrimFloat.sub x y))
  | _, _ => Raise (unsupported "-" (type_name a) (type_name b))
  end.

(** [a * b] for numbers. *)
Definition mul (a b : cell) : outcome cell :=
  match a, b with
  | CInt x, CInt y => Ok (CInt (x * y))
  | CInt x, CFloat y => Ok (CFloat (PrimFloat.mul (PyFloat.of_int x) y))
  | CFloat x, CInt y => Ok (CFloat (PrimFloat.mul x (PyFloat.of_int y)))
  | CFloat x, CFloat y => Ok (CFloat (PrimFloat.mul x y))
  | _, _ => Raise (unsupported "*" (type_name a) (type_name b))
  end.

(** Is the number zero?  Both float zeros count. *)
Definition is_zero (c : cell) : bool :=
  match c with
  | CStr _ => false
  | CInt n => n =? 0
  | CFloat x => PyFloat.is_zero x
  end.

Definition is_number (c : cell) : bool :=
  match c with
  | CStr _ => false
  | _ => true
  end.

(** The quotient of two integers, correctly rounded to a float. *)
Definition int_truediv (x y : Z) : float :=
  let operand (n : Z) :=
    match n with
    | Z0 => S754_zero false
    | Zpos p => S754_finite false p 0
    | Zneg p => S754_finite true p 0
    end in
  SF2Prim (SFdiv prec emax (operand x) (operand y)).

(** [a / b]: true division; a zero divisor raises [ZeroDivisionError]. *)
Definition truediv (a b : cell) : outcome cell :=
  match a, b with
  | CInt x, CInt y =>
      if y =? 0 then Raise (Exn ZeroDivisionError "division by zero")
      else Ok (CFloat (int_truediv x y))
  | CInt x, CFloat y =>
      if PyFloat.is_zero y then Raise (Exn ZeroDivisionError "float division by zero")
      else Ok (CFloat (PrimFloat.div (PyFloat.of_int x) y))
  | CFloat x, CInt y =>
      if y =? 0 then Raise (Exn ZeroDivisionError "float division by zero")
      else Ok (CFloat (PrimFloat.div x (PyFloat.of_int y)))
  | CFloat x, CFloat y =>
      if PyFloat.is_zero y then Raise (Exn ZeroDivisionError "float division by zero")
      else Ok (CFloat (PrimFloat.div x y))
  | _, _ => Raise (unsupported "/" (type_name a) (type_name b))
  end.

(** [a > 0] *)
Definition gt_zero (a : cell) : outcome bool :=
  match a with
  | CStr _ => Raise (Exn TypeError "'>' not supported between instances of 'str' and 'int'")
  | CInt n => Ok (0 <? n)
  | CFloat x => Ok (PrimFloat.ltb 0%float x)
  end.

(** [a == b]: text compares with text, numbers by value; NaN equals
    nothing. *)
Definition eqb (a b : cell) : bool :=
  match a, b with
  | CStr s, CStr t => String.eqb s t
  | CInt x, CInt y => x =? y
  | CInt x, CFloat y => PrimFloat.eqb (PyFloat.of_int x) y
  | CFloat x, CInt y => PrimFloat.eqb x (PyFloat.of_int y)
  | CFloat x, CFloat y => PrimFloat.eqb x y
  | _, _ => false
  end.

(** [pd.isna(c)] *)
Definition isna (c : cell) : bool :=
  match c with
  | CFloat x => negb (PrimFloat.eqb x x)
  | _ => false
  end.

End PyVal.

(** ** JSON documents: [json.dumps(obj, indent=2)] *)

(** The Python objects that the project serialises: dictionaries keep their
    insertion order, so an object is an association list. *)
Inductive json :=
| JNull
| JBool (b : bool)
| JInt (n : Z)
| JFloat (x : float)
| JStr (s : string)
| JArr (items : list json)
| JObj (members : list (string * json)).

Module Json.

Definition quote : string := String (ascii_of_N 34) EmptyString.
Definition newline : string := String (ascii_of_N 10) EmptyString.

Definition hex_digit (n : N) : ascii :=
  match n with
  | 0 => "0" | 1 => "1" | 2 => "2" | 3 => "3" | 4 => "4" | 5 => "5"
  | 6 => "6" | 7 => "7" | 8 => "8" | 9 => "9" | 10 => "a" | 11 => "b"
  | 12 => "c" | 13 => "d" | 14 => "e" | _ => "f"
  end%N%char.

(** One character of a string literal, with [ensure_ascii]: everything
    outside the printable ASCII range is escaped. *)
Definition escape_char (c : ascii) : string :=
  let n := N_of_ascii c in
  if (n =? 34)%N then "\" +:+ quote
  else if (n =? 92)%N then "\\"
  else if (n =? 10)%N then "\n"
  else if (n =? 13)%N then "\r"
  else if (n =? 9)%N then "\t"
  else if (n =? 8)%N then "\b"
  else if (n =? 12)%N then "\f"
  else if ((32 <=? n) && (n <=? 126))%N then String c EmptyString
  else "\u00" +:+ String (hex_digit (n / 16)) (String (hex_digit (n mod 16)) EmptyString).

Fixpoint escape (s : string) : string :=
  match s with
  | EmptyString => EmptyString
  | String c rest => escape_char c +:+ escape rest
  end.

Definition dumps_str (s : string) : string := quote +:+ escape s +:+ quote.

(** A float: [repr], except for the three non-finite values. *)
Definition dumps_float (x : float) : string :=
  match Prim2SF x with
  | S754_nan => "NaN"
  | S754_infinity false => "Infinity"
  | S754_infinity true => "-Infinity"
  | _ => PyFloat.repr x
  end.

(** A line break followed by the indentation of nesting level [lvl]. *)
Definition newline_indent (lvl : nat) : string :=
  newline +:+ replicate_char (2 * lvl) " "%char.

Fixpoint dumps_at (lvl : nat) (v : json) : string :=
  match v with
  | JNull => "null"
  | JBool true => "true"
  | JBool false => "false"
  | JInt n => str_int n
  | JFloat x => dumps_float x
  | JStr s => dumps_str s
  | JArr [] => "[]"
  | JArr items =>
      "[" +:+ newline_indent (S lvl) +:+
      join ("," +:+ newline_indent (S lvl)) (map (dumps_at (S lvl)) items) +:+
      newline_indent lvl +:+ "]"
  | JObj [] => "{}"
  | JObj members =>
      "{" +:+ newline_indent (S lvl) +:+
      join ("," +:+ newline_indent (S lvl))
           (map (fun kv => dumps_str (fst kv) +:+ ": " +:+ dumps_at (S lvl) (snd kv))
                members) +:+
      newline_indent lvl +:+ "}"
  end.

(** [json.dumps(v, indent=2)] *)
Definition dumps (v : json) : string := dumps_at 0 v.

(** [d[k] = v] on a dictionary: an existing key keeps its position. *)
Fixpoint dict_set (d : list (string * json)) (k : string) (v : json)
  : list (string * json) :=
  match d with
  | [] => [(k, v)]
  | (k', v') :: rest =>
      if String.eqb k' k then (k, v) :: rest else (k', v') :: dict_set rest k v
  end.

(** The dictionary built by setting the pairs in order. *)
Definition dict_of (pairs : list (string * json)) : list (string * json) :=
  fold_left (fun d kv => dict_set d (fst kv) (snd kv)) pairs [].

(** *** [json.loads] *)

Definition is_ws (c : ascii) : bool :=
  let n := N_of_ascii c in
  ((n =? 32) || (n =? 9) || (n =? 10) || (n =? 13))%N.

Fixpoint skip_ws (s : string) : string :=
  match s with
  | EmptyString => EmptyString
  | String c rest => if is_ws c then skip_ws rest else s
  end.

Definition is_digit (c : ascii) : bool :=
  let n := N_of_ascii c in
  ((48 <=? n) && (n <=? 57))%N.

(** The longest prefix of digits, and what follows it. *)
Fixpoint span_digits (s : string) : string * string :=
  match s with
  | EmptyString => (EmptyString, EmptyString)
  | String c rest =>
      if is_digit c then
        let '(digits, rest') := span_digits rest in (String c digits, rest')
      else (EmptyString, s)
  end.

(** The text of a number, split as the decoder's pattern splits it: an
    optional minus sign and the integer part, an optional fraction, an
    optional exponent. *)
Record number_text := {
  nt_negative : bool;
  nt_integer : string;
  nt_fraction : option string;
  nt_exponent : option (bool * string)
}.

(** The integer part: a single zero, or digits that start with a non-zero
    digit. *)
Definition scan_integer (s : string) : option (string * string) :=
  match s with
  | String c rest =>
      if Ascii.eqb c "0" then Some ("0", rest)
      else if is_digit c then Some (span_digits s)
      else None
  | EmptyString => None
  end.

(** The optional fraction: a point followed by at least one digit. *)
Definition scan_fraction (s : string) : option string * string :=
  match s with
  | String p rest =>
      if Ascii.eqb p "." then
        match rest with
        | String c _ =>
            if is_digit c then
              let '(digits, rest') := span_digits rest in (Some digits, rest')
            else (None, s)
        | EmptyString => (None, s)
        end
      else (None, s)
  | EmptyString => (None, s)
  end.

(** The digits of an exponent, after its sign. *)
Definition scan_exponent_digits (whole : string) (negative : bool) (rest : string)
  : option (bool * string) * string :=
  match rest with
  | String c _ =>
      if is_digit c then
        let '(digits, rest') := span_digits rest in (Some (negative, digits), rest')
      else (None, whole)
  | EmptyString => (None, whole)
  end.

(** The optional exponent: [e] or [E], an optional sign, at least one
    digit. *)
Definition scan_exponent (s : string) : option (bool * string) * string :=
  match s with
  | String c rest =>
      if Ascii.eqb c "e" || Ascii.eqb c "E" then
        match rest with
        | String sign rest' =>
            if Ascii.eqb sign "+" then scan_exponent_digits s false rest'
            else if Ascii.eqb sign "-" then scan_exponent_digits s true rest'
            else scan_exponent_digits s false rest
        | EmptyString => (None, s)
        end
      else (None, s)
  | EmptyString => (None, s)
  end.

Definition scan_number (s : string) : option (number_text * string) :=
  let '(negative, s1) :=
    match s with
    | String c rest => if Ascii.eqb c "-" then (true, rest) else (false, s)
    | EmptyString => (false, s)
    end in
  match scan_integer s1 with
  | None => None
  | Some (integer, s2) =>
      let '(fraction, s3) := scan_fraction s2 in
      let '(exponent, s4) := scan_exponent s3 in
      Some ({| nt_negative := negative; nt_integer := integer;
               nt_fraction := fraction; nt_exponent := exponent |}, s4)
  end.

(** [int(text)] for a string of digits. *)
Definition int_of_digits (s : string) : Z :=
  match NilZero.int_of_string s with
  | Some d => Z.of_int d
  | None => 0
  end.

(** [float(text)]: the decimal [digits * 10^k], rounded to the nearest
    float, ties to even. *)
Definition float_of_decimal (negative : bool) (digits k : Z) : float :=
  match digits with
  | Zpos p =>
      if 0 <=? k then
        SF2Prim (binary_normalize prec emax
                   (if negative then Zneg p * 10 ^ k else Zpos p * 10 ^ k) 0 false)
      else
        SF2Prim (SFdiv prec emax (S754_finite negative p 0)
                       (S754_finite false (Z.to_pos (10 ^ (- k))) 0))
  | _ => if negative then (-0)%float else 0%float
  end.

(** The value of a number: an [int] when the text has neither fraction
    nor exponent, a [float] otherwise. *)
Definition number_value (t : number_text) : json :=
  match nt_fraction t, nt_exponent t with
  | None, None =>
      JInt (if nt_negative t then - int_of_digits (nt_integer t)
            else int_of_digits (nt_integer t))
  | fraction, exponent =>
      let frac := match fraction with Some f => f | None => EmptyString end in
      let exp :=
        match exponent with
        | Some (true, e) => - int_of_digits e
        | Some (false, e) => int_of_digits e
        | None => 0
        end in
      JFloat (float_of_decimal (nt_negative t)
                (int_of_digits (nt_integer t +:+ frac))
                (exp - Z.of_nat (String.length frac)))
  end.

Definition hex_value (c : ascii) : option N :=
  let n := N_of_ascii c in
  if ((48 <=? n) && (n <=? 57))%N then Some (n - 48)%N
  else if ((97 <=? n) && (n <=? 102))%N then Some (n - 87)%N
  else if ((65 <=? n) && (n <=? 70))%N then Some (n - 55)%N
  else None.

(** The character of a [\uXXXX] escape; code points from 256 on are
    outside the modelled text. *)
Definition unicode_escape (h1 h2 h3 h4 : ascii) : option ascii :=
  match hex_value h1, hex_value h2, hex_value h3, hex_value h4 with
  | Some a, Some b, Some c, Some d =>
      if ((a =? 0) && (b =? 0))%N then Some (ascii_of_N (16 * c + d)) else None
  | _, _, _, _ => None
  end.

(** Put a character in front of the text of a parsed string. *)
Definition cons_char (c : ascii) (r : option (string * string)) : option (string * string) :=
  match r with
  | Some (text, rest) => Some (String c text, rest)
  | None => None
  end.

(** The inside of a string literal up to its closing quote. *)
Fixpoint parse_string (s : string) : option (string * string) :=
  match s with
  | EmptyString => None
  | String c rest =>
      if (N_of_ascii c =? 34)%N then Some (EmptyString, rest)
      else if (N_of_ascii c =? 92)%N then
        match rest with
        | String e rest' =>
            if (N_of_ascii e =? 34)%N then cons_char (ascii_of_N 34) (parse_string rest')
            else if (N_of_ascii e =? 92)%N then cons_char (ascii_of_N 92) (parse_string rest')
            else if Ascii.eqb e "/" then cons_char "/" (parse_string rest')
            else if Ascii.eqb e "b" then cons_char (ascii_of_N 8) (parse_string rest')
            else if Ascii.eqb e "f" then cons_char (ascii_of_N 12) (parse_string rest')
            else if Ascii.eqb e "n" then cons_char (ascii_of_N 10) (parse_string rest')
            else if Ascii.eqb e "r" then cons_char (ascii_of_N 13) (parse_string rest')
            else if Ascii.eqb e "t" then cons_char (ascii_of_N 9) (parse_string rest')
            else if Ascii.eqb e "u" then
              match rest' with
              | String h1 (String h2 (String h3 (String h4 rest''))) =>
                  match unicode_escape h1 h2 h3 h4 with
                  | Some ch => cons_char ch (parse_string rest'')
                  | None => None
                  end
              | _ => None
              end
            else None
        | EmptyString => None
        end
      else if (N_of_ascii c <? 32)%N then None
      else cons_char c (parse_string rest)
  end.

(** Strip a literal from the front of a text. *)
Fixpoint strip_prefix (literal s : string) : option string :=
  match literal, s with
  | EmptyString, _ => Some s
  | String a literal', String b s' =>
      if Ascii.eqb a b then strip_prefix literal' s' else None
  | _, EmptyString => None
  end.

(** The constants, and the numbers. *)
Definition parse_literal (s : string) : option (json * string) :=
  match strip_prefix "null" s with
  | Some rest => Some (JNull, rest)
  | None =>
  match strip_prefix "true" s with
  | Some rest => Some (JBool true, rest)
  | None =>
  match strip_prefix "false" s with
  | Some rest => Some (JBool false, rest)
  | None =>
  match strip_prefix "NaN" s with
  | Some rest => Some (JFloat (PrimFloat.div 0 0), rest)
  | None =>
  match strip_prefix "Infinity" s with
  | Some rest => Some (JFloat PrimFloat.infinity, rest)
  | None =>
  match strip_prefix "-Infinity" s with
  | Some rest => Some (JFloat PrimFloat.neg_infinity, rest)
  | None =>
  match scan_number s with
  | Some (t, rest) => Some (number_value t, rest)
  | None => None
  end end end end end end end.

(** The decoder.  [parse_value] reads one value from the front of a text;
    [parse_elements] reads the elements of an array after its opening
    bracket, [parse_members] the members of an object after its opening
    brace, both up to and with the closing one.  Every call uses up one
    unit of [fuel]. *)
Fixpoint parse_value (fuel : nat) (s : string) : option (json * string) :=
  match fuel with
  | O => None
  | S fuel' =>
      match s with
      | String c rest =>
          if Ascii.eqb c "[" then
            match skip_ws rest with
            | String c' rest' =>
                if Ascii.eqb c' "]" then Some (JArr [], rest')
                else
                  match parse_elements fuel' (String c' rest') with
                  | Some (items, rest'') => Some (JArr items, rest'')
                  | None => None
                  end
            | EmptyString => None
            end
          else if Ascii.eqb c "{" then
            match skip_ws rest with
            | String c' rest' =>
                if Ascii.eqb c' "}" then Some (JObj [], rest')
                else
                  match parse_members fuel' (String c' rest') with
                  | Some (members, rest'') => Some (JObj (dict_of members), rest'')
                  | None => None
                  end
            | EmptyString => None
            end
          else if (N_of_ascii c =? 34)%N then
            match parse_string rest with
            | Some (text, rest') => Some (JStr text, rest')
            | None => None
            end
          else parse_literal s
      | EmptyString => None
      end
  end
with parse_elements (fuel : nat) (s : string) : option (list json * string) :=
  match fuel with
  | O => None
  | S fuel' =>
      match parse_value fuel' s with
      | Some (item, rest) =>
          match skip_ws rest with
          | String c rest' =>
              if Ascii.eqb c "," then
                match parse_elements fuel' (skip_ws rest') with
                | Some (items, rest'') => Some (item :: items, rest'')
                | None => None
                end
              else if Ascii.eqb c "]" then Some ([item], rest')
              else None
          | EmptyString => None
          end
      | None => None
      end
  end
with parse_members (fuel : nat) (s : string) : option (list (string * json) * string) :=
  match fuel with
  | O => None
  | S fuel' =>
      match s with
      | String q rest =>
          if (N_of_ascii q =? 34)%N then
            match parse_string rest with
            | Some (key, rest1) =>
                match skip_ws rest1 with
                | String colon rest2 =>
                    if Ascii.eqb colon ":" then
                      match parse_value fuel' (skip_ws rest2) with
                      | Some (v, rest3) =>
                          match skip_ws rest3 with
                          | String c rest4 =>
                              if Ascii.eqb c "," then
                                match parse_members fuel' (skip_ws rest4) with
                                | Some (members, rest5) =>
                                    Some ((key, v) :: members, rest5)
                                | None => None
                                end
                              else if Ascii.eqb c "}" then Some ([(key, v)], rest4)
                              else None
                          | EmptyString => None
                          end
                      | None => None
                      end
                    else None
                | EmptyString => None
                end
            | None => None
            end
          else None
      | EmptyString => None
      end
  end.

(** [json.loads(s)]: one value between optional white space. *)
Definition loads (s : string) : outcome json :=
  match parse_value (S (String.length s)) (skip_ws s) with
  | Some (v, rest) =>
      match skip_ws rest with
      | EmptyString => Ok v
      | _ => Raise (Exn ValueError "Extra data")
      end
  | None => Raise (Exn ValueError "Expecting value")
  end.

End Json.

(** ** Frames and rows *)

(** A row as [iterrows] and [iloc] hand it out: a [Series] indexed by the
    column labels. *)
Definition Series := list (string * cell).

(** A [DataFrame]: its column labels and its rows in file order, every row
    holding one cell per column. *)
Record DataFrame := {
  df_columns : list string;
  df_rows : list (list cell)
}.

Module Pandas.

Definition nan : cell := CFloat (PrimFloat.div 0 0).

Definition key_error (key : string) : exn :=
  Exn KeyError ("'" +:+ key +:+ "'").

(** [row[key]] *)
Fixpoint getitem (row : Series) (key : string) : outcome cell :=
  match row with
  | [] => Raise (key_error key)
  | (k, v) :: rest => if String.eqb k key then Ok v else getitem rest key
  end.

(** [df.iterrows()], without the index labels. *)
Definition iterrows (df : DataFrame) : list Series :=
  map (combine (df_columns df)) (df_rows df).

(** [len(df)] *)
Definition len (df : DataFrame) : nat := length (df_rows df).

(** [df[key]]: the column as a list of values, one per row. *)
Definition column (df : DataFrame) (key : string) : outcome (list cell) :=
  if existsb (String.eqb key) (df_columns df)
  then Ok (map (fun row => match getitem row key with Ok v => v | Raise _ => nan end)
               (iterrows df))
  else Raise (key_error key).

(** [df[df[key] == value].iloc[0]]: the first row whose [key] column equals
    [value]. *)
Definition first_where (df : DataFrame) (key : string) (value : cell) : outcome Series :=
  col ← column df key;
  match filter (fun p => PyVal.eqb (fst p) value) (combine col (iterrows df)) with
  | [] => Raise (Exn IndexError "single positional indexer is out-of-bounds")
  | (_, row) :: _ => Ok row
  end.

(** The distinct values of a list in the order of their first occurrence,
    each with the number of its occurrences: the table that backs
    [value_counts] and [unique]. *)
Fixpoint count_into (table : list (cell * nat)) (v : cell) : list (cell * nat) :=
  match table with
  | [] => [(v, 1%nat)]
  | (k, n) :: rest =>
      if PyVal.eqb k v then (k, S n) :: rest else (k, n) :: count_into rest v
  end.

Definition counts_in_encounter_order (values : list cell) : list (cell * nat) :=
  fold_left count_into values [].

(** [df.to_dict(orient="records")]: one dictionary per row. *)
Definition cell_to_json (c : cell) : json :=
  match c with
  | CStr s => JStr s
  | CInt n => JInt n
  | CFloat x => JFloat x
  end.

Definition to_dict_records (df : DataFrame) : list json :=
  map (fun row => JObj (Json.dict_of (map (fun kv => (fst kv, cell_to_json (snd kv))) row)))
      (iterrows df).

End Pandas.

(** ** [data_loader]: tabular store access *)

(** A [.csv] file of the data directory: its text and the frame that
    [pandas.read_csv] parses from it. *)
Record csv_file := {
  csv_text : string;
  csv_frame : DataFrame
}.

(** The data directory: the [.csv] files by stem, and the parsed content of
    [schema_metadata.json] when that file exists. *)
Record data_dir := {
  csv_files : gmap string csv_file;
  schema_metadata : option json
}.

(** String order as Python compares [str] values. *)
Definition str_le (a b : string) : Prop := String.leb a b = true.

#[global] Instance str_le_dec : RelDecision str_le.
Proof. intros a b. unfold str_le. apply _. Defined.

(** [sorted(pairs)] for pairs with distinct first components, ordered by
    [key] of the first component. *)
Definition sorted_by {A} (key : string -> string) (pairs : list (string * A))
  : list (string * A) :=
  merge_sort (fun p q => str_le (key (fst p)) (key (fst q)))
             (H := fun p q => str_le_dec (key (fst p)) (key (fst q))) pairs.

Module DataLoader.

Definition not_found (what : string) : exn :=
  Exn FileNotFoundError (what +:+ " not found").

(** [load_csv(table_name)] *)
Definition load_csv (d : data_dir) (table_name : string) : outcome DataFrame :=
  match csv_files d !! table_name with
  | None => Raise (not_found ("Table " +:+ table_name))
  | Some f => Ok (csv_frame f)
  end.

(** [load_all_tables()]: one entry per [.csv] file present. *)
Definition load_all_tables (d : data_dir) : gmap string DataFrame :=
  csv_frame <$> csv_files d.

(** [load_metadata()] *)
Definition load_metadata (d : data_dir) : outcome json :=
  match schema_metadata d with
  | None => Raise (not_found "Metadata")
  | Some m => Ok m
  end.

(** [get_csv_as_string(table_name)] *)
Definition get_csv_as_string (d : data_dir) (table_name : string) : outcome string :=
  match csv_files d !! table_name with
  | None => Raise (not_found ("Table " +:+ table_name))
  | Some f => Ok (csv_text f)
  end.

(** [get_all_csv_as_string()]: the files sorted by path, that is by file
    name. *)
Definition get_all_csv_as_string (d : data_dir) : string :=
  join (Json.newline +:+ Json.newline)
       (map (fun p => "=== TABLE: " +:+ fst p +:+ " ===" +:+ Json.newline +:+ csv_text (snd p))
            (sorted_by (fun stem => stem +:+ ".csv") (map_to_list (csv_files d)))).

(** The dictionary [data] that [get_all_data_as_json] fills, table by
    table in sorted order of the names. *)
Definition all_data (d : data_dir) : list (string * json) :=
  Json.dict_of
    (map (fun p => (fst p, JArr (Pandas.to_dict_records (snd p))))
         (sorted_by id (map_to_list (load_all_tables d)))).

(** [get_all_data_as_json()] *)
Definition get_all_data_as_json (d : data_dir) : string :=
  Json.dumps (JObj (all_data d)).

End DataLoader.

(** ** [csv_to_english]: the prose renderer *)

Module CsvToEnglish.

Import Pandas.

(** An f-string field [{row[key]}] *)
Definition field (row : Series) (key : string) : outcome string :=
  PyVal.str <$> getitem row key.

(** An f-string field [{row[key]:.pf}] *)
Definition field_f (p : nat) (row : Series) (key : string) : outcome string :=
  v ← getitem row key;
  PyVal.format_f false p v.

(** [convert_customer_to_english(row)] *)
Definition convert_customer_to_english (row : Series) : outcome string :=
  first_name ← field row "first_name";
  last_name ← field row "last_name";
  customer_id ← field row "customer_id";
  customer_segment ← field row "customer_segment";
  join_date ← field row "join_date";
  city ← field row "city";
  state ← field row "state";
  country ← field row "country";
  email ← field row "email";
  Ok (first_name +:+ " " +:+ last_name +:+ " (ID: " +:+ customer_id +:+ ") is a " +:+
      customer_segment +:+ " customer who joined on " +:+ join_date +:+
      ". They are located in " +:+ city +:+ ", " +:+ state +:+ ", " +:+ country +:+
      " and can be reached at " +:+ email +:+ ".").

(** The sentence of a product, given the text of each field. *)
Definition product_sentence
  (product_name product_id subcategory category brand unit_price cost_price
   margin margin_pct supplier_id : string) : string :=
  "The product '" +:+ product_name +:+ "' (ID: " +:+ product_id +:+ ") is a " +:+
  subcategory +:+ " item in the " +:+ category +:+ " category, manufactured by " +:+
  brand +:+ ". It is priced at $" +:+ unit_price +:+ " with a cost of $" +:+ cost_price +:+
  ", yielding a margin of $" +:+ margin +:+ " (" +:+ margin_pct +:+
  "%). This product is supplied by " +:+ supplier_id +:+ ".".

(** [convert_product_to_english(row)] *)
Definition convert_product_to_english (row : Series) : outcome string :=
  unit_price ← getitem row "unit_price";
  cost_price ← getitem row "cost_price";
  margin ← PyVal.sub unit_price cost_price;
  cost_price' ← getitem row "cost_price";
  ratio ← PyVal.truediv margin cost_price';
  margin_pct ← PyVal.mul ratio (CInt 100);
  product_name ← field row "product_name";
  product_id ← field row "product_id";
  subcategory ← field row "subcategory";
  category ← field row "category";
  brand ← field row "brand";
  unit_price_text ← field_f 2 row "unit_price";
  cost_price_text ← field_f 2 row "cost_price";
  margin_text ← PyVal.format_f false 2 margin;
  margin_pct_text ← PyVal.format_f false 1 margin_pct;
  supplier_id ← field row "supplier_id";
  Ok (product_sentence product_name product_id subcategory category brand
        unit_price_text cost_price_text margin_text margin_pct_text supplier_id).

(** [convert_supplier_to_english(row)] *)
Definition convert_supplier_to_english (row : Series) : outcome string :=
  supplier_name ← field row "supplier_name";
  supplier_id ← field row "supplier_id";
  country ← field row "country";
  lead_time_days ← field row "lead_time_days";
  reliability_rating ← field row "reliability_rating";
  contact_email ← field row "contact_email";
  Ok (supplier_name +:+ " (ID: " +:+ supplier_id +:+ ") is a supplier based in " +:+
      country +:+ ". They have a lead time of " +:+ lead_time_days +:+
      " days and a reliability rating of " +:+ reliability_rating +:+
      "/5.0. Contact them at " +:+ contact_email +:+ ".").

(** [df[df[key] == row[row_key]].iloc[0]]: the frame's column is read
    first, then the row's value, then the first match is taken. *)
Definition lookup_by (df : DataFrame) (key : string) (row : Series) (row_key : string)
  : outcome Series :=
  _ ← column df key;
  value ← getitem row row_key;
  first_where df key value.

(** [convert_order_to_english(row, customers_df)] *)
Definition convert_order_to_english (row : Series) (customers_df : DataFrame)
  : outcome string :=
  customer ← lookup_by customers_df "customer_id" row "customer_id";
  first_name ← field customer "first_name";
  last_name ← field customer "last_name";
  let customer_name := first_name +:+ " " +:+ last_name in
  discount ← getitem row "discount_applied";
  positive ← PyVal.gt_zero discount;
  discount_text ←
    (if positive : bool then
       amount ← field_f 2 row "discount_applied";
       Ok (" with a discount of $" +:+ amount +:+ " applied")
     else Ok EmptyString);
  order_id ← field row "order_id";
  customer_id ← field row "customer_id";
  order_date ← field row "order_date";
  shipping_method ← field row "shipping_method";
  shipping_address_city ← field row "shipping_address_city";
  payment_method ← field row "payment_method";
  order_status ← field row "order_status";
  Ok ("Order " +:+ order_id +:+ " was placed by " +:+ customer_name +:+ " (" +:+
      customer_id +:+ ") on " +:+ order_date +:+ ". The order uses " +:+
      shipping_method +:+ " shipping to " +:+ shipping_address_city +:+
      " and was paid via " +:+ payment_method +:+ ". Current status: " +:+
      order_status +:+ discount_text +:+ ".").

(** [convert_order_item_to_english(row, products_df, orders_df, customers_df)] *)
Definition convert_order_item_to_english
  (row : Series) (products_df orders_df customers_df : DataFrame) : outcome string :=
  product ← lookup_by products_df "product_id" row "product_id";
  order ← lookup_by orders_df "order_id" row "order_id";
  customer ← lookup_by customers_df "customer_id" order "customer_id";
  order_id ← field row "order_id";
  first_name ← field customer "first_name";
  last_name ← field customer "last_name";
  quantity ← field row "quantity";
  product_name ← field product "product_name";
  unit_price_at_sale ← field_f 2 row "unit_price_at_sale";
  total_price ← field_f 2 row "total_price";
  Ok ("In order " +:+ order_id +:+ ", " +:+ first_name +:+ " " +:+ last_name +:+
      " purchased " +:+ quantity +:+ " unit(s) of '" +:+ product_name +:+ "' at $" +:+
      unit_price_at_sale +:+ " each, totaling $" +:+ total_price +:+ ".").

Definition blank_line : string := Json.newline +:+ Json.newline.

(** One section of the document: its heading, a blank line, and the
    sentences separated by blank lines. *)
Definition section (heading : string) (sentences : list string) : string :=
  "## " +:+ heading +:+ blank_line +:+ join blank_line sentences.

(** The rule between two sections. *)
Definition section_rule : string := blank_line +:+ "---" +:+ blank_line.

(** [tables[name]] *)
Definition table (tables : gmap string DataFrame) (name : string) : outcome DataFrame :=
  match tables !! name with
  | Some df => Ok df
  | None => Raise (key_error name)
  end.

(** [convert_all_to_english()] *)
Definition convert_all_to_english (d : data_dir) : outcome string :=
  let tables := DataLoader.load_all_tables d in
  customers_df ← table tables "customers";
  products_df ← table tables "products";
  suppliers_df ← table tables "suppliers";
  orders_df ← table tables "orders";
  order_items_df ← table tables "order_items";
  customer_sentences ← comprehension convert_customer_to_english (iterrows customers_df);
  supplier_sentences ← comprehension convert_supplier_to_english (iterrows suppliers_df);
  product_sentences ← comprehension convert_product_to_english (iterrows products_df);
  order_sentences ←
    comprehension (fun row => convert_order_to_english row customers_df)
                  (iterrows orders_df);
  order_item_sentences ←
    comprehension
      (fun row => convert_order_item_to_english row products_df orders_df customers_df)
      (iterrows order_items_df);
  Ok (join section_rule
        [section "Customers" customer_sentences;
         section "Suppliers" supplier_sentences;
         section "Products" product_sentences;
         section "Orders" order_sentences;
         section "Order Line Items" order_item_sentences]).

(** *** The summary *)

(** The numeric kernels of pandas and numpy that the summary relies on.
    Their results depend on the library's summation and sorting
    algorithms, which the project does not choose:
    [series_sum] is [Series.sum()];
    [numpy_truediv] divides a numpy scalar by an [int] and, unlike
    Python's division, does not raise for a zero divisor;
    [grouped_sums_desc keys values] is the index of
    [groupby(keys)[values].sum().sort_values(ascending=False)];
    [sort_counts_desc] is the [sort_values(ascending=False)] with which
    [value_counts] orders its counts. *)
Record kernels := {
  series_sum : list cell -> cell;
  numpy_truediv : cell -> Z -> cell;
  grouped_sums_desc : list cell -> list cell -> list cell;
  sort_counts_desc : list (cell * nat) -> list (cell * nat)
}.

(** Counts in non-increasing order. *)
Definition count_ge (p q : cell * nat) : Prop := (snd q <= snd p)%nat.

(** What sorting in descending order means: the same entries, counts
    non-increasing.  The order among equal counts is left open. *)
Definition sorts_descending (K : kernels) : Prop :=
  (forall l, Permutation (sort_counts_desc K l) l) /\
  (forall l, Sorted count_ge (sort_counts_desc K l)).

(** [series.value_counts()]: the missing values are dropped, the others
    counted, and the counts sorted in descending order. *)
Definition value_counts (K : kernels) (values : list cell) : list (cell * nat) :=
  sort_counts_desc K
    (counts_in_encounter_order (filter (fun v => negb (PyVal.isna v)) values)).

(** [len(series.unique())]: the number of distinct values, all missing
    values counting as one. *)
Fixpoint unique (values : list cell) : list cell :=
  match values with
  | [] => []
  | v :: rest =>
      v :: filter (fun w => negb (PyVal.eqb v w || (PyVal.isna v && PyVal.isna w)))
                  (unique rest)
  end.

(** One [segment: count] pair of the summary. *)
Definition pair_text (p : cell * nat) : string :=
  PyVal.str (fst p) +:+ ": " +:+ str_int (Z.of_nat (snd p)).

Definition str_nat (n : nat) : string := str_int (Z.of_nat n).

(** The name of the product with the given identifier:
    [products[products['product_id'] == id]['product_name'].iloc[0]] *)
Definition product_name_of (products : DataFrame) (id : cell) : outcome cell :=
  _ ← column products "product_id";
  _ ← column products "product_name";
  row ← first_where products "product_id" id;
  getitem row "product_name".

(** [get_summary_statistics()] *)
Definition get_summary_statistics (K : kernels) (d : data_dir) : outcome string :=
  let tables := DataLoader.load_all_tables d in
  order_items ← table tables "order_items";
  orders ← table tables "orders";
  products ← table tables "products";
  customers ← table tables "customers";
  total_prices ← column order_items "total_price";
  let total_revenue := series_sum K total_prices in
  let total_orders := len orders in
  let avg_order_value := numpy_truediv K total_revenue (Z.of_nat total_orders) in
  product_ids ← column order_items "product_id";
  let product_sales := grouped_sums_desc K product_ids total_prices in
  top_product_id ←
    match product_sales with
    | id :: _ => Ok id
    | [] => Raise (Exn IndexError "index 0 is out of bounds for axis 0 with size 0")
    end;
  top_product ← product_name_of products top_product_id;
  segments ← column customers "customer_segment";
  let segment_counts := value_counts K segments in
  states ← column customers "state";
  suppliers ← table tables "suppliers";
  total_revenue_text ← PyVal.format_f true 2 total_revenue;
  avg_order_value_text ← PyVal.format_f true 2 avg_order_value;
  let nl := Json.newline in
  Ok (nl +:+ "## Data Summary" +:+ nl +:+ nl +:+
      "The e-commerce database contains:" +:+ nl +:+
      "- " +:+ str_nat (len customers) +:+ " customers across " +:+
      str_nat (length (unique states)) +:+ " states" +:+ nl +:+
      "- " +:+ str_nat (len products) +:+ " products from " +:+
      str_nat (len suppliers) +:+ " suppliers" +:+ nl +:+
      "- " +:+ str_nat total_orders +:+ " orders with " +:+
      str_nat (len order_items) +:+ " line items" +:+ nl +:+
      "- Total revenue: $" +:+ total_revenue_text +:+ nl +:+
      "- Average order value: $" +:+ avg_order_value_text +:+ nl +:+ nl +:+
      "Customer segments: " +:+ join ", " (map pair_text segment_counts) +:+ nl +:+ nl +:+
      "The best-selling product by revenue is " +:+ Json.quote +:+
      PyVal.str top_product +:+ Json.quote +:+ "." +:+ nl).

(** The segment distribution listed in encounter order, as the
    specification words it: each distinct segment in the order of its
    first row, with its count. *)
Definition segments_in_encounter_order (customers : DataFrame) : outcome string :=
  segments ← column customers "customer_segment";
  Ok (join ", "
        (map pair_text
             (counts_in_encounter_order
                (filter (fun v => negb (PyVal.isna v)) segments)))).

End CsvToEnglish.

(** ** [experiment]: formats, the model endpoint and the runners *)

(** The five encodings, in the order in which the enumeration lists them. *)
Inductive DataFormat :=
| RAW_CSV
| CSV_WITH_METADATA
| ENGLISH_SENTENCES
| JSON
| JSON_WITH_METADATA.

#[global] Instance DataFormat_eq_dec : EqDecision DataFormat.
Proof. solve_decision. Defined.

(** A content part of a response.  [part_text] is [None] when the part
    has no [text] attribute or when it is [None]; [part_thought] tells
    whether the part has a true [thought] attribute. *)
Record Part := {
  part_text : option string;
  part_thought : bool
}.

(** [candidate.content]; [content_parts] is [None] when [parts] is. *)
Record Content := {
  content_parts : option (list Part)
}.

Record Candidate := {
  candidate_content : option Content
}.

Record UsageMetadata := {
  prompt_token_count : option Z;
  candidates_token_count : option Z
}.

(** A response of the endpoint, also the shape of one streamed chunk.
    Reading the aggregated [text] property can itself raise. *)
Record Response := {
  resp_text : outcome (option string);
  resp_candidates : option (list Candidate);
  resp_usage_metadata : option UsageMetadata
}.

(** The configuration sent along with a prompt; [thinking_config] holds the
    thinking budget when one is set. *)
Record Config := {
  system_instruction : string;
  temperature : float;
  thinking_config : option Z
}.

Record Request := {
  req_model : string;
  req_contents : string;
  req_config : Config
}.

(** What lies outside the program: the data directory, the model client
    and the clock.  The endpoint may answer the same request differently
    each time, so its replies are indexed by the number of calls made
    before; a stream is the chunks it delivers and the exception, if any,
    that ends it.  [perf_counter] gives the successive clock readings. *)
Record Env := {
  env_data : data_dir;
  env_client : outcome unit;
  env_generate_content : nat -> Request -> outcome Response;
  env_generate_content_stream : nat -> Request -> list Response * option exn;
  env_perf_counter : nat -> float
}.

(** What a run changes: the number of clock readings taken and the
    requests sent to the endpoint, latest first. *)
Record State := {
  st_ticks : nat;
  st_sent : list Request
}.

Definition initial_state : State := {| st_ticks := 0; st_sent := [] |}.

(** Computations that read the clock, call the endpoint and may raise. *)
Definition io (A : Type) : Type := State -> outcome A * State.

#[global] Instance io_ret : MRet io := fun _ a st => (Ok a, st).
#[global] Instance io_bind : MBind io := fun _ _ f m st =>
  match m st with
  | (Ok a, st') => f a st'
  | (Raise e, st') => (Raise e, st')
  end.

(** A computation without effects, which may raise. *)
Definition lift {A} (m : outcome A) : io A := fun st => (m, st).

(** [time.perf_counter()] *)
Definition perf_counter (env : Env) : io float := fun st =>
  (Ok (env_perf_counter env (st_ticks st)),
   {| st_ticks := S (st_ticks st); st_sent := st_sent st |}).

(** Record a request as sent. *)
Definition send (req : Request) (st : State) : State :=
  {| st_ticks := st_ticks st; st_sent := req :: st_sent st |}.

(** [client.models.generate_content(model=..., contents=..., config=...)] *)
Definition generate_content (env : Env) (req : Request) : io Response := fun st =>
  (env_generate_content env (length (st_sent st)) req, send req st).

(** [client.models.generate_content_stream(...)]: the chunks to come. *)
Definition generate_content_stream (env : Env) (req : Request)
  : State -> (list Response * option exn) * State := fun st =>
  (env_generate_content_stream env (length (st_sent st)) req, send req st).

(** [try: m except Exception as e: h e] for effectful computations. *)
Definition io_try {A} (m : io A) (h : exn -> io A) : io A := fun st =>
  match m st with
  | (Ok a, st') => (Ok a, st')
  | (Raise e, st') => h e st'
  end.

Module Experiment.

(** [data_format.value] *)
Definition value (f : DataFormat) : string :=
  match f with
  | RAW_CSV => "raw_csv"
  | CSV_WITH_METADATA => "csv_with_metadata"
  | ENGLISH_SENTENCES => "english_sentences"
  | JSON => "json"
  | JSON_WITH_METADATA => "json_with_metadata"
  end.

(** Iterating over [DataFormat] *)
Definition all_formats : list DataFormat :=
  [RAW_CSV; CSV_WITH_METADATA; ENGLISH_SENTENCES; JSON; JSON_WITH_METADATA].

(** [DataFormat(s)] *)
Definition of_value (s : string) : outcome DataFormat :=
  match find (fun f => String.eqb (value f) s) all_formats with
  | Some f => Ok f
  | None => Raise (Exn ValueError ("'" +:+ s +:+ "' is not a valid DataFormat"))
  end.

Definition nl : string := Json.newline.

(** [_prepare_data_prompt(data_format)]; the enumeration is closed, so
    the final [else] branch of the source cannot be reached. *)
Definition _prepare_data_prompt (d : data_dir) (data_format : DataFormat)
  : outcome string :=
  match data_format with
  | RAW_CSV =>
      Ok ("Here is the data in CSV format:" +:+ nl +:+ nl +:+
          DataLoader.get_all_csv_as_string d)
  | CSV_WITH_METADATA =>
      metadata ← DataLoader.load_metadata d;
      let metadata_str := Json.dumps metadata in
      Ok ("Here is the database schema metadata:" +:+ nl +:+ nl +:+ metadata_str +:+
          nl +:+ nl +:+ "Here is the data in CSV format:" +:+ nl +:+ nl +:+
          DataLoader.get_all_csv_as_string d)
  | ENGLISH_SENTENCES =>
      english_data ← CsvToEnglish.convert_all_to_english d;
      Ok ("Here is the e-commerce data described in natural language:" +:+ nl +:+ nl +:+
          english_data)
  | JSON =>
      let json_data := DataLoader.get_all_data_as_json d in
      Ok ("Here is the data in JSON format:" +:+ nl +:+ nl +:+ json_data)
  | JSON_WITH_METADATA =>
      metadata ← DataLoader.load_metadata d;
      let metadata_str := Json.dumps metadata in
      let json_data := DataLoader.get_all_data_as_json d in
      Ok ("Here is the database schema metadata:" +:+ nl +:+ nl +:+ metadata_str +:+
          nl +:+ nl +:+ "Here is the data in JSON format:" +:+ nl +:+ nl +:+ json_data)
  end.

(** The system prompt literal of both runners: three lines. *)
Definition system_prompt : string :=
  "You are a data analyst assistant. Answer the question based solely on the provided data."
  +:+ nl +:+
  "Be precise and concise. If you need to perform calculations, show your reasoning briefly."
  +:+ nl +:+
  "Give a direct answer first, then explain if needed.".

(** The user prompt literal of both runners. *)
Definition full_prompt (data_prompt question : string) : string :=
  data_prompt +:+ nl +:+ nl +:+ "---" +:+ nl +:+ nl +:+ "Question: " +:+ question +:+
  nl +:+ nl +:+ "Please provide your answer:".

(** The request configuration; thinking is asked for only from models
    whose name contains [2.5]. *)
Definition build_config (system_prompt : string) (temperature : float)
  (thinking_enabled : bool) (model : string) : Config :=
  {| system_instruction := system_prompt;
     temperature := temperature;
     thinking_config :=
       if thinking_enabled && contains "2.5" model then Some 4096 else None |}.

Definition default_model : string := "gemini-2.5-flash".
Definition default_temperature : float := 1%float.
Definition default_thinking_enabled : bool := false.

Record ExperimentResult := {
  question : string;
  data_format : DataFormat;
  answer : string;
  latency_ms : float;
  input_tokens : Z;
  output_tokens : Z;
  model : string;
  result_system_prompt : string;
  result_user_prompt : string
}.

(** Truth value of an optional string: neither [None] nor empty. *)
Definition truthy (s : option string) : bool :=
  match s with
  | Some (String _ _) => true
  | _ => false
  end.

Definition text_or_empty (s : option string) : string :=
  match s with
  | Some t => t
  | None => EmptyString
  end.

Definition candidate_parts (c : Candidate) : list Part :=
  match candidate_content c with
  | Some {| content_parts := Some parts |} => parts
  | _ => []
  end.

(** The fallback of the non-streaming runner: the text of every part of
    every candidate that has a non-empty text, appended in order. *)
Definition candidates_text (candidates : list Candidate) : string :=
  fold_left (fun acc c =>
               fold_left (fun acc part =>
                            if truthy (part_text part)
                            then acc +:+ text_or_empty (part_text part)
                            else acc)
                         (candidate_parts c) acc)
            candidates EmptyString.

(** The answer extraction of [run_single_experiment]: the [text] property
    when it is non-empty, the parts of the candidates otherwise, and the
    empty string when reading the response raises. *)
Definition extract_answer (response : Response) : string :=
  match resp_text response with
  | Raise _ => EmptyString
  | Ok t =>
      if truthy t then text_or_empty t
      else match resp_candidates response with
           | Some candidates => candidates_text candidates
           | None => EmptyString
           end
  end.

Definition or_zero (n : option Z) : Z :=
  match n with
  | Some k => k
  | None => 0
  end.

(** Token counts of a response: zero when the usage metadata is absent. *)
Definition usage (response : Response) : Z * Z :=
  match resp_usage_metadata response with
  | Some u => (or_zero (prompt_token_count u), or_zero (candidates_token_count u))
  | None => (0, 0)
  end.

Definition elapsed_ms (start_time end_time : float) : float :=
  PrimFloat.mul (PrimFloat.sub end_time start_time) 1000.

(** [run_single_experiment(question, data_format, model, temperature,
    thinking_enabled)] *)
Definition run_single_experiment (env : Env) (question : string)
  (data_format : DataFormat) (model : string) (temperature : float)
  (thinking_enabled : bool) : io ExperimentResult :=
  _ ← lift (env_client env);
  data_prompt ← lift (_prepare_data_prompt (env_data env) data_format);
  let full_prompt := full_prompt data_prompt question in
  start_time ← perf_counter env;
  let config := build_config system_prompt temperature thinking_enabled model in
  response ← generate_content env
    {| req_model := model; req_contents := full_prompt; req_config := config |};
  end_time ← perf_counter env;
  let latency_ms := elapsed_ms start_time end_time in
  let answer := extract_answer response in
  let '(input_tokens, output_tokens) := usage response in
  mret {| question := question;
          data_format := data_format;
          answer := answer;
          latency_ms := latency_ms;
          input_tokens := input_tokens;
          output_tokens := output_tokens;
          model := model;
          result_system_prompt := system_prompt;
          result_user_prompt := full_prompt |}.

(** *** Vocabulary for what a run sends *)

(** [sends P st st']: from [st] to [st'] requests went out, all of which
    satisfy [P], and nothing sent before was lost. *)
Definition sends (P : Request -> Prop) (st st' : State) : Prop :=
  exists new, st_sent st' = new ++ st_sent st /\ Forall P new.

(** The request that a runner builds for its arguments and data prompt. *)
Definition request_of (question model : string) (temperature : float)
  (thinking_enabled : bool) (data_prompt : string) : Request :=
  {| req_model := model;
     req_contents := full_prompt data_prompt question;
     req_config := build_config system_prompt temperature thinking_enabled model |}.

(** A request built from the given model, temperature and thinking
    setting, whatever the prompt. *)
Definition built_with (model : string) (temperature : float) (thinking_enabled : bool)
  (r : Request) : Prop :=
  req_model r = model /\
  req_config r = build_config system_prompt temperature thinking_enabled model.

(** *** The streaming runner *)

(** The events that the streaming runner yields. *)
Inductive event :=
| EvPrompt (data_format system_prompt user_prompt : string) (prompt_length : nat)
| EvThinking (data_format text : string)
| EvChunk (data_format text : string)
| EvError (data_format error : string)
| EvComplete (data_format answer : string) (latency_ms ttft_ms : float)
             (input_tokens output_tokens : Z) (model : string).

(** The [type] field of an event. *)
Definition event_type (e : event) : string :=
  match e with
  | EvPrompt _ _ _ _ => "prompt"
  | EvThinking _ _ => "thinking"
  | EvChunk _ _ => "chunk"
  | EvError _ _ => "error"
  | EvComplete _ _ _ _ _ _ _ => "complete"
  end.

(** The loop over the parts of a chunk: a part flagged as thought sets
    [chunk_thinking], any other part with a non-empty text sets
    [chunk_text]; a later part overwrites an earlier one. *)
Definition scan_part (acc : option string * option string) (part : Part)
  : option string * option string :=
  let '(chunk_text, chunk_thinking) := acc in
  if part_thought part then (chunk_text, part_text part)
  else if truthy (part_text part) then (part_text part, chunk_thinking)
  else acc.

(** The loop over the candidates of a chunk.  Iterating over the parts of
    a content whose [parts] is [None] raises; the flag tells whether that
    happened, and the assignments made before it stand. *)
Fixpoint scan_candidates (candidates : list Candidate)
  (acc : option string * option string) : (option string * option string) * bool :=
  match candidates with
  | [] => (acc, false)
  | c :: rest =>
      match candidate_content c with
      | None => scan_candidates rest acc
      | Some content =>
          match content_parts content with
          | None => (acc, true)
          | Some parts => scan_candidates rest (fold_left scan_part parts acc)
          end
      end
  end.

(** [chunk_text] and [chunk_thinking] of one chunk.  When the candidates
    gave no text the [text] property is tried, unless scanning the
    candidates raised; an exception of the property leaves [chunk_text]
    as it was. *)
Definition extract_chunk (chunk : Response) : option string * option string :=
  let '((chunk_text, chunk_thinking), raised) :=
    match resp_candidates chunk with
    | Some candidates => scan_candidates candidates (None, None)
    | None => ((None, None), false)
    end in
  if raised then (chunk_text, chunk_thinking)
  else if truthy chunk_text then (chunk_text, chunk_thinking)
  else match resp_text chunk with
       | Ok t => (t, chunk_thinking)
       | Raise _ => (chunk_text, chunk_thinking)
       end.

(** The arguments of a streaming run. *)
Record stream_args := {
  sa_question : string;
  sa_data_format : DataFormat;
  sa_model : string;
  sa_temperature : float;
  sa_thinking_enabled : bool
}.

(** The local variables that live across the stream loop. *)
Record locals := {
  l_start_time : float;
  l_first_token_time : option float;
  l_full_answer : string;
  l_input_tokens : Z;
  l_output_tokens : Z;
  l_thinking_content : string
}.

(** A stream still to be read: the chunks to come and how it ends. *)
Definition stream : Type := list Response * option exn.

(** The generator object: where its body is suspended. *)
Inductive gen_state :=
| Created
| AtPrompt (full_prompt : string)
| AtThinking (l : locals) (chunk_text : option string) (chunk : Response) (rest : stream)
| AtChunk (l : locals) (chunk : Response) (rest : stream)
| AtLast
| Exhausted.

(** What [next(generator)] gives. *)
Inductive step :=
| Yield (e : event)
| StopIteration
| Raised (e : exn).

(** The token counts of a chunk replace the ones seen so far. *)
Definition update_usage (l : locals) (chunk : Response) : locals :=
  match resp_usage_metadata chunk with
  | Some u =>
      {| l_start_time := l_start_time l;
         l_first_token_time := l_first_token_time l;
         l_full_answer := l_full_answer l;
         l_input_tokens := or_zero (prompt_token_count u);
         l_output_tokens := or_zero (candidates_token_count u);
         l_thinking_content := l_thinking_content l |}
  | None => l
  end.

Definition add_thinking (l : locals) (text : string) : locals :=
  {| l_start_time := l_start_time l;
     l_first_token_time := l_first_token_time l;
     l_full_answer := l_full_answer l;
     l_input_tokens := l_input_tokens l;
     l_output_tokens := l_output_tokens l;
     l_thinking_content := l_thinking_content l +:+ text |}.

(** From [if chunk_text:] on: with a text, the first-token time is taken
    if it was not, the text is appended and a [chunk] event is due. *)
Definition text_stage (env : Env) (a : stream_args) (l : locals)
  (chunk_text : option string) (st : State) : option event * locals * State :=
  if truthy chunk_text then
    let text := text_or_empty chunk_text in
    let '(first, st') :=
      match l_first_token_time l with
      | Some t => (t, st)
      | None => (env_perf_counter env (st_ticks st),
                 {| st_ticks := S (st_ticks st); st_sent := st_sent st |})
      end in
    (Some (EvChunk (value (sa_data_format a)) text),
     {| l_start_time := l_start_time l;
        l_first_token_time := Some first;
        l_full_answer := l_full_answer l +:+ text;
        l_input_tokens := l_input_tokens l;
        l_output_tokens := l_output_tokens l;
        l_thinking_content := l_thinking_content l |},
     st')
  else (None, l, st).

(** After the loop ended without exception: the [complete] event. *)
Definition complete (env : Env) (a : stream_args) (l : locals) (st : State)
  : (step * gen_state) * State :=
  let end_time := env_perf_counter env (st_ticks st) in
  let st' := {| st_ticks := S (st_ticks st); st_sent := st_sent st |} in
  let latency_ms := elapsed_ms (l_start_time l) end_time in
  let ttft_ms :=
    match l_first_token_time l with
    | Some t => elapsed_ms (l_start_time l) t
    | None => latency_ms
    end in
  (Yield (EvComplete (value (sa_data_format a)) (l_full_answer l) latency_ms ttft_ms
                     (l_input_tokens l) (l_output_tokens l) (sa_model a)),
   AtLast, st').

(** The [for chunk in stream] loop inside the [try], run up to the next
    [yield]: an exception of the stream is turned into an [error] event. *)
Fixpoint stream_loop (env : Env) (a : stream_args) (ending : option exn)
  (chunks : list Response) (l : locals) (st : State) : (step * gen_state) * State :=
  match chunks with
  | [] =>
      match ending with
      | Some e => (Yield (EvError (value (sa_data_format a)) (exn_str e)), AtLast, st)
      | None => complete env a l st
      end
  | chunk :: rest =>
      let '(chunk_text, chunk_thinking) := extract_chunk chunk in
      if truthy chunk_thinking then
        let text := text_or_empty chunk_thinking in
        (Yield (EvThinking (value (sa_data_format a)) text),
         AtThinking (add_thinking l text) chunk_text chunk (rest, ending), st)
      else
        match text_stage env a l chunk_text st with
        | (Some ev, l', st') => (Yield ev, AtChunk l' chunk (rest, ending), st')
        | (None, l', st') => stream_loop env a ending rest (update_usage l' chunk) st'
        end
  end.

(** [next(g)] on the generator that
    [run_single_experiment_streaming(question, data_format, model,
    temperature, thinking_enabled)] returns: its body runs to the next
    [yield], to its end, or to an exception that leaves it. *)
Definition next (env : Env) (a : stream_args) (g : gen_state) (st : State)
  : (step * gen_state) * State :=
  match g with
  | Created =>
      match env_client env with
      | Raise e => (Raised e, Exhausted, st)
      | Ok _ =>
          match _prepare_data_prompt (env_data env) (sa_data_format a) with
          | Raise e => (Raised e, Exhausted, st)
          | Ok data_prompt =>
              let full_prompt := full_prompt data_prompt (sa_question a) in
              (Yield (EvPrompt (value (sa_data_format a)) system_prompt full_prompt
                               (String.length full_prompt)),
               AtPrompt full_prompt, st)
          end
      end
  | AtPrompt full_prompt =>
      let start_time := env_perf_counter env (st_ticks st) in
      let st := {| st_ticks := S (st_ticks st); st_sent := st_sent st |} in
      let l := {| l_start_time := start_time;
                  l_first_token_time := None;
                  l_full_answer := EmptyString;
                  l_input_tokens := 0;
                  l_output_tokens := 0;
                  l_thinking_content := EmptyString |} in
      let config := build_config system_prompt (sa_temperature a)
                                 (sa_thinking_enabled a) (sa_model a) in
      let '((chunks, ending), st) :=
        generate_content_stream env
          {| req_model := sa_model a; req_contents := full_prompt; req_config := config |}
          st in
      stream_loop env a ending chunks l st
  | AtThinking l chunk_text chunk (rest, ending) =>
      match text_stage env a l chunk_text st with
      | (Some ev, l', st') => (Yield ev, AtChunk l' chunk (rest, ending), st')
      | (None, l', st') => stream_loop env a ending rest (update_usage l' chunk) st'
      end
  | AtChunk l chunk (rest, ending) =>
      stream_loop env a ending rest (update_usage l chunk) st
  | AtLast => (StopIteration, Exhausted, st)
  | Exhausted => (StopIteration, Exhausted, st)
  end.

(** How the consumer's iteration over a generator ends. *)
Inductive finish :=
| Returned
| Propagated (e : exn)
| Unfinished.

(** A consumer that iterates over the generator, as [for event in g]
    does, for at most [fuel] calls of [next]: the events received and how
    the iteration ended. *)
Fixpoint consume (env : Env) (a : stream_args) (fuel : nat) (g : gen_state) (st : State)
  : (list event * finish) * State :=
  match fuel with
  | O => (([], Unfinished), st)
  | S fuel' =>
      match next env a g st with
      | (Yield ev, g', st') =>
          let '((evs, fin), st'') := consume env a fuel' g' st' in
          ((ev :: evs, fin), st'')
      | (StopIteration, _, st') => (([], Returned), st')
      | (Raised e, _, st') => (([], Propagated e), st')
      end
  end.

(** What the consumer receives once [next] has given [res]. *)
Definition received (env : Env) (a : stream_args) (fuel : nat)
  (res : (step * gen_state) * State) : (list event * finish) * State :=
  match res with
  | (Yield ev, g', st') =>
      let '((evs, fin), st'') := consume env a fuel g' st' in
      ((ev :: evs, fin), st'')
  | (StopIteration, _, st') => (([], Returned), st')
  | (Raised e, _, st') => (([], Propagated e), st')
  end.

(** *** Comparing the formats *)

Record ComparisonResult := {
  cr_question : string;
  cr_expected_answer : option string;
  cr_results : list (DataFormat * ExperimentResult)
}.

(** The loop of [run_comparison]: the runner is called with the question,
    the format and the model, and so with its default temperature and
    thinking setting. *)
Fixpoint run_formats (env : Env) (question model : string) (formats : list DataFormat)
  : io (list (DataFormat * ExperimentResult)) :=
  match formats with
  | [] => mret []
  | data_format :: rest =>
      result ← run_single_experiment env question data_format model
                 default_temperature default_thinking_enabled;
      results ← run_formats env question model rest;
      mret ((data_format, result) :: results)
  end.

(** [run_comparison(question, expected_answer, model)] *)
Definition run_comparison (env : Env) (question : string)
  (expected_answer : option string) (model : string) : io ComparisonResult :=
  results ← run_formats env question model all_formats;
  mret {| cr_question := question;
          cr_expected_answer := expected_answer;
          cr_results := results |}.

(** [ComparisonResult.to_dict()] *)
Definition to_dict (c : ComparisonResult) : json :=
  JObj [("question", JStr (cr_question c));
        ("expected_answer",
         match cr_expected_answer c with Some e => JStr e | None => JNull end);
        ("results",
         JObj (map (fun fr =>
                      (value (fst fr),
                       JObj [("answer", JStr (answer (snd fr)));
                             ("latency_ms", JFloat (latency_ms (snd fr)));
                             ("input_tokens", JInt (input_tokens (snd fr)));
                             ("output_tokens", JInt (output_tokens (snd fr)))]))
                   (cr_results c)))].

(** The system instruction as the specification quotes it: one line. *)
Definition system_instruction_lines : list string :=
  ["You are a data analyst assistant. Answer the question based solely on the provided data.";
   "Be precise and concise. If you need to perform calculations, show your reasoning briefly.";
   "Give a direct answer first, then explain if needed."].

Definition quoted_system_instruction : string := join " " system_instruction_lines.

(** Events between the [prompt] event and the terminal one. *)
Definition is_fragment (e : event) : Prop :=
  event_type e = "chunk" \/ event_type e = "thinking".

(** A request that carries the runner's default temperature and no
    thinking budget. *)
Definition uses_defaults (r : Request) : Prop :=
  temperature (req_config r) = default_temperature /\
  thinking_config (req_config r) = None.

End Experiment.

(** ** [web_app]: the HTTP handlers of the experiments *)

Module WebApp.

Import Experiment.

(** The body of [/api/experiment/compare] and [/api/experiment/parallel]
    requests; the last three fields have defaults. *)
Record QuestionRequest := {
  qr_question : string;
  qr_model : string;
  qr_temperature : float;
  qr_thinking_enabled : bool
}.

(** The body of [/api/experiment/single] requests. *)
Record SingleExperimentRequest := {
  se_question : string;
  se_data_format : string;
  se_model : string;
  se_temperature : float;
  se_thinking_enabled : bool
}.

(** What a handler answers: a JSON body, or the [HTTPException] that it
    raised. *)
Inductive http_response :=
| HttpOk (body : json)
| HttpError (status : Z) (detail : string).

(** [run_single(request)] *)
Definition run_single (env : Env) (request : SingleExperimentRequest) (st : State)
  : http_response * State :=
  match of_value (se_data_format request) with
  | Raise _ =>
      (HttpError 400 ("Invalid data format: " +:+ se_data_format request), st)
  | Ok data_format =>
      match run_single_experiment env (se_question request) data_format
              (se_model request) default_temperature default_thinking_enabled st with
      | (Ok result, st') =>
          (HttpOk (JObj [("question", JStr (question result));
                         ("data_format", JStr (value (Experiment.data_format result)));
                         ("answer", JStr (answer result));
                         ("latency_ms", JFloat (latency_ms result));
                         ("input_tokens", JInt (input_tokens result));
                         ("output_tokens", JInt (output_tokens result));
                         ("model", JStr (model result))]),
           st')
      | (Raise e, st') => (HttpError 500 (exn_str e), st')
      end
  end.

(** [run_comparison_endpoint(request)] *)
Definition run_comparison_endpoint (env : Env) (request : QuestionRequest) (st : State)
  : http_response * State :=
  match run_comparison env (qr_question request) None (qr_model request) st with
  | (Ok comparison, st') => (HttpOk (to_dict comparison), st')
  | (Raise e, st') => (HttpError 500 (exn_str e), st')
  end.

(** The three formats of the parallel comparison. *)
Definition formats : list DataFormat :=
  [RAW_CSV; CSV_WITH_METADATA; ENGLISH_SENTENCES].

(** The inner function [run_format(data_format)] of the parallel
    handler: the key and the value that it returns; an exception of the
    runner becomes an [error] entry. *)
Definition run_format (env : Env) (request : QuestionRequest) (data_format : DataFormat)
  (st : State) : (string * json) * State :=
  match run_single_experiment env (qr_question request) data_format
          (qr_model request) (qr_temperature request) (qr_thinking_enabled request) st with
  | (Ok result, st') =>
      ((value data_format,
        JObj [("data_format", JStr (value (Experiment.data_format result)));
              ("answer", JStr (answer result));
              ("latency_ms", JFloat (latency_ms result));
              ("input_tokens", JInt (input_tokens result));
              ("output_tokens", JInt (output_tokens result));
              ("model", JStr (model result));
              ("system_prompt", JStr (result_system_prompt result));
              ("user_prompt", JStr (result_user_prompt result))]),
       st')
  | (Raise e, st') =>
      ((value data_format, JObj [("error", JStr (exn_str e))]), st')
  end.

(** The workers of the pool, each run taken as one step, in the order
    [schedule] in which they happen to run: the pair that each future
    holds. *)
Fixpoint run_workers (env : Env) (request : QuestionRequest) (schedule : list DataFormat)
  (st : State) : list (DataFormat * (string * json)) * State :=
  match schedule with
  | [] => ([], st)
  | data_format :: rest =>
      let '(entry, st') := run_format env request data_format st in
      let '(entries, st'') := run_workers env request rest st' in
      ((data_format, entry) :: entries, st'')
  end.

(** [future.result()] of the worker submitted for a format. *)
Fixpoint future_result (futures : list (DataFormat * (string * json))) (f : DataFormat)
  : option (string * json) :=
  match futures with
  | [] => None
  | (f', entry) :: rest => if decide (f' = f) then Some entry else future_result rest f
  end.

(** The body that the parallel handler returns. *)
Record ParallelResponse := {
  pr_question : string;
  pr_model : string;
  pr_results : gmap string json
}.

(** [results[fmt_value] = result] for each future as it completes. *)
Definition collect_results (completed : list (string * json)) : gmap string json :=
  fold_left (fun results entry => <[fst entry := snd entry]> results) completed ∅.

(** [run_parallel_experiment(request)].  The pool has one worker per
    format; [schedule] is the order in which the workers happen to run and
    [completion] the order in which [as_completed] hands the futures
    back. *)
Definition run_parallel_experiment (env : Env) (request : QuestionRequest)
  (schedule completion : list DataFormat) (st : State) : ParallelResponse * State :=
  let '(futures, st') := run_workers env request schedule st in
  ({| pr_question := qr_question request;
      pr_model := qr_model request;
      pr_results := collect_results (omap (future_result futures) completion) |},
   st').

End WebApp.

(** * Sample inputs *)

(** A response without aggregated text whose only part is a thought. *)
Definition thought_only_response : Response :=
  {| resp_text := Ok None;
     resp_candidates :=
       Some [{| candidate_content :=
                  Some {| content_parts :=
                            Some [{| part_text := Some "Let me think.";
                                     part_thought := true |}] |} |}];
     resp_usage_metadata := None |}.

(** An environment with an empty data directory whose endpoint always
    gives the same reply. *)
Definition env_replying (reply : Response) : Env :=
  {| env_data := {| csv_files := ∅; schema_metadata := None |};
     env_client := Ok ();
     env_generate_content := fun _ _ => Ok reply;
     env_generate_content_stream := fun _ _ => ([reply], None);
     env_perf_counter := fun n => PyFloat.of_int (Z.of_nat n) |}.

(** A thought fragment followed by an answer fragment. *)
Definition two_chunks : list Response :=
  [thought_only_response;
   {| resp_text := Ok (Some "12 products");
      resp_candidates := None;
      resp_usage_metadata :=
        Some {| prompt_token_count := Some 1500; candidates_token_count := None |} |}].

(** An environment whose stream delivers [two_chunks] and then fails. *)
Definition env_stream_failing : Env :=
  {| env_data := {| csv_files := ∅; schema_metadata := None |};
     env_client := Ok ();
     env_generate_content := fun _ _ => Raise (Exn EndpointError "503 UNAVAILABLE");
     env_generate_content_stream :=
       fun _ _ => (two_chunks, Some (Exn EndpointError "503 UNAVAILABLE"));
     env_perf_counter := fun n => PyFloat.of_int (Z.of_nat n) |}.

(** The arguments of a streaming run over the raw tabular encoding. *)
Definition raw_csv_args : Experiment.stream_args :=
  {| Experiment.sa_question := "How many products are in the catalog?";
     Experiment.sa_data_format := RAW_CSV;
     Experiment.sa_model := Experiment.default_model;
     Experiment.sa_temperature := Experiment.default_temperature;
     Experiment.sa_thinking_enabled := true |}.

(** An environment in which the model client cannot even be created. *)
Definition env_without_client : Env :=
  {| env_data := {| csv_files := ∅; schema_metadata := None |};
     env_client := Raise (Exn ValueError "Missing key inputs argument!");
     env_generate_content := fun _ _ => Raise (Exn EndpointError "unreachable");
     env_generate_content_stream := fun _ _ => ([], None);
     env_perf_counter := fun n => PyFloat.of_int (Z.of_nat n) |}.

(** A request to compare the formats with a low temperature and thinking. *)
Definition sample_question : WebApp.QuestionRequest :=
  {| WebApp.qr_question := "How many products are in the catalog?";
     WebApp.qr_model := "gemini-2.5-pro";
     WebApp.qr_temperature := 0.2%float;
     WebApp.qr_thinking_enabled := true |}.

(** A product row as [iterrows] gives it, with the given prices. *)
Definition product_row (unit_price cost_price : cell) : Series :=
  [("product_id", CStr "P001");
   ("product_name", CStr "Wireless Mouse Ergonomic");
   ("category", CStr "Electronics");
   ("subcategory", CStr "Accessories");
   ("brand", CStr "TechPro");
   ("unit_price", unit_price);
   ("cost_price", cost_price);
   ("supplier_id", CStr "SUP001")].

(** *** A small store *)

Definition customers_columns : list string :=
  ["customer_id"; "first_name"; "last_name"; "email"; "city"; "state"; "country";
   "customer_segment"; "join_date"].

Definition suppliers_columns : list string :=
  ["supplier_id"; "supplier_name"; "country"; "lead_time_days"; "reliability_rating";
   "contact_email"].

Definition products_columns : list string :=
  ["product_id"; "product_name"; "category"; "subcategory"; "brand"; "unit_price";
   "cost_price"; "supplier_id"].

Definition orders_columns : list string :=
  ["order_id"; "customer_id"; "order_date"; "shipping_method"; "shipping_address_city";
   "payment_method"; "order_status"; "discount_applied"].

Definition order_items_columns : list string :=
  ["order_item_id"; "order_id"; "product_id"; "quantity"; "unit_price_at_sale";
   "total_price"].

(** A file of the data directory; the claims below do not depend on the
    text of the files, so the samples leave it out. *)
Definition file_of (columns : list string) (rows : list (list cell)) : csv_file :=
  {| csv_text := join "," columns;
     csv_frame := {| df_columns := columns; df_rows := rows |} |}.

Definition store_of (customers suppliers products orders order_items : list (list cell))
  : data_dir :=
  {| csv_files :=
       list_to_map
         [("customers", file_of customers_columns customers);
          ("suppliers", file_of suppliers_columns suppliers);
          ("products", file_of products_columns products);
          ("orders", file_of orders_columns orders);
          ("order_items", file_of order_items_columns order_items)];
     schema_metadata := None |}.

Definition customer_row (id first last segment : string) : list cell :=
  [CStr id; CStr first; CStr last; CStr (first +:+ "@example.com"); CStr "Portland";
   CStr "OR"; CStr "USA"; CStr segment; CStr "2023-01-15"].

Definition supplier_row : list cell :=
  [CStr "SUP001"; CStr "TechWorld Distribution"; CStr "USA"; CInt 7; CFloat 4.8;
   CStr "orders@techworld.example"].

Definition order_row (discount : float) : list cell :=
  [CStr "ORD001"; CStr "C001"; CStr "2024-03-01"; CStr "Express"; CStr "Portland";
   CStr "Credit Card"; CStr "Delivered"; CFloat discount].

Definition order_item_row : list cell :=
  [CStr "OI001"; CStr "ORD001"; CStr "P001"; CInt 3; CFloat 20; CFloat 60].

Definition product_cells (unit_price cost_price : float) : list cell :=
  [CStr "P001"; CStr "Wireless Mouse Ergonomic"; CStr "Electronics"; CStr "Accessories";
   CStr "TechPro"; CFloat unit_price; CFloat cost_price; CStr "SUP001"].

(** The store of the specification's scenario: two customers, one
    supplier, one product, one order with one line item, and a third
    customer so that the segments differ in frequency. *)
Definition small_store : data_dir :=
  store_of
    [customer_row "C001" "Emily" "Nakamura" "Standard";
     customer_row "C002" "Robert" "Kim" "VIP";
     customer_row "C003" "Ana" "Lopez" "VIP"]
    [supplier_row]
    [product_cells 20 10]
    [order_row 5]
    [order_item_row].

(** Five tables, all without rows. *)
Definition empty_store : data_dir := store_of [] [] [] [] [].

(** Five tables; the one order refers to a customer, but the customers
    table has no rows. *)
Definition store_without_customers : data_dir :=
  store_of [] [supplier_row] [product_cells 20 10] [order_row 0] [order_item_row].

(** *** Reference kernels *)

(** Float addition from left to right, starting from zero. *)
Definition sum_cells (values : list cell) : cell :=
  fold_left (fun acc v =>
               match acc, v with
               | CFloat a, CFloat x => CFloat (PrimFloat.add a x)
               | CFloat a, CInt n => CFloat (PrimFloat.add a (PyFloat.of_int n))
               | _, _ => acc
               end)
            values (CFloat 0).

(** IEEE division, which gives an infinity or NaN for a zero divisor. *)
Definition ieee_truediv (a : cell) (n : Z) : cell :=
  match a with
  | CFloat x => CFloat (PrimFloat.div x (PyFloat.of_int n))
  | CInt k => CFloat (PrimFloat.div (PyFloat.of_int k) (PyFloat.of_int n))
  | CStr _ => a
  end.

Definition float_of_cell (c : cell) : float :=
  match c with
  | CFloat x => x
  | CInt n => PyFloat.of_int n
  | CStr _ => 0%float
  end.

(** The sums per key, in encounter order of the keys. *)
Fixpoint add_to_group (groups : list (cell * float)) (k : cell) (x : float)
  : list (cell * float) :=
  match groups with
  | [] => [(k, x)]
  | (k', s) :: rest =>
      if PyVal.eqb k' k then (k', PrimFloat.add s x) :: rest
      else (k', s) :: add_to_group rest k x
  end.

Definition float_ge (p q : cell * float) : Prop := PrimFloat.leb (snd q) (snd p) = true.

#[global] Instance float_ge_dec : RelDecision float_ge.
Proof. intros p q. unfold float_ge. apply _. Defined.

Definition grouped_sums (keys values : list cell) : list cell :=
  map fst
      (merge_sort float_ge
         (fold_left (fun g kv => add_to_group g (fst kv) (float_of_cell (snd kv)))
                    (combine keys values) [])).

#[global] Instance count_ge_dec : RelDecision CsvToEnglish.count_ge.
Proof. intros p q. unfold CsvToEnglish.count_ge. apply _. Defined.

(** Kernels for small frames: plain float arithmetic and a merge sort. *)
Definition reference_kernels : CsvToEnglish.kernels :=
  {| CsvToEnglish.series_sum := sum_cells;
     CsvToEnglish.numpy_truediv := ieee_truediv;
     CsvToEnglish.grouped_sums_desc := grouped_sums;
     CsvToEnglish.sort_counts_desc := merge_sort CsvToEnglish.count_ge |}.

(** The summary of the small store. *)
Definition small_store_summary : string :=
  join Json.newline
    [""; "## Data Summary"; "";
     "The e-commerce database contains:";
     "- 3 customers across 1 states";
     "- 1 products from 1 suppliers";
     "- 1 orders with 1 line items";
     "- Total revenue: $60.00";
     "- Average order value: $60.00";
     "";
     "Customer segments: VIP: 2, Standard: 1";
     "";
     "The best-selling product by revenue is " +:+ Json.quote +:+
     "Wireless Mouse Ergonomic" +:+ Json.quote +:+ ".";
     ""].
(** * The rest of the pipeline *)

(** ** What the renderers read, in the order of reading *)

(** The columns of a customer sentence. *)
Definition customer_fields : list string :=
  ["first_name"; "last_name"; "customer_id"; "customer_segment"; "join_date"; "city";
   "state"; "country"; "email"].

(** The columns of a supplier sentence. *)
Definition supplier_fields : list string :=
  ["supplier_name"; "supplier_id"; "country"; "lead_time_days"; "reliability_rating";
   "contact_email"].

(** The tables that [convert_all_to_english] takes from the dictionary. *)
Definition document_tables : list string :=
  ["customers"; "products"; "suppliers"; "orders"; "order_items"].

(** The tables that [get_summary_statistics] takes before it computes. *)
Definition summary_tables : list string :=
  ["order_items"; "orders"; "products"; "customers"].

(** One block of the CSV listing: the header line of a table and the
    text of its file. *)
Definition table_block (name : string) (f : csv_file) : string :=
  "=== TABLE: " +:+ name +:+ " ===" +:+ Json.newline +:+ csv_text f.


(** ** Frames without floats *)

Definition is_float (c : cell) : bool :=
  match c with
  | CFloat _ => true
  | _ => false
  end.

Definition float_free_b (df : DataFrame) : bool :=
  forallb (forallb (fun c => negb (is_float c))) (df_rows df).

(** No cell of the frame is a float (nor, so, a missing value). *)
Definition float_free (df : DataFrame) : Prop :=
  Forall (Forall (fun c => is_float c = false)) (df_rows df).

(** ** Events of a stream *)

(** The texts of the [chunk] events, concatenated in order. *)
Fixpoint chunk_texts (events : list Experiment.event) : string :=
  match events with
  | [] => EmptyString
  | Experiment.EvChunk _ text :: rest => text +:+ chunk_texts rest
  | _ :: rest => chunk_texts rest
  end.

(** The token counts after a chunk: those of the chunk when it carries
    usage metadata, the ones seen before otherwise. *)
Definition usage_after (seen : Z * Z) (chunk : Response) : Z * Z :=
  match resp_usage_metadata chunk with
  | Some u =>
      (Experiment.or_zero (prompt_token_count u),
       Experiment.or_zero (candidates_token_count u))
  | None => seen
  end.

(** The token counts that the generator holds. *)
Definition tokens (l : Experiment.locals) : Z * Z :=
  (Experiment.l_input_tokens l, Experiment.l_output_tokens l).

(** The token counts that a whole stream leaves. *)
Definition final_usage (chunks : list Response) : Z * Z :=
  fold_left usage_after chunks (0, 0).

(** A generator that has made its request: it is suspended inside the
    loop over the stream, or after it. *)
Definition started (g : Experiment.gen_state) : Prop :=
  match g with
  | Experiment.Created | Experiment.AtPrompt _ => False
  | _ => True
  end.

(** ** [experiment]: the full run and its report *)

Module Report.

Import Experiment.

(** An entry of the question list: a dictionary with text keys and
    values. *)
Definition question_entry : Type := list (string * string).

(** [q.get(key)] *)
Fixpoint entry_get (q : question_entry) (key : string) : option string :=
  match q with
  | [] => None
  | (k, v) :: rest => if String.eqb k key then Some v else entry_get rest key
  end.

(** [q[key]] *)
Definition entry_getitem (q : question_entry) (key : string) : outcome string :=
  match entry_get q key with
  | Some v => Ok v
  | None => Raise (Pandas.key_error key)
  end.

Definition RESEARCH_QUESTIONS : list question_entry :=
 [
  [("question", "What is the most expensive product in the catalog?");
   ("expected", "The Smart Watch Fitness (P010) at $199.99");
   ("type", "lookup");
   ("difficulty", "easy")];
  [("question", "Which supplier has the best reliability rating?");
   ("expected", "TechWorld Distribution (SUP001) with a rating of 4.8");
   ("type", "lookup");
   ("difficulty", "easy")];
  [("question", "How many customers are in the VIP segment?");
   ("expected", "2 customers (Emily Nakamura and Robert Kim)");
   ("type", "count");
   ("difficulty", "easy")];
  [("question", "What is the cheapest product?");
   ("expected", "Organic Green Tea (50 bags) at $12.99");
   ("type", "lookup");
   ("difficulty", "easy")];
  [("question", "How many products are in the catalog?");
   ("expected", "12 products");
   ("type", "count");
   ("difficulty", "easy")];
  [("question", "How many orders are still pending or processing?");
   ("expected", "4 orders (2 Pending, 2 Processing)");
   ("type", "filtering");
   ("difficulty", "medium")];
  [("question", "What is the total revenue from all orders?");
   ("expected", "The total revenue is approximately $2,544.54");
   ("type", "aggregation");
   ("difficulty", "medium")];
  [("question", "How many products are in the Electronics category?");
   ("expected", "4 products");
   ("type", "filtering");
   ("difficulty", "medium")];
  [("question", "What payment method is used most frequently?");
   ("expected", "Credit Card (8 orders)");
   ("type", "aggregation");
   ("difficulty", "medium")];
  [("question", "Which customer has placed the most orders?");
   ("expected", "Multiple customers tied at 2 orders each");
   ("type", "aggregation");
   ("difficulty", "medium")];
  [("question", "Which product category has generated the most revenue?");
   ("expected", "Electronics (~$1,109.88)");
   ("type", "aggregation_with_join");
   ("difficulty", "hard")];
  [("question", "What is the average profit margin percentage across all products?");
   ("expected", "~119% average margin");
   ("type", "calculation");
   ("difficulty", "hard")];
  [("question", "What products did customer Emily Nakamura purchase across all her orders?");
   ("expected", "Smart Watch Fitness, Wireless Mouse Ergonomic, Wireless Bluetooth Headphones");
   ("type", "multi_join");
   ("difficulty", "hard")];
  [("question", "Which supplier's products have generated the most total revenue?");
   ("expected", "TechWorld Distribution (SUP001)");
   ("type", "multi_join");
   ("difficulty", "hard")];
  [("question", "What is the average order value for VIP customers vs Standard customers?");
   ("expected", "VIP customers have higher average order values");
   ("type", "complex_aggregation");
   ("difficulty", "hard")];
  [("question", "What customer attributes are most indicative of higher spending?");
   ("expected", "VIP segment customers and those in certain geographic regions tend to spend more");
   ("type", "inference");
   ("difficulty", "hard")];
  [("question", "Which product characteristics correlate with higher sales volume?");
   ("expected", "Lower price points and certain categories like Electronics tend to have higher volume");
   ("type", "inference");
   ("difficulty", "hard")];
  [("question", "Are there any suppliers whose products appear to be underperforming?");
   ("expected", "Analysis of supplier product sales vs catalog presence");
   ("type", "inference");
   ("difficulty", "hard")];
  [("question", "What patterns do you notice in shipping method preferences across customer segments?");
   ("expected", "VIP customers may prefer express shipping; patterns vary by segment");
   ("type", "inference");
   ("difficulty", "hard")];
  [("question", "Based on the data, which product categories might benefit from expanding inventory?");
   ("expected", "Categories with high sales velocity and good margins");
   ("type", "inference");
   ("difficulty", "hard")];
  [("question", "What insights can you draw about customer loyalty from repeat purchase patterns?");
   ("expected", "Analysis of customers with multiple orders and their characteristics");
   ("type", "inference");
   ("difficulty", "hard")]
 ].

(** The loop of [run_full_experiment]: the question text is read first
    (for the log line), then the comparison runs. *)
Fixpoint run_questions (env : Env) (model : string) (questions : list question_entry)
  : io (list ComparisonResult) :=
  match questions with
  | [] => mret []
  | q :: rest =>
      question ← lift (entry_getitem q "question");
      comparison ← run_comparison env question (entry_get q "expected") model;
      all_results ← run_questions env model rest;
      mret (comparison :: all_results)
  end.

(** [run_full_experiment(model, questions)]; [None] stands for the
    omitted argument. *)
Definition run_full_experiment (env : Env) (model : string)
  (questions : option (list question_entry)) : io (list ComparisonResult) :=
  run_questions env model
    (match questions with
     | None => RESEARCH_QUESTIONS
     | Some qs => qs
     end).

(** [s.replace("\n", " ")] *)
Fixpoint replace_newlines (s : string) : string :=
  match s with
  | EmptyString => EmptyString
  | String c rest =>
      String (if Ascii.eqb c (ascii_of_N 10) then " "%char else c) (replace_newlines rest)
  end.

(** The answer as the table shows it: the first hundred characters on
    one line, with an ellipsis when more were cut off. *)
Definition answer_short (answer : string) : string :=
  let short := replace_newlines (String.substring 0 100 answer) in
  if (100 <? String.length answer)%nat then short +:+ "..." else short.

(** The member name of a format. *)
Definition name (f : DataFormat) : string :=
  match f with
  | RAW_CSV => "RAW_CSV"
  | CSV_WITH_METADATA => "CSV_WITH_METADATA"
  | ENGLISH_SENTENCES => "ENGLISH_SENTENCES"
  | JSON => "JSON"
  | JSON_WITH_METADATA => "JSON_WITH_METADATA"
  end.

(** [repr(fmt)], which is the text of the [KeyError] for a missing
    format. *)
Definition repr (f : DataFormat) : string :=
  "<DataFormat." +:+ name f +:+ ": '" +:+ value f +:+ "'>".

(** [comparison.results[fmt]] *)
Fixpoint results_getitem (results : list (DataFormat * ExperimentResult))
  (fmt : DataFormat) : outcome ExperimentResult :=
  match results with
  | [] => Raise (Exn KeyError (repr fmt))
  | (f, r) :: rest => if decide (f = fmt) then Ok r else results_getitem rest fmt
  end.

(** A comparison that holds a result for every encoding. *)
Definition complete_comparison (c : ComparisonResult) : Prop :=
  forall f, exists r, results_getitem (cr_results c) f = Ok r.

(** One row of the table of a question. *)
Definition result_row (fmt : DataFormat) (result : ExperimentResult) : string :=
  "| " +:+ value fmt +:+ " | " +:+ answer_short (answer result) +:+ " | " +:+
  PyFloat.format_f false 0 (latency_ms result) +:+ "ms | " +:+
  str_int (input_tokens result) +:+ "/" +:+ str_int (output_tokens result) +:+ " |".

(** The lines that one comparison adds to the report; [i] counts the
    questions from one. *)
Definition comparison_lines (i : nat) (comparison : ComparisonResult)
  : outcome (list string) :=
  rows ← comprehension
           (fun fmt =>
              result ← results_getitem (cr_results comparison) fmt;
              Ok (result_row fmt result))
           all_formats;
  Ok ([nl +:+ "## Question " +:+ str_int (Z.of_nat i) +:+ ": " +:+
       cr_question comparison +:+ nl] ++
      (if truthy (cr_expected_answer comparison)
       then ["**Expected:** " +:+ text_or_empty (cr_expected_answer comparison) +:+ nl]
       else []) ++
      [nl +:+ "| Format | Answer | Latency | Tokens (in/out) |";
       "|--------|--------|---------|-----------------|"] ++
      rows ++ [EmptyString]).

Fixpoint report_lines (i : nat) (results : list ComparisonResult) : outcome (list string) :=
  match results with
  | [] => Ok []
  | comparison :: rest =>
      lines ← comparison_lines i comparison;
      more ← report_lines (S i) rest;
      Ok (lines ++ more)
  end.

(** [format_results_markdown(results)] *)
Definition format_results_markdown (results : list ComparisonResult) : outcome string :=
  lines ← report_lines 1 results;
  Ok (join nl (("# Experiment Results" +:+ nl) :: lines)).

End Report.

(** ** [web_app]: the table endpoint *)

Module WebAppData.

Import WebApp.


End WebAppData.

(** ** More sample inputs *)

(** A reply with an aggregated text and token counts. *)
Definition plain_response : Response :=
  {| resp_text := Ok (Some "12 products");
     resp_candidates := None;
     resp_usage_metadata :=
       Some {| prompt_token_count := Some 1500; candidates_token_count := Some 4 |} |}.

(** A store whose numbers are all whole, together with a schema file. *)
Definition whole_store : data_dir :=
  store_of
    [customer_row "C001" "Emily" "Nakamura" "VIP"]
    [[CStr "SUP001"; CStr "TechWorld Distribution"; CStr "USA"; CInt 7; CInt 5;
      CStr "orders@techworld.example"]]
    [[CStr "P001"; CStr "Wireless Mouse Ergonomic"; CStr "Electronics"; CStr "Accessories";
      CStr "TechPro"; CInt 20; CInt 10; CStr "SUP001"]]
    [[CStr "ORD001"; CStr "C001"; CStr "2024-03-01"; CStr "Express"; CStr "Portland";
      CStr "Credit Card"; CStr "Delivered"; CInt 5]]
    [[CStr "OI001"; CStr "ORD001"; CStr "P001"; CInt 3; CInt 20; CInt 60]].

Definition sample_metadata : json :=
  JObj [("tables",
         JObj [("customers",
                JObj [("primary_key", JStr "customer_id");
                      ("fields", JArr [JStr "customer_id"; JStr "first_name"])])]);
        ("version", JInt 1)].

Definition documented_store : data_dir :=
  {| csv_files := csv_files whole_store;
     schema_metadata := Some sample_metadata |}.

(** An environment over the documented store whose endpoint always
    replies and whose stream delivers a thought fragment and an answer
    fragment and then ends. *)
Definition env_documented : Env :=
  {| env_data := documented_store;
     env_client := Ok ();
     env_generate_content := fun _ _ => Ok plain_response;
     env_generate_content_stream := fun _ _ => (two_chunks, None);
     env_perf_counter := fun n => PyFloat.of_int (Z.of_nat n) |}.
(** * Reading the documents back *)

From Stdlib Require Import DecimalFacts DecimalPos DecimalZ.

(** The vocabulary in which the decoder is related to the encoder. *)
Module JsonText.

Import Json.

(** *** Digits *)

Fixpoint all_digits (s : string) : bool :=
  match s with
  | EmptyString => true
  | String c rest => is_digit c && all_digits rest
  end.

(** *** Scanning a number *)

(** The text after a token of the encoder's output: nothing, a comma or a
    line break. *)
Definition ends_token (s : string) : Prop :=
  match s with
  | EmptyString => True
  | String c _ => c = ","%char \/ c = ascii_of_N 10
  end.

Definition no_digit_head (s : string) : Prop :=
  match s with
  | EmptyString => True
  | String c _ => is_digit c = false
  end.

(** The parts of a number text. *)
Definition valid_integer (i : string) : Prop :=
  i = "0" \/
  exists c r, i = String c r /\ is_digit c = true /\ Ascii.eqb c "0" = false /\
              all_digits r = true.

Definition valid_digits (f : string) : Prop :=
  exists c r, f = String c r /\ is_digit c = true /\ all_digits r = true.

Definition valid_number (t : number_text) : Prop :=
  valid_integer (nt_integer t) /\
  match nt_fraction t with Some f => valid_digits f | None => True end /\
  match nt_exponent t with Some (_, e) => valid_digits e | None => True end.

Definition exponent_tail (e : option (bool * string)) (rest : string) : string :=
  match e with
  | Some (negative, digits) =>
      String "e" (String (if negative then "-" else "+")%char (digits +:+ rest))
  | None => rest
  end.

Definition fraction_tail (f : option string) (rest : string) : string :=
  match f with
  | Some digits => String "." (digits +:+ rest)
  | None => rest
  end.

(** The text of a number followed by [rest]. *)
Definition number_tail (t : number_text) (rest : string) : string :=
  let body :=
    nt_integer t +:+ fraction_tail (nt_fraction t) (exponent_tail (nt_exponent t) rest) in
  if nt_negative t then String "-" body else body.

(** *** What the decoder gives for the encoder's output *)

(** The value read from the text of a float. *)
Definition reread_float (x : float) : json :=
  match parse_literal (dumps_float x) with
  | Some (v, _) => v
  | None => JNull
  end.

(** The value read from the text of a value: the floats go through their
    text, and an object becomes the dictionary of its members. *)
Fixpoint reread (v : json) : json :=
  match v with
  | JFloat x => reread_float x
  | JArr items => JArr (map reread items)
  | JObj members => JObj (dict_of (map (fun kv => (fst kv, reread (snd kv))) members))
  | _ => v
  end.

Section JsonInduction.

Variable P : json -> Prop.

Hypothesis Hnull : P JNull.

Hypothesis Hbool : forall b, P (JBool b).

Hypothesis Hnum : forall n, P (JInt n).

Hypothesis Hfloat : forall x, P (JFloat x).

Hypothesis Hstr : forall s, P (JStr s).

Hypothesis Harr : forall items, Forall P items -> P (JArr items).

Hypothesis Hobj : forall members, Forall (fun kv => P (snd kv)) members -> P (JObj members).

Fixpoint json_nested_ind (v : json) : P v :=
  match v with
  | JNull => Hnull
  | JBool b => Hbool b
  | JInt n => Hnum n
  | JFloat x => Hfloat x
  | JStr s => Hstr s
  | JArr items =>
      Harr items
        ((fix each (l : list json) : Forall P l :=
            match l with
            | [] => @List.Forall_nil _ P
            | x :: l' => @List.Forall_cons _ P x l' (json_nested_ind x) (each l')
            end) items)
  | JObj members =>
      Hobj members
        ((fix each (l : list (string * json)) : Forall (fun kv => P (snd kv)) l :=
            match l with
            | [] => @List.Forall_nil _ _
            | kv :: l' =>
                @List.Forall_cons _ (fun kv => P (snd kv)) kv l'
                  (json_nested_ind (snd kv)) (each l')
            end) members)
  end.

End JsonInduction.

(** How a value starts. *)
Definition value_head (c : ascii) : Prop :=
  is_ws c = false /\ Ascii.eqb c "]" = false /\ Ascii.eqb c "}" = false.

(** *** The round trip *)

(** The decoder, given enough fuel, reads the text of [v] back as
    [reread v] and stops where the text ends. *)
Definition reads_back (v : json) : Prop :=
  forall fuel lvl rest,
    (String.length (dumps_at lvl v) <= fuel)%nat -> ends_token rest ->
    parse_value fuel (dumps_at lvl v +:+ rest) = Some (reread v, rest).

Definition separator (lvl : nat) : string := "," +:+ newline_indent (S lvl).

(** The text of a member: its key, a colon and its value. *)
Definition member_text (lvl : nat) (kv : string * json) : string :=
  dumps_str (fst kv) +:+ ": " +:+ dumps_at (S lvl) (snd kv).

(** *** Exact round trips *)

(** The values that come back unchanged: no float inside, and no object
    that lists a key twice. *)
Fixpoint plain (v : json) : bool :=
  match v with
  | JFloat _ => false
  | JArr items => forallb plain items
  | JObj members =>
      bool_decide (NoDup (map fst members)) && forallb (fun kv => plain (snd kv)) members
  | _ => true
  end.

Definition is_object (v : json) : Prop := exists members, v = JObj members.

End JsonText.

(** * Properties *)

(** ** Checks of the Python primitives against CPython *)

Example format_f_samples :
  map (PyFloat.format_f false 2)
      [5%float; (-0.001)%float; 0.125%float; 0.375%float; 2.675%float; 199.99%float; 0%float]
  = ["5.00"; "-0.00"; "0.12"; "0.38"; "2.67"; "199.99"; "0.00"]
  /\ PyFloat.format_f true 2 1234567.891%float = "1,234,567.89"
  /\ PyFloat.format_f false 1 1e22%float = "10000000000000000000000.0"
  /\ PyFloat.format_f false 1 (PrimFloat.div 0 0) = "nan".
Proof. vm_compute. repeat split. Qed.

Example repr_samples :
  map PyFloat.repr
      [4.8%float; 0.1%float; 100%float; 1e16%float; 1e15%float; 0.0001%float;
       0.00001%float; 1.5e-7%float; 199.99%float; 0.30000000000000004%float;
       (-2544.54)%float; 9007199254740993%float; 5e-324%float]
  = ["4.8"; "0.1"; "100.0"; "1e+16"; "1000000000000000.0"; "0.0001";
     "1e-05"; "1.5e-07"; "199.99"; "0.30000000000000004";
     "-2544.54"; "9007199254740992.0"; "5e-324"].
Proof. vm_compute. reflexivity. Qed.

Example truediv_samples :
  map (fun p => PyVal.truediv (CInt (fst p)) (CInt (snd p)))
      [(1, 3); (10, 4); (2 ^ 60 + 1, 3); (-7, 2); (1, 0)]
  = [Ok (CFloat 0.3333333333333333%float); Ok (CFloat 2.5%float);
     Ok (CFloat 3.843071682022823e+17%float); Ok (CFloat (-3.5)%float);
     Raise (Exn ZeroDivisionError "division by zero")].
Proof. vm_compute. reflexivity. Qed.

Example dumps_sample :
  Json.dumps
    (JObj [("a", JArr [JObj [("x", JFloat (PrimFloat.div 0 0));
                             ("y", JStr ("q" +:+ Json.quote +:+ "\z"));
                             ("z", JFloat 1e22); ("w", JFloat 1.5e-7); ("n", JInt (-12))]]);
           ("b", JArr [])])
  = let q := Json.quote in
    join Json.newline
      ["{";
       "  " +:+ q +:+ "a" +:+ q +:+ ": [";
       "    {";
       "      " +:+ q +:+ "x" +:+ q +:+ ": NaN,";
       "      " +:+ q +:+ "y" +:+ q +:+ ": " +:+ q +:+ "q\" +:+ q +:+ "\\z" +:+ q +:+ ",";
       "      " +:+ q +:+ "z" +:+ q +:+ ": 1e+22,";
       "      " +:+ q +:+ "w" +:+ q +:+ ": 1.5e-07,";
       "      " +:+ q +:+ "n" +:+ q +:+ ": -12";
       "    }";
       "  ],";
       "  " +:+ q +:+ "b" +:+ q +:+ ": []";
       "}"].
Proof. vm_compute. reflexivity. Qed.

(** The decoder reads back what the encoder writes. *)
Example loads_dumps_sample :
  let v := JObj [("a", JArr [JObj [("x", JInt 3);
                                   ("y", JStr ("q" +:+ Json.quote +:+ "\z" +:+ Json.newline));
                                   ("z", JFloat 1e22); ("w", JFloat (-1.5e-7));
                                   ("n", JInt (-12)); ("t", JBool true); ("u", JNull);
                                   ("f", JFloat 199.99); ("g", JFloat 0.1)]]);
                 ("b", JArr []); ("c", JObj []); ("d", JArr [JInt 1; JInt 2])] in
  Json.loads (Json.dumps v) = Ok v.
Proof. vm_compute. reflexivity. Qed.

Example loads_samples :
  Json.loads " [1, 2.5e3 ,-0.125, 1E-2, {}] "
  = Ok (JArr [JInt 1; JFloat 2500; JFloat (-0.125); JFloat 0.01; JObj []]) /\
  Json.loads "[1, 2" = Raise (Exn ValueError "Expecting value") /\
  Json.loads "01" = Raise (Exn ValueError "Extra data").
Proof. vm_compute. repeat split. Qed.

(** ** The experiment runners *)

Import Experiment.

Lemma sends_refl P st : sends P st st.
Proof. exists []. split; [reflexivity | constructor]. Qed.

Lemma sends_trans P st1 st2 st3 :
  sends P st1 st2 -> sends P st2 st3 -> sends P st1 st3.
Proof.
  intros [n1 [E1 F1]] [n2 [E2 F2]]. exists (n2 ++ n1). split.
  - rewrite E2, E1. apply app_assoc.
  - apply Forall_app. split; assumption.
Qed.

Lemma sends_weaken (P Q : Request -> Prop) st st' :
  (forall r, P r -> Q r) -> sends P st st' -> sends Q st st'.
Proof.
  intros H [new [E F]]. exists new. split; [exact E |].
  eapply Forall_impl; [exact F | exact H].
Qed.

Lemma sends_tick P st :
  sends P st {| st_ticks := S (st_ticks st); st_sent := st_sent st |}.
Proof. exists []. split; [reflexivity | constructor]. Qed.

Lemma sends_one (P : Request -> Prop) req st : P req -> sends P st (send req st).
Proof. intros H. exists [req]. split; [reflexivity | repeat constructor; exact H]. Qed.

(** The non-streaming runner sends nothing but the request built from its
    arguments. *)
Lemma run_single_experiment_sends env q f m t th st :
  sends (built_with m t th) st (snd (run_single_experiment env q f m t th st)).
Proof.
  unfold run_single_experiment, mbind, io_bind, lift, perf_counter, generate_content.
  destruct (env_client env) as [u | e]; simpl; [| apply sends_refl].
  destruct (_prepare_data_prompt (env_data env) f) as [dp | e]; simpl; [| apply sends_refl].
  match goal with
  | |- context [env_generate_content ?e ?n ?r] =>
      destruct (env_generate_content e n r) as [resp | ex] eqn:Hresp
  end; simpl.
  - destruct (usage resp) as [i o]. simpl.
    exists [request_of q m t th dp]. split; [reflexivity |].
    repeat constructor.
  - exists [request_of q m t th dp]. split; [reflexivity |].
    repeat constructor.
Qed.

(** When the non-streaming runner returns, its result carries the fixed
    system prompt, and the answer extracted from the reply of the endpoint
    to the one request it sent. *)
Lemma run_single_experiment_result env q f m t th st r st' :
  run_single_experiment env q f m t th st = (Ok r, st') ->
  exists dp resp,
    _prepare_data_prompt (env_data env) f = Ok dp /\
    env_generate_content env (length (st_sent st)) (request_of q m t th dp) = Ok resp /\
    answer r = extract_answer resp /\
    result_system_prompt r = system_prompt /\
    result_user_prompt r = full_prompt dp q /\
    data_format r = f /\ model r = m /\ question r = q /\
    (input_tokens r, output_tokens r) = usage resp.
Proof.
  unfold run_single_experiment, mbind, io_bind, lift, perf_counter, generate_content.
  destruct (env_client env) as [u | e]; simpl; [| discriminate].
  destruct (_prepare_data_prompt (env_data env) f) as [dp | e]; simpl; [| discriminate].
  fold (request_of q m t th dp).
  destruct (env_generate_content env (length (st_sent st)) (request_of q m t th dp))
    as [resp | ex] eqn:Hresp; simpl; [| discriminate].
  destruct (usage resp) as [i o] eqn:Hu. simpl.
  intros H. inversion H; subst; clear H. simpl.
  exists dp, resp. repeat split; auto.
Qed.

(** The stream loop sends nothing. *)
Lemma text_stage_sent env a l ct st :
  st_sent (snd (text_stage env a l ct st)) = st_sent st.
Proof.
  unfold text_stage. destruct (truthy ct); [| reflexivity].
  destruct (l_first_token_time l); reflexivity.
Qed.

Lemma stream_loop_sent env a ending chunks :
  forall l st, st_sent (snd (stream_loop env a ending chunks l st)) = st_sent st.
Proof.
  induction chunks as [| chunk rest IH]; intros l st; simpl.
  - destruct ending; reflexivity.
  - destruct (extract_chunk chunk) as [ct cth].
    destruct (truthy cth); [reflexivity |].
    pose proof (text_stage_sent env a l ct st) as Hs.
    destruct (text_stage env a l ct st) as [[[ev |] l'] st']; simpl in *.
    + exact Hs.
    + rewrite IH. exact Hs.
Qed.

(** One call of [next] sends nothing but the request built from the
    arguments of the generator. *)
Lemma next_sends env a g st :
  sends (built_with (sa_model a) (sa_temperature a) (sa_thinking_enabled a))
        st (snd (next env a g st)).
Proof.
  destruct g as [| fp | l ct chunk [rest ending] | l chunk [rest ending] | |]; simpl.
  - destruct (env_client env); [| apply sends_refl].
    destruct (_prepare_data_prompt (env_data env) (sa_data_format a)); apply sends_refl.
  - unfold generate_content_stream. simpl.
    match goal with
    | |- context [env_generate_content_stream ?e ?n ?r] =>
        destruct (env_generate_content_stream e n r) as [chunks ending]
    end.
    match goal with
    | |- sends _ _ (snd (stream_loop ?e ?a ?en ?cs ?l ?s)) =>
        pose proof (stream_loop_sent e a en cs l s) as Hs;
        destruct (stream_loop e a en cs l s) as [res st']
    end.
    simpl in *. eexists [_]. split; [exact Hs |]. repeat constructor.
  - pose proof (text_stage_sent env a l ct st) as Hs.
    destruct (text_stage env a l ct st) as [[[ev |] l'] st']; simpl in *.
    + exists []. split; [exact Hs | constructor].
    + exists []. split; [| constructor]. rewrite stream_loop_sent. exact Hs.
  - exists []. split; [| constructor]. apply stream_loop_sent.
  - apply sends_refl.
  - apply sends_refl.
Qed.

(** However long the consumer iterates, the generator sends nothing but
    the request built from its arguments. *)
Lemma consume_sends env a fuel :
  forall g st,
    sends (built_with (sa_model a) (sa_temperature a) (sa_thinking_enabled a))
          st (snd (consume env a fuel g st)).
Proof.
  induction fuel as [| fuel IH]; intros g st; simpl; [apply sends_refl |].
  pose proof (next_sends env a g st) as Hn.
  destruct (next env a g st) as [[[ev | | e] g'] st']; simpl in *; try exact Hn.
  specialize (IH g' st').
  destruct (consume env a fuel g' st') as [[evs fin] st'']. simpl in *.
  eapply sends_trans; eassumption.
Qed.


(** *** The system instruction *)

(** C8, as stated, fails: the system instruction of the code is not
    character for character the one-line text that the specification
    quotes; it has line breaks where the quotation has spaces. *)
Lemma system_prompt_differs_from_quotation :
  system_prompt <> quoted_system_instruction.
Proof. intros H. vm_compute in H. discriminate H. Qed.

(** C8, amended: for every question, encoding, model, temperature and
    thinking setting, in the non-streaming and in the streaming runner,
    every request sent to the model carries one fixed system instruction,
    the same for all encodings; it is the three sentences groups that the
    specification quotes, separated by line breaks instead of spaces.  The
    result of the non-streaming runner and the [prompt] event of the
    streaming one report the same text. *)
Theorem system_instruction_fixed :
  system_prompt = join Json.newline system_instruction_lines /\
  (forall env q f m t th st,
     sends (fun r => system_instruction (req_config r) = system_prompt)
           st (snd (run_single_experiment env q f m t th st))) /\
  (forall env q f m t th st r st',
     run_single_experiment env q f m t th st = (Ok r, st') ->
     result_system_prompt r = system_prompt) /\
  (forall env a fuel g st,
     sends (fun r => system_instruction (req_config r) = system_prompt)
           st (snd (consume env a fuel g st))) /\
  (forall env a st d sp up n g st',
     next env a Created st = (Yield (EvPrompt d sp up n), g, st') ->
     sp = system_prompt).
Proof.
  split; [reflexivity |]. split; [| split; [| split]].
  - intros. eapply sends_weaken; [| apply run_single_experiment_sends].
    intros r [_ Hc]. rewrite Hc. reflexivity.
  - intros env q f m t th st r st' H.
    apply run_single_experiment_result in H.
    destruct H as (dp & resp & _ & _ & _ & H & _). exact H.
  - intros. eapply sends_weaken; [| apply consume_sends].
    intros r [_ Hc]. rewrite Hc. reflexivity.
  - intros env a st d sp up n g st'. simpl.
    destruct (env_client env); [| discriminate].
    destruct (_prepare_data_prompt (env_data env) (sa_data_format a)); [| discriminate].
    intros H. inversion H. reflexivity.
Qed.

(** *** Answer extraction of the non-streaming runner *)

(** A non-empty aggregated text is the answer. *)
Lemma extract_answer_prefers_text r t :
  resp_text r = Ok (Some t) -> t <> EmptyString -> extract_answer r = t.
Proof.
  intros H Hne. unfold extract_answer. rewrite H.
  destruct t; [contradiction | reflexivity].
Qed.

(** Without a text property and without candidates the answer is empty. *)
Lemma extract_answer_nothing r :
  resp_text r = Ok None -> resp_candidates r = None -> extract_answer r = EmptyString.
Proof. intros H1 H2. unfold extract_answer. rewrite H1, H2. reflexivity. Qed.

(** An exception while reading the response leaves the answer empty. *)
Lemma extract_answer_raise r e :
  resp_text r = Raise e -> extract_answer r = EmptyString.
Proof. intros H. unfold extract_answer. rewrite H. reflexivity. Qed.

(** C1, the code at the failing input: when the aggregated text is empty
    and a part is flagged as thought, the fallback of the non-streaming
    runner does not skip it; the thought becomes the answer.  The
    streaming runner, on the same response as a chunk, keeps the thought
    out of the answer text. *)
Theorem thought_part_becomes_answer :
  extract_answer thought_only_response = "Let me think." /\
  answer <$> fst (run_single_experiment (env_replying thought_only_response)
                    "How many products are in the catalog?" RAW_CSV
                    default_model default_temperature true initial_state)
  = Ok "Let me think." /\
  extract_chunk thought_only_response = (None, Some "Let me think.").
Proof. vm_compute. repeat split. Qed.

(** *** The streaming runner *)

(** C10: an exception raised while the data section of the prompt is
    prepared leaves the generator on the first [next], before any event,
    the [prompt] event included: the consumer receives no event and the
    exception propagates to it. *)
Theorem prepare_failure_propagates
  (env : Env) (a : stream_args) (st : State) (e : exn) :
  env_client env = Ok () ->
  _prepare_data_prompt (env_data env) (sa_data_format a) = Raise e ->
  next env a Created st = (Raised e, Exhausted, st) /\
  forall fuel, consume env a (S fuel) Created st = (([], Propagated e), st).
Proof.
  intros Hc Hp.
  assert (Hn : next env a Created st = (Raised e, Exhausted, st)).
  { simpl. rewrite Hc, Hp. reflexivity. }
  split; [exact Hn |]. intros fuel.
  cbn [consume]. rewrite Hn. reflexivity.
Qed.

(** C10, at an input: without the schema document, the run with the
    tabular-with-metadata encoding raises [FileNotFoundError] out of the
    generator and yields nothing. *)
Lemma prepare_failure_propagates_witness :
  let env := env_replying thought_only_response in
  let a := {| sa_question := "How many products are in the catalog?";
              sa_data_format := CSV_WITH_METADATA;
              sa_model := default_model;
              sa_temperature := default_temperature;
              sa_thinking_enabled := false |} in
  let e := Exn FileNotFoundError "Metadata not found" in
  next env a Created initial_state = (Raised e, Exhausted, initial_state) /\
  forall fuel, consume env a (S fuel) Created initial_state
               = (([], Propagated e), initial_state).
Proof.
  intros env a e.
  apply (prepare_failure_propagates env a initial_state e); reflexivity.
Defined.

(** The event that the text stage yields is a [chunk] event. *)
Lemma text_stage_event env a l ct st ev l' st' :
  text_stage env a l ct st = (Some ev, l', st') -> event_type ev = "chunk".
Proof.
  unfold text_stage. destruct (truthy ct); [| discriminate].
  destruct (l_first_token_time l); intros H; inversion H; reflexivity.
Qed.

Lemma consume_S env a fuel g st :
  consume env a (S fuel) g st = received env a fuel (next env a g st).
Proof. reflexivity. Qed.

(** From inside the loop over a stream that ends with an exception, the
    consumer receives fragments, then the [error] event, and the
    generator returns. *)
Lemma stream_loop_raising env a e chunks :
  forall l st fuel,
    (2 * length chunks + 1 <= fuel)%nat ->
    exists mid st',
      received env a fuel (stream_loop env a (Some e) chunks l st)
      = ((mid ++ [EvError (value (sa_data_format a)) (exn_str e)], Returned), st') /\
      Forall is_fragment mid.
Proof.
  induction chunks as [| chunk rest IH]; intros l st fuel Hfuel.
  - destruct fuel as [| fuel]; [simpl in Hfuel; lia |].
    exists [], st. split; [reflexivity | constructor].
  - cbn [stream_loop]. cbn [length] in Hfuel.
    destruct (extract_chunk chunk) as [ct cth].
    assert (Hstage : forall l0 st0 fuel0,
               (2 * length rest + 2 <= fuel0)%nat ->
               exists mid st',
                 received env a fuel0
                   match text_stage env a l0 ct st0 with
                   | (Some ev, l', st') => (Yield ev, AtChunk l' chunk (rest, Some e), st')
                   | (None, l', st') =>
                       stream_loop env a (Some e) rest (update_usage l' chunk) st'
                   end
                 = ((mid ++ [EvError (value (sa_data_format a)) (exn_str e)], Returned), st')
                 /\ Forall is_fragment mid).
    { intros l0 st0 fuel0 Hf.
      destruct (text_stage env a l0 ct st0) as [[[ev |] l'] st'] eqn:Hts.
      - destruct fuel0 as [| fuel0]; [lia |].
        cbn [received]. rewrite consume_S. cbn [next].
        destruct (IH (update_usage l' chunk) st' fuel0) as (mid & st'' & Hr & Hm); [lia |].
        rewrite Hr. exists (ev :: mid), st''. split; [reflexivity |].
        constructor; [| exact Hm]. left. eapply text_stage_event. exact Hts.
      - apply IH. lia. }
    destruct (truthy cth).
    + destruct fuel as [| fuel]; [lia |].
      cbn [received]. rewrite consume_S. cbn [next].
      destruct (Hstage (add_thinking l (text_or_empty cth)) st fuel) as (mid & st' & Hr & Hm);
        [lia |].
      rewrite Hr. eexists (_ :: mid), st'. split; [reflexivity |].
      constructor; [right; reflexivity | exact Hm].
    + apply Hstage. lia.
Qed.

(** C2: a streaming run whose transport raises mid-stream.  The data
    section was prepared and the stream of the endpoint delivers [chunks]
    and then raises [e].  A consumer that iterates over the generator
    receives the [prompt] event first, then [chunk] and [thinking] events
    only, then one [error] event with the message of the exception, and no
    [complete] event; the iteration ends by the return of the generator,
    not by an exception. *)
Theorem stream_error_is_terminal_event
  (env : Env) (a : stream_args) (st : State) (data_prompt : string)
  (chunks : list Response) (e : exn) (fuel : nat) :
  env_client env = Ok () ->
  _prepare_data_prompt (env_data env) (sa_data_format a) = Ok data_prompt ->
  env_generate_content_stream env (length (st_sent st))
    (request_of (sa_question a) (sa_model a) (sa_temperature a)
                (sa_thinking_enabled a) data_prompt)
  = (chunks, Some e) ->
  (2 * length chunks + 3 <= fuel)%nat ->
  exists mid st',
    consume env a fuel Created st
    = ((EvPrompt (value (sa_data_format a)) system_prompt
                 (full_prompt data_prompt (sa_question a))
                 (String.length (full_prompt data_prompt (sa_question a)))
          :: mid ++ [EvError (value (sa_data_format a)) (exn_str e)],
        Returned), st') /\
    Forall is_fragment mid.
Proof.
  intros Hc Hp Hs Hfuel.
  destruct fuel as [| fuel]; [lia |]. destruct fuel as [| fuel]; [lia |].
  rewrite consume_S. cbn [next]. rewrite Hc, Hp. cbn [received].
  rewrite consume_S. cbn [next]. unfold generate_content_stream. cbn [st_sent].
  unfold request_of in Hs. rewrite Hs. cbn [fst snd].
  match goal with
  | |- context [stream_loop env a (Some e) chunks ?l ?s] =>
      destruct (stream_loop_raising env a e chunks l s fuel) as (mid & st' & Hr & Hm);
        [lia |]
  end.
  rewrite Hr. exists mid, st'. split; [reflexivity | exact Hm].
Qed.

(** C2, at an input: a thought fragment and an answer fragment arrive,
    then the stream fails. *)
Lemma stream_error_is_terminal_event_witness :
  exists mid st',
    consume env_stream_failing raw_csv_args 7 Created initial_state
    = ((EvPrompt "raw_csv" system_prompt
                 (full_prompt ("Here is the data in CSV format:" +:+ nl +:+ nl)
                              (sa_question raw_csv_args))
                 (String.length
                    (full_prompt ("Here is the data in CSV format:" +:+ nl +:+ nl)
                                 (sa_question raw_csv_args)))
          :: mid ++ [EvError "raw_csv" "503 UNAVAILABLE"],
        Returned), st') /\
    Forall is_fragment mid.
Proof.
  apply (stream_error_is_terminal_event env_stream_failing raw_csv_args initial_state
           ("Here is the data in CSV format:" +:+ nl +:+ nl) two_chunks
           (Exn EndpointError "503 UNAVAILABLE") 7).
  - reflexivity.
  - reflexivity.
  - reflexivity.
  - simpl. lia.
Defined.

(** The events of that run, in full. *)
Example stream_error_events :
  map event_type
      (fst (fst (consume env_stream_failing raw_csv_args 7 Created initial_state)))
  = ["prompt"; "thinking"; "chunk"; "error"].
Proof. vm_compute. reflexivity. Qed.

(** ** Which settings reach the model *)

Import WebApp.

Lemma built_with_defaults m r :
  built_with m default_temperature default_thinking_enabled r -> uses_defaults r.
Proof. intros [_ Hc]. unfold uses_defaults. rewrite Hc. split; reflexivity. Qed.

Lemma run_formats_sends env q m formats :
  forall st, sends uses_defaults st (snd (run_formats env q m formats st)).
Proof.
  induction formats as [| f rest IH]; intros st; cbn [run_formats].
  - apply sends_refl.
  - unfold mbind, io_bind.
    pose proof (run_single_experiment_sends env q f m default_temperature
                  default_thinking_enabled st) as H1.
    destruct (run_single_experiment env q f m default_temperature
                default_thinking_enabled st) as [[r | e] st1]; cbn [snd] in *.
    + specialize (IH st1).
      destruct (run_formats env q m rest st1) as [[rs | e] st2]; cbn [snd] in *;
        (eapply sends_trans;
         [eapply sends_weaken; [apply built_with_defaults | exact H1] | exact IH]).
    + eapply sends_weaken; [apply built_with_defaults | exact H1].
Qed.

Lemma run_comparison_sends env q ex m st :
  sends uses_defaults st (snd (run_comparison env q ex m st)).
Proof.
  unfold run_comparison, mbind, io_bind.
  pose proof (run_formats_sends env q m all_formats st) as H.
  destruct (run_formats env q m all_formats st) as [[rs | e] st1]; exact H.
Qed.

Lemma run_workers_sends env request schedule :
  forall st,
    sends (built_with (qr_model request) (qr_temperature request)
                      (qr_thinking_enabled request))
          st (snd (run_workers env request schedule st)).
Proof.
  induction schedule as [| f rest IH]; intros st; cbn [run_workers].
  - apply sends_refl.
  - unfold run_format.
    pose proof (run_single_experiment_sends env (qr_question request) f (qr_model request)
                  (qr_temperature request) (qr_thinking_enabled request) st) as H1.
    destruct (run_single_experiment env (qr_question request) f (qr_model request)
                (qr_temperature request) (qr_thinking_enabled request) st)
      as [[r | e] st1]; cbn [snd] in *;
      specialize (IH st1);
      destruct (run_workers env request rest st1) as [entries st2]; cbn [snd] in *;
      eapply sends_trans; eassumption.
Qed.

(** C9: the sequential paths never use the caller's temperature or
    thinking setting.  [run_comparison] has no such parameter and every
    request that it sends carries the default temperature 1.0 and no
    thinking budget; the single-experiment handler and the comparison
    handler answer the same whatever the request's [temperature] and
    [thinking_enabled] say, and send the defaults too; the parallel handler
    alone sends the request's temperature, and a thinking budget of 4096
    when the request enables thinking and the model name contains 2.5. *)
Theorem only_parallel_path_forwards_settings :
  (forall env q ex m st,
     sends uses_defaults st (snd (run_comparison env q ex m st))) /\
  (forall env q f m t th t' th' st,
     run_single env {| se_question := q; se_data_format := f; se_model := m;
                       se_temperature := t; se_thinking_enabled := th |} st
     = run_single env {| se_question := q; se_data_format := f; se_model := m;
                         se_temperature := t'; se_thinking_enabled := th' |} st) /\
  (forall env request st,
     sends uses_defaults st (snd (run_single env request st))) /\
  (forall env q m t th t' th' st,
     run_comparison_endpoint env {| qr_question := q; qr_model := m;
                                    qr_temperature := t; qr_thinking_enabled := th |} st
     = run_comparison_endpoint env {| qr_question := q; qr_model := m;
                                      qr_temperature := t'; qr_thinking_enabled := th' |} st) /\
  (forall env request st,
     sends uses_defaults st (snd (run_comparison_endpoint env request st))) /\
  (forall env request schedule completion st,
     sends (fun r =>
              temperature (req_config r) = qr_temperature request /\
              thinking_config (req_config r)
              = if qr_thinking_enabled request && contains "2.5" (qr_model request)
                then Some 4096 else None)
           st (snd (run_parallel_experiment env request schedule completion st))).
Proof.
  split; [| split; [| split; [| split; [| split]]]].
  - intros. apply run_comparison_sends.
  - intros. unfold run_single. cbn [se_data_format se_question se_model]. reflexivity.
  - intros env request st. unfold run_single.
    destruct (of_value (se_data_format request)) as [f | e]; [| apply sends_refl].
    pose proof (run_single_experiment_sends env (se_question request) f (se_model request)
                  default_temperature default_thinking_enabled st) as H.
    destruct (run_single_experiment env (se_question request) f (se_model request)
                default_temperature default_thinking_enabled st) as [[r | e] st1];
      cbn [snd] in *;
      (eapply sends_weaken; [apply built_with_defaults | exact H]).
  - intros. unfold run_comparison_endpoint. cbn [qr_question qr_model]. reflexivity.
  - intros env request st. unfold run_comparison_endpoint.
    pose proof (run_comparison_sends env (qr_question request) None (qr_model request) st)
      as H.
    destruct (run_comparison env (qr_question request) None (qr_model request) st)
      as [[c | e] st1]; exact H.
  - intros env request schedule completion st. unfold run_parallel_experiment.
    pose proof (run_workers_sends env request schedule st) as H.
    destruct (run_workers env request schedule st) as [futures st1]. cbn [snd] in *.
    eapply sends_weaken; [| exact H].
    intros r [_ Hc]. rewrite Hc. split; reflexivity.
Qed.

(** The difference at an input: the same caller settings, a temperature
    of 0.2 with thinking on a 2.5 model, reach the model through the
    parallel handler and are replaced by the defaults in the other two. *)
Example settings_forwarded_or_not :
  let sent st := map (fun r => (temperature (req_config r), thinking_config (req_config r)))
                     (st_sent st) in
  let env := env_replying thought_only_response in
  sent (snd (run_parallel_experiment env sample_question [RAW_CSV] [RAW_CSV] initial_state))
  = [(0.2%float, Some 4096)] /\
  sent (snd (run_single env {| se_question := qr_question sample_question;
                               se_data_format := "raw_csv";
                               se_model := qr_model sample_question;
                               se_temperature := 0.2%float;
                               se_thinking_enabled := true |} initial_state))
  = [(1%float, None)] /\
  sent (snd (run_comparison_endpoint env sample_question initial_state))
  = [(1%float, None)].
Proof. vm_compute. repeat split. Qed.

(** ** The parallel comparison *)

Lemma value_inj f g : value f = value g -> f = g.
Proof. destruct f, g; simpl; intros H; first [reflexivity | discriminate H]. Qed.

Lemma run_format_key env request f st :
  fst (fst (run_format env request f st)) = value f.
Proof.
  unfold run_format.
  destruct (run_single_experiment env (qr_question request) f (qr_model request)
              (qr_temperature request) (qr_thinking_enabled request) st) as [[r | e] st'];
    reflexivity.
Qed.

(** A worker whose experiment raises reports the message under [error]. *)
Lemma run_format_error env request f st e st' :
  run_single_experiment env (qr_question request) f (qr_model request)
    (qr_temperature request) (qr_thinking_enabled request) st = (Raise e, st') ->
  fst (run_format env request f st) = (value f, JObj [("error", JStr (exn_str e))]).
Proof. intros H. unfold run_format. rewrite H. reflexivity. Qed.

(** Every future holds what its worker returned, in some state. *)
Lemma run_workers_futures env request schedule :
  forall st,
    map fst (fst (run_workers env request schedule st)) = schedule /\
    Forall (fun p => exists st_f, snd p = fst (run_format env request (fst p) st_f))
           (fst (run_workers env request schedule st)).
Proof.
  induction schedule as [| f rest IH]; intros st; cbn [run_workers].
  - split; [reflexivity | constructor].
  - destruct (run_format env request f st) as [entry st1] eqn:Hrf.
    specialize (IH st1).
    destruct (run_workers env request rest st1) as [entries st2]. cbn [fst] in *.
    destruct IH as [IH1 IH2]. split.
    + cbn [map fst]. rewrite IH1. reflexivity.
    + constructor; [| exact IH2]. exists st. cbn [fst snd]. rewrite Hrf. reflexivity.
Qed.

Lemma future_result_Some futures f entry :
  future_result futures f = Some entry -> (f, entry) ∈ futures.
Proof.
  induction futures as [| [f' en] rest IH]; cbn [future_result]; [discriminate |].
  destruct (decide (f' = f)) as [-> | Hne].
  - intros H. inversion H; subst. apply list_elem_of_here.
  - intros H. apply list_elem_of_further. apply IH. exact H.
Qed.

Lemma future_result_found futures f :
  f ∈ map fst futures -> exists entry, future_result futures f = Some entry.
Proof.
  induction futures as [| [f' en] rest IH]; cbn [future_result map fst].
  - intros H. apply elem_of_nil in H. contradiction.
  - intros H. destruct (decide (f' = f)) as [-> | Hne]; [eauto |].
    apply IH. apply elem_of_cons in H. destruct H as [H | H]; [congruence | exact H].
Qed.

Lemma collect_results_snoc (l : list (string * json)) x :
  collect_results (l ++ [x]) = <[fst x := snd x]> (collect_results l).
Proof. unfold collect_results. rewrite fold_left_app. reflexivity. Qed.

(** The keys of the collected results are the keys of the futures. *)
Lemma collect_results_dom (l : list (string * json)) k :
  k ∈ dom (collect_results l) <-> k ∈ map fst l.
Proof.
  induction l as [| x l IH] using rev_ind.
  - unfold collect_results. cbn. rewrite dom_empty_L. split; intros H.
    + apply elem_of_empty in H. contradiction.
    + apply elem_of_nil in H. contradiction.
  - rewrite collect_results_snoc, dom_insert_L, map_app. cbn [map].
    rewrite elem_of_union, elem_of_singleton, elem_of_app, list_elem_of_singleton, IH.
    tauto.
Qed.

(** The value under a key is the second component of one of the futures
    with that key. *)
Lemma collect_results_lookup (l : list (string * json)) k :
  k ∈ map fst l -> exists v, collect_results l !! k = Some v /\ (k, v) ∈ l.
Proof.
  induction l as [| x l IH] using rev_ind.
  - intros H. apply elem_of_nil in H. contradiction.
  - rewrite map_app. cbn [map]. rewrite collect_results_snoc. intros H.
    destruct (decide (fst x = k)) as [<- | Hne].
    + exists (snd x). rewrite lookup_insert_eq. split; [reflexivity |].
      apply elem_of_app. right. destruct x. apply list_elem_of_here.
    + rewrite lookup_insert_ne by exact Hne.
      apply elem_of_app in H. destruct H as [H | H].
      * destruct (IH H) as (v & Hv & Hin). exists v. split; [exact Hv |].
        apply elem_of_app. left. exact Hin.
      * apply list_elem_of_singleton in H. congruence.
Qed.

(** C3: the parallel comparison, for every question, model, temperature
    and thinking setting, in whatever order the three workers run and
    complete.  The returned mapping has exactly the keys of the raw
    tabular, tabular with metadata and prose encodings, each once; the
    value of an encoding is what its own worker returned, whatever
    happened to the others, and it is the [error] marker with the message
    when that worker's experiment raised. *)
Theorem parallel_results_keys
  (env : Env) (request : QuestionRequest) (schedule completion : list DataFormat)
  (st : State) :
  Permutation schedule formats ->
  Permutation completion formats ->
  let results := pr_results (fst (run_parallel_experiment env request schedule completion st)) in
  dom results = {[ "raw_csv"; "csv_with_metadata"; "english_sentences" ]} /\
  size results = 3%nat /\
  forall f, f ∈ formats ->
    exists st_f,
      results !! value f = Some (snd (fst (run_format env request f st_f))) /\
      forall e st',
        run_single_experiment env (qr_question request) f (qr_model request)
          (qr_temperature request) (qr_thinking_enabled request) st_f = (Raise e, st') ->
        results !! value f = Some (JObj [("error", JStr (exn_str e))]).
Proof.
  intros Hs Hc. unfold run_parallel_experiment.
  pose proof (run_workers_futures env request schedule st) as [Hkeys Hfut].
  destruct (run_workers env request schedule st) as [futures st1]. cbn [fst pr_results] in *.
  set (completed := omap (future_result futures) completion).
  (* every completed entry is what the worker of a format returned *)
  assert (Hfrom : forall k v, (k, v) ∈ completed ->
            exists f st_f, f ∈ completion /\
                           (k, v) = fst (run_format env request f st_f)).
  { intros k v H. apply list_elem_of_omap in H. destruct H as (f & Hf & Hr).
    apply future_result_Some in Hr. rewrite Forall_forall in Hfut.
    destruct (Hfut _ Hr) as [st_f Hst]. exists f, st_f. split; [exact Hf | exact Hst]. }
  (* every format has a completed entry under its key *)
  assert (Hall : forall f, f ∈ formats -> value f ∈ map fst completed).
  { intros f Hf.
    assert (Hsched : f ∈ map fst futures).
    { rewrite Hkeys. rewrite Hs. exact Hf. }
    destruct (future_result_found futures f Hsched) as [entry He].
    assert (Hin : entry ∈ completed).
    { apply list_elem_of_omap. exists f. split; [rewrite Hc; exact Hf | exact He]. }
    apply future_result_Some in He. rewrite Forall_forall in Hfut.
    destruct (Hfut _ He) as [st_f Hst]. cbn [fst snd] in Hst.
    apply list_elem_of_fmap. exists entry. split; [| exact Hin].
    rewrite Hst. symmetry. apply run_format_key. }
  assert (Hdom : dom (collect_results completed)
                 = {[ "raw_csv"; "csv_with_metadata"; "english_sentences" ]}).
  { apply set_eq. intros k. rewrite collect_results_dom. split.
    - intros H. apply list_elem_of_fmap in H. destruct H as ([k' v] & -> & Hin).
      destruct (Hfrom _ _ Hin) as (f & st_f & Hf & Heq). cbn [fst].
      assert (Hk : k' = value f).
      { pose proof (run_format_key env request f st_f) as Hkey.
        rewrite <- Heq in Hkey. exact Hkey. }
      rewrite Hc in Hf. subst k'.
      unfold formats in Hf.
      repeat (apply elem_of_cons in Hf; destruct Hf as [-> | Hf]);
        [cbn; set_solver .. | apply elem_of_nil in Hf; contradiction].
    - intros H. set_unfold in H.
      destruct H as [[-> | ->] | ->].
      + apply (Hall RAW_CSV). unfold formats. set_solver.
      + apply (Hall CSV_WITH_METADATA). unfold formats. set_solver.
      + apply (Hall ENGLISH_SENTENCES). unfold formats. set_solver. }
  split; [exact Hdom |]. split.
  { rewrite <- size_dom, Hdom. reflexivity. }
  intros f Hf.
  destruct (collect_results_lookup completed (value f) (Hall f Hf)) as (v & Hv & Hin).
  destruct (Hfrom _ _ Hin) as (f' & st_f & _ & Heq).
  assert (f' = f) as ->.
  { apply value_inj. pose proof (run_format_key env request f' st_f) as Hkey.
    rewrite <- Heq in Hkey. cbn [fst] in Hkey. symmetry. exact Hkey. }
  exists st_f. split.
  - rewrite Hv. rewrite <- Heq. reflexivity.
  - intros e st' Hraise. rewrite Hv.
    rewrite (run_format_error _ _ _ _ _ _ Hraise) in Heq. inversion Heq. reflexivity.
Qed.

(** C3, at an input: the client cannot be created, so every worker fails;
    the workers run in submission order and complete in the reverse order. *)
Lemma parallel_results_keys_witness :
  let results :=
    pr_results (fst (run_parallel_experiment env_without_client sample_question
                       formats (rev formats) initial_state)) in
  dom results = {[ "raw_csv"; "csv_with_metadata"; "english_sentences" ]} /\
  size results = 3%nat /\
  forall f, f ∈ formats ->
    exists st_f,
      results !! value f
      = Some (snd (fst (run_format env_without_client sample_question f st_f))) /\
      forall e st',
        run_single_experiment env_without_client (qr_question sample_question) f
          (qr_model sample_question) (qr_temperature sample_question)
          (qr_thinking_enabled sample_question) st_f = (Raise e, st') ->
        results !! value f = Some (JObj [("error", JStr (exn_str e))]).
Proof.
  apply (parallel_results_keys env_without_client sample_question formats (rev formats)
           initial_state).
  - apply Permutation_refl.
  - apply Permutation_sym. apply Permutation_rev.
Defined.

(** Under that total failure each of the three values is the marker. *)
Example parallel_total_failure :
  let results :=
    pr_results (fst (run_parallel_experiment env_without_client sample_question
                       formats (rev formats) initial_state)) in
  map (fun f => results !! value f) all_formats
  = [Some (JObj [("error", JStr "Missing key inputs argument!")]);
     Some (JObj [("error", JStr "Missing key inputs argument!")]);
     Some (JObj [("error", JStr "Missing key inputs argument!")]);
     None; None].
Proof. vm_compute. reflexivity. Qed.

(** ** The prose renderer *)

Import CsvToEnglish.

Lemma sub_numbers a b :
  PyVal.is_number a = true -> PyVal.is_number b = true ->
  exists m, PyVal.sub a b = Ok m /\ PyVal.is_number m = true.
Proof. destruct a, b; simpl; intros; try discriminate; eauto. Qed.

Lemma truediv_zero a b :
  PyVal.is_number a = true -> PyVal.is_number b = true -> PyVal.is_zero b = true ->
  exists msg, PyVal.truediv a b = Raise (Exn ZeroDivisionError msg).
Proof.
  destruct a, b; simpl; intros Ha Hb Hz; try discriminate; rewrite Hz; eauto.
Qed.

Lemma truediv_nonzero a b :
  PyVal.is_number a = true -> PyVal.is_number b = true -> PyVal.is_zero b = false ->
  exists q, PyVal.truediv a b = Ok (CFloat q).
Proof.
  destruct a, b; simpl; intros Ha Hb Hz; try discriminate; rewrite Hz; eauto.
Qed.

Lemma format_f_number g p c :
  PyVal.is_number c = true -> exists s, PyVal.format_f g p c = Ok s.
Proof. destruct c; simpl; intros; try discriminate; eauto. Qed.

(** C4: rendering a product row.  When [cost_price] is zero the
    rendering raises [ZeroDivisionError] and gives no sentence, whatever
    the other fields hold.  When it is not zero, the rendering returns the
    template filled with the fields of the row, the prices with two
    decimals, [margin = unit_price - cost_price] with two decimals and
    [margin_pct = margin / cost_price * 100] with one decimal. *)
Theorem product_zero_cost_raises
  (row : Series) (unit_price cost_price : cell) :
  Pandas.getitem row "unit_price" = Ok unit_price ->
  Pandas.getitem row "cost_price" = Ok cost_price ->
  PyVal.is_number unit_price = true ->
  PyVal.is_number cost_price = true ->
  (PyVal.is_zero cost_price = true ->
   exists msg, convert_product_to_english row = Raise (Exn ZeroDivisionError msg)) /\
  (PyVal.is_zero cost_price = false ->
   forall product_name product_id subcategory category brand supplier_id,
     Pandas.getitem row "product_name" = Ok product_name ->
     Pandas.getitem row "product_id" = Ok product_id ->
     Pandas.getitem row "subcategory" = Ok subcategory ->
     Pandas.getitem row "category" = Ok category ->
     Pandas.getitem row "brand" = Ok brand ->
     Pandas.getitem row "supplier_id" = Ok supplier_id ->
     exists margin ratio margin_pct unit_text cost_text margin_text margin_pct_text,
       PyVal.sub unit_price cost_price = Ok margin /\
       PyVal.truediv margin cost_price = Ok ratio /\
       PyVal.mul ratio (CInt 100) = Ok margin_pct /\
       PyVal.format_f false 2 unit_price = Ok unit_text /\
       PyVal.format_f false 2 cost_price = Ok cost_text /\
       PyVal.format_f false 2 margin = Ok margin_text /\
       PyVal.format_f false 1 margin_pct = Ok margin_pct_text /\
       convert_product_to_english row
       = Ok (product_sentence (PyVal.str product_name) (PyVal.str product_id)
               (PyVal.str subcategory) (PyVal.str category) (PyVal.str brand)
               unit_text cost_text margin_text margin_pct_text
               (PyVal.str supplier_id))).
Proof.
  intros Hu Hc Hnu Hnc.
  destruct (sub_numbers _ _ Hnu Hnc) as (margin & Hm & Hnm).
  split.
  - intros Hz. destruct (truediv_zero _ _ Hnm Hnc Hz) as [msg Hd].
    exists msg. unfold convert_product_to_english.
    rewrite Hu, Hc. cbn [mbind outcome_bind]. rewrite Hm. cbn [mbind outcome_bind].
    rewrite Hd. reflexivity.
  - intros Hz name pid sub cat brand sup Hname Hpid Hsub Hcat Hbrand Hsup.
    destruct (truediv_nonzero _ _ Hnm Hnc Hz) as [q Hd].
    destruct (format_f_number false 2 _ Hnu) as [ut Hut].
    destruct (format_f_number false 2 _ Hnc) as [ct Hct].
    destruct (format_f_number false 2 _ Hnm) as [mt Hmt].
    exists margin, (CFloat q), (CFloat (PrimFloat.mul q (PyFloat.of_int 100))),
      ut, ct, mt, (PyFloat.format_f false 1 (PrimFloat.mul q (PyFloat.of_int 100))).
    repeat (split; [first [assumption | reflexivity] |]).
    unfold convert_product_to_english, field, field_f.
    rewrite Hu, Hc. cbn [mbind outcome_bind]. rewrite Hm. cbn [mbind outcome_bind].
    rewrite Hd. cbn [mbind outcome_bind PyVal.mul].
    rewrite Hname, Hpid, Hsub, Hcat, Hbrand, Hsup.
    cbn [mbind outcome_bind fmap outcome_fmap].
    rewrite Hut, Hct. cbn [mbind outcome_bind]. rewrite Hmt. reflexivity.
Qed.

(** C4, at two inputs: a product that costs nothing, and the product of
    the specification's margin example. *)
Lemma product_zero_cost_raises_witness :
  (exists msg,
     convert_product_to_english (product_row (CFloat 24.99) (CFloat 0))
     = Raise (Exn ZeroDivisionError msg)) /\
  (exists margin ratio margin_pct unit_text cost_text margin_text margin_pct_text,
     PyVal.sub (CFloat 100) (CFloat 50) = Ok margin /\
     PyVal.truediv margin (CFloat 50) = Ok ratio /\
     PyVal.mul ratio (CInt 100) = Ok margin_pct /\
     PyVal.format_f false 2 (CFloat 100) = Ok unit_text /\
     PyVal.format_f false 2 (CFloat 50) = Ok cost_text /\
     PyVal.format_f false 2 margin = Ok margin_text /\
     PyVal.format_f false 1 margin_pct = Ok margin_pct_text /\
     convert_product_to_english (product_row (CFloat 100) (CFloat 50))
     = Ok (product_sentence "Wireless Mouse Ergonomic" "P001" "Accessories" "Electronics"
             "TechPro" unit_text cost_text margin_text margin_pct_text "SUP001")).
Proof.
  split.
  - apply (proj1 (product_zero_cost_raises (product_row (CFloat 24.99) (CFloat 0))
                    (CFloat 24.99) (CFloat 0) eq_refl eq_refl eq_refl eq_refl)).
    reflexivity.
  - apply (proj2 (product_zero_cost_raises (product_row (CFloat 100) (CFloat 50))
                    (CFloat 100) (CFloat 50) eq_refl eq_refl eq_refl eq_refl)
                 eq_refl
                 (CStr "Wireless Mouse Ergonomic") (CStr "P001") (CStr "Accessories")
                 (CStr "Electronics") (CStr "TechPro") (CStr "SUP001"));
      reflexivity.
Defined.

(** The sentences themselves: the margin example of the specification,
    an integer cost column, and the two zero costs. *)
Example product_sentences :
  convert_product_to_english (product_row (CFloat 100) (CFloat 50))
  = Ok ("The product 'Wireless Mouse Ergonomic' (ID: P001) is a Accessories item in the " +:+
        "Electronics category, manufactured by TechPro. It is priced at $100.00 with a " +:+
        "cost of $50.00, yielding a margin of $50.00 (100.0%). This product is supplied " +:+
        "by SUP001.") /\
  convert_product_to_english (product_row (CFloat 29.99) (CInt 12))
  = Ok ("The product 'Wireless Mouse Ergonomic' (ID: P001) is a Accessories item in the " +:+
        "Electronics category, manufactured by TechPro. It is priced at $29.99 with a " +:+
        "cost of $12.00, yielding a margin of $17.99 (149.9%). This product is supplied " +:+
        "by SUP001.") /\
  convert_product_to_english (product_row (CFloat 24.99) (CFloat 0))
  = Raise (Exn ZeroDivisionError "float division by zero") /\
  convert_product_to_english (product_row (CInt 25) (CInt 0))
  = Raise (Exn ZeroDivisionError "division by zero").
Proof. vm_compute. repeat split. Qed.

(** The documents of two stores, computed. *)
Example english_documents :
  convert_all_to_english empty_store
  = Ok (join Json.newline
          ["## Customers"; ""; ""; ""; "---"; "";
           "## Suppliers"; ""; ""; ""; "---"; "";
           "## Products"; ""; ""; ""; "---"; "";
           "## Orders"; ""; ""; ""; "---"; "";
           "## Order Line Items"; ""; ""]) /\
  convert_all_to_english small_store
  = Ok (join Json.newline
          ["## Customers"; "";
           "Emily Nakamura (ID: C001) is a Standard customer who joined on 2023-01-15. " +:+
           "They are located in Portland, OR, USA and can be reached at Emily@example.com.";
           "";
           "Robert Kim (ID: C002) is a VIP customer who joined on 2023-01-15. " +:+
           "They are located in Portland, OR, USA and can be reached at Robert@example.com.";
           "";
           "Ana Lopez (ID: C003) is a VIP customer who joined on 2023-01-15. " +:+
           "They are located in Portland, OR, USA and can be reached at Ana@example.com.";
           ""; "---"; "";
           "## Suppliers"; "";
           "TechWorld Distribution (ID: SUP001) is a supplier based in USA. They have a " +:+
           "lead time of 7 days and a reliability rating of 4.8/5.0. Contact them at " +:+
           "orders@techworld.example.";
           ""; "---"; "";
           "## Products"; "";
           "The product 'Wireless Mouse Ergonomic' (ID: P001) is a Accessories item in " +:+
           "the Electronics category, manufactured by TechPro. It is priced at $20.00 " +:+
           "with a cost of $10.00, yielding a margin of $10.00 (100.0%). This product is " +:+
           "supplied by SUP001.";
           ""; "---"; "";
           "## Orders"; "";
           "Order ORD001 was placed by Emily Nakamura (C001) on 2024-03-01. The order " +:+
           "uses Express shipping to Portland and was paid via Credit Card. Current " +:+
           "status: Delivered with a discount of $5.00 applied.";
           ""; "---"; "";
           "## Order Line Items"; "";
           "In order ORD001, Emily Nakamura purchased 3 unit(s) of " +:+
           "'Wireless Mouse Ergonomic' at $20.00 each, totaling $60.00."]).
Proof. vm_compute. split; reflexivity. Qed.

(** A comprehension over rows that all render gives one sentence per row,
    in the order of the rows. *)
Lemma comprehension_total {A B} (f : A -> outcome B) (l : list A) :
  (forall x, x ∈ l -> exists y, f x = Ok y) ->
  exists ys, comprehension f l = Ok ys /\ Forall2 (fun x y => f x = Ok y) l ys.
Proof.
  induction l as [| x l IH]; intros H.
  - exists []. split; [reflexivity | constructor].
  - destruct (H x) as [y Hy]; [apply list_elem_of_here |].
    destruct IH as (ys & Hys & HF).
    { intros x' Hx'. apply H. apply list_elem_of_further. exact Hx'. }
    exists (y :: ys). split.
    + cbn [comprehension]. rewrite Hy. cbn [mbind outcome_bind]. rewrite Hys. reflexivity.
    + constructor; assumption.
Qed.

(** C5, as stated, fails: with all five tables present the function does
    not always return a document.  Here the customers table has no rows
    while the orders table has one, and the rendering raises
    [IndexError]. *)
Lemma five_tables_without_document :
  (forall name, name ∈ ["customers"; "suppliers"; "products"; "orders"; "order_items"] ->
                is_Some (DataLoader.load_all_tables store_without_customers !! name)) /\
  convert_all_to_english store_without_customers
  = Raise (Exn IndexError "single positional indexer is out-of-bounds").
Proof.
  split.
  - intros name H.
    repeat (apply elem_of_cons in H; destruct H as [-> | H]);
      [vm_compute; eauto .. | apply elem_of_nil in H; contradiction].
  - vm_compute. reflexivity.
Qed.

(** C5, amended: whenever all five backing tables are present and every
    row renders, [convert_all_to_english] returns a document of exactly
    five sections in the order Customers, Suppliers, Products, Orders,
    Order Line Items; a section is its [##] header, a blank line and the
    sentences of the table's rows, one per row in row order, separated by
    blank lines; the sections are separated by a [---] rule between blank
    lines.  A table without rows contributes its header with an empty
    body. *)
Theorem english_document_sections
  (d : data_dir) (customers suppliers products orders order_items : DataFrame) :
  DataLoader.load_all_tables d !! "customers" = Some customers ->
  DataLoader.load_all_tables d !! "suppliers" = Some suppliers ->
  DataLoader.load_all_tables d !! "products" = Some products ->
  DataLoader.load_all_tables d !! "orders" = Some orders ->
  DataLoader.load_all_tables d !! "order_items" = Some order_items ->
  (forall row, row ∈ Pandas.iterrows customers ->
     exists s, convert_customer_to_english row = Ok s) ->
  (forall row, row ∈ Pandas.iterrows suppliers ->
     exists s, convert_supplier_to_english row = Ok s) ->
  (forall row, row ∈ Pandas.iterrows products ->
     exists s, convert_product_to_english row = Ok s) ->
  (forall row, row ∈ Pandas.iterrows orders ->
     exists s, convert_order_to_english row customers = Ok s) ->
  (forall row, row ∈ Pandas.iterrows order_items ->
     exists s, convert_order_item_to_english row products orders customers = Ok s) ->
  exists cs ss ps os ois,
    Forall2 (fun row s => convert_customer_to_english row = Ok s)
            (Pandas.iterrows customers) cs /\
    Forall2 (fun row s => convert_supplier_to_english row = Ok s)
            (Pandas.iterrows suppliers) ss /\
    Forall2 (fun row s => convert_product_to_english row = Ok s)
            (Pandas.iterrows products) ps /\
    Forall2 (fun row s => convert_order_to_english row customers = Ok s)
            (Pandas.iterrows orders) os /\
    Forall2 (fun row s => convert_order_item_to_english row products orders customers = Ok s)
            (Pandas.iterrows order_items) ois /\
    convert_all_to_english d
    = Ok (join (blank_line +:+ "---" +:+ blank_line)
            ["## Customers" +:+ blank_line +:+ join blank_line cs;
             "## Suppliers" +:+ blank_line +:+ join blank_line ss;
             "## Products" +:+ blank_line +:+ join blank_line ps;
             "## Orders" +:+ blank_line +:+ join blank_line os;
             "## Order Line Items" +:+ blank_line +:+ join blank_line ois]) /\
    (Pandas.len customers = 0%nat -> join blank_line cs = EmptyString) /\
    (Pandas.len suppliers = 0%nat -> join blank_line ss = EmptyString) /\
    (Pandas.len products = 0%nat -> join blank_line ps = EmptyString) /\
    (Pandas.len orders = 0%nat -> join blank_line os = EmptyString) /\
    (Pandas.len order_items = 0%nat -> join blank_line ois = EmptyString).
Proof.
  intros Hc Hs Hp Ho Hi Rc Rs Rp Ro Ri.
  destruct (comprehension_total _ _ Rc) as (cs & Ecs & Fcs).
  destruct (comprehension_total _ _ Rs) as (ss & Ess & Fss).
  destruct (comprehension_total _ _ Rp) as (ps & Eps & Fps).
  destruct (comprehension_total _ _ Ro) as (os & Eos & Fos).
  destruct (comprehension_total _ _ Ri) as (ois & Eois & Fois).
  exists cs, ss, ps, os, ois.
  assert (Hempty : forall (df : DataFrame) (P : Series -> string -> Prop) (l : list string),
             Forall2 P (Pandas.iterrows df) l -> Pandas.len df = 0%nat ->
             join blank_line l = EmptyString).
  { intros df P l HF Hlen. unfold Pandas.len in Hlen. unfold Pandas.iterrows in HF.
    destruct (df_rows df); [| discriminate Hlen].
    inversion HF. reflexivity. }
  repeat (split; [first [assumption | eapply Hempty; eassumption | idtac] |]);
    try (eapply Hempty; eassumption).
  unfold convert_all_to_english, table.
  rewrite Hc, Hp, Hs, Ho, Hi. cbn [mbind outcome_bind].
  rewrite Ecs. cbn [mbind outcome_bind]. rewrite Ess. cbn [mbind outcome_bind].
  rewrite Eps. cbn [mbind outcome_bind]. rewrite Eos. cbn [mbind outcome_bind].
  rewrite Eois. reflexivity.
Qed.

(** Decide a property of every row of a concrete frame by running the
    renderer on each row. *)
Ltac each_row :=
  let row := fresh "row" in
  let H := fresh "H" in
  intros row H; vm_compute in H;
  repeat (apply elem_of_cons in H; destruct H as [-> | H]);
  [eexists; vm_compute; reflexivity .. | apply elem_of_nil in H; contradiction].

(** C5, at an input: the small store, whose rows all render. *)
Lemma english_document_sections_witness :
  exists cs ss ps os ois,
    (length cs, length ss, length ps, length os, length ois)
    = (3, 1, 1, 1, 1)%nat /\
    convert_all_to_english small_store
    = Ok (join (blank_line +:+ "---" +:+ blank_line)
            ["## Customers" +:+ blank_line +:+ join blank_line cs;
             "## Suppliers" +:+ blank_line +:+ join blank_line ss;
             "## Products" +:+ blank_line +:+ join blank_line ps;
             "## Orders" +:+ blank_line +:+ join blank_line os;
             "## Order Line Items" +:+ blank_line +:+ join blank_line ois]).
Proof.
  destruct (english_document_sections small_store
              (csv_frame (file_of customers_columns
                            [customer_row "C001" "Emily" "Nakamura" "Standard";
                             customer_row "C002" "Robert" "Kim" "VIP";
                             customer_row "C003" "Ana" "Lopez" "VIP"]))
              (csv_frame (file_of suppliers_columns [supplier_row]))
              (csv_frame (file_of products_columns [product_cells 20 10]))
              (csv_frame (file_of orders_columns [order_row 5]))
              (csv_frame (file_of order_items_columns [order_item_row])))
    as (cs & ss & ps & os & ois & Fc & Fs & Fp & Fo & Fi & Hdoc & _);
    [reflexivity | reflexivity | reflexivity | reflexivity | reflexivity
     | each_row | each_row | each_row | each_row | each_row |].
  exists cs, ss, ps, os, ois. split; [| exact Hdoc].
  apply Forall2_length in Fc, Fs, Fp, Fo, Fi.
  rewrite <- Fc, <- Fs, <- Fp, <- Fo, <- Fi. reflexivity.
Defined.

(** The summary of the small store, computed with the reference kernels. *)
Example summary_of_small_store :
  get_summary_statistics reference_kernels small_store = Ok small_store_summary.
Proof. vm_compute. reflexivity. Qed.

(** *** Text lemmas *)

Lemma append_cons (ch : ascii) (a b : string) :
  String ch a +:+ b = String ch (a +:+ b).
Proof. reflexivity. Qed.

Lemma append_nil_l (a : string) : EmptyString +:+ a = a.
Proof. reflexivity. Qed.

Lemma append_assoc (a b c : string) : (a +:+ b) +:+ c = a +:+ (b +:+ c).
Proof.
  induction a as [| ch a IH]; [reflexivity |].
  rewrite !append_cons. f_equal. exact IH.
Qed.

Lemma append_nil_r (a : string) : a +:+ EmptyString = a.
Proof.
  induction a as [| ch a IH]; [reflexivity |].
  rewrite append_cons. f_equal. exact IH.
Qed.

Lemma prefix_append (a b : string) : String.prefix a (a +:+ b) = true.
Proof.
  induction a as [| ch a IH].
  - destruct b; reflexivity.
  - rewrite append_cons. cbn [String.prefix].
    destruct (ascii_dec ch ch) as [_ | Hne]; [exact IH | contradiction].
Qed.

(** A text that occurs in another is found by [contains]. *)
Lemma contains_occurrence (needle before after : string) :
  contains needle (before +:+ needle +:+ after) = true.
Proof.
  induction before as [| ch before IH].
  - rewrite append_nil_l. destruct (needle +:+ after) eqn:E.
    + cbn [contains]. rewrite <- E, prefix_append. reflexivity.
    + cbn [contains]. rewrite <- E, prefix_append. reflexivity.
  - rewrite append_cons. cbn [contains]. rewrite IH. apply orb_true_r.
Qed.

(** ** The summary *)

(** The reference kernels sort in descending order. *)
Lemma reference_kernels_sort : sorts_descending reference_kernels.
Proof.
  split; intros l; cbn [sort_counts_desc reference_kernels].
  - apply merge_sort_Permutation.
  - apply Sorted_merge_sort.
    intros p q. unfold count_ge. lia.
Qed.

(** C6, as stated, fails: the small store lists a Standard customer
    before two VIP customers, so the encounter order of the segments is
    Standard, VIP; the summary lists VIP first, because it has the higher
    count. *)
Lemma segments_not_in_encounter_order :
  exists doc,
    get_summary_statistics reference_kernels small_store = Ok doc /\
    segments_in_encounter_order
      (csv_frame (file_of customers_columns
                    [customer_row "C001" "Emily" "Nakamura" "Standard";
                     customer_row "C002" "Robert" "Kim" "VIP";
                     customer_row "C003" "Ana" "Lopez" "VIP"]))
    = Ok "Standard: 1, VIP: 2" /\
    contains "Customer segments: Standard: 1, VIP: 2" doc = false /\
    contains "Customer segments: VIP: 2, Standard: 1" doc = true.
Proof. eexists. vm_compute. repeat split. Qed.

(** Step through the binds of a computation that is known to return. *)
Ltac bind_ok H :=
  repeat match type of H with
         | mbind ?f ?m = Ok _ =>
             let E := fresh "E" in
             destruct m eqn:E; cbn [mbind outcome_bind] in H; [| discriminate H]
         end.

(** C6, amended: for every backing dataset on which the summary renders,
    the summary reports the customer segment distribution as
    [segment: count] pairs, one pair for each distinct segment of the
    customers table with the number of its rows, listed in descending
    order of count, as [value_counts] sorts them; not in the order in
    which the segments are first encountered. *)
Theorem segments_in_descending_count
  (K : kernels) (d : data_dir) (doc : string) :
  sorts_descending K ->
  get_summary_statistics K d = Ok doc ->
  exists customers segments pairs before after,
    DataLoader.load_all_tables d !! "customers" = Some customers /\
    Pandas.column customers "customer_segment" = Ok segments /\
    Permutation pairs
      (Pandas.counts_in_encounter_order
         (filter (fun v => negb (PyVal.isna v)) segments)) /\
    Sorted count_ge pairs /\
    doc = before +:+ "Customer segments: " +:+ join ", " (map pair_text pairs) +:+
          Json.newline +:+ Json.newline +:+ after.
Proof.
  intros [Hperm Hsorted] H. unfold get_summary_statistics in H. cbv zeta in H.
  bind_ok H.
  match goal with
  | Hc : table _ "customers" = Ok ?customers,
    Hs : Pandas.column ?customers "customer_segment" = Ok ?segs |- _ =>
      exists customers, segs, (value_counts K segs);
      unfold table in Hc;
      destruct (DataLoader.load_all_tables d !! "customers") as [c |] eqn:Ec;
      [inversion Hc; subst c | discriminate Hc]
  end.
  inversion H as [Hdoc]. clear H.
  eexists. eexists.
  split; [reflexivity |]. split; [eassumption |].
  split; [apply Hperm |]. split; [apply Hsorted |].
  repeat match goal with
         | |- ?a +:+ (?b +:+ ?c) = _ =>
             lazymatch b with
             | "Customer segments: " => fail
             | _ => rewrite <- (append_assoc a b c)
             end
         end.
  reflexivity.
Qed.

(** C6, at an input: the small store with the reference kernels. *)
Lemma segments_in_descending_count_witness :
  exists customers segments pairs before after,
    DataLoader.load_all_tables small_store !! "customers" = Some customers /\
    Pandas.column customers "customer_segment" = Ok segments /\
    Permutation pairs
      (Pandas.counts_in_encounter_order
         (filter (fun v => negb (PyVal.isna v)) segments)) /\
    Sorted count_ge pairs /\
    small_store_summary
    = before +:+ "Customer segments: " +:+ join ", " (map pair_text pairs) +:+
      Json.newline +:+ Json.newline +:+ after.
Proof.
  apply (segments_in_descending_count reference_kernels small_store small_store_summary
           reference_kernels_sort).
  vm_compute. reflexivity.
Defined.

(** * More about the pipeline *)

(** ** Text and sorting *)

Lemma join_one sep (x : string) : join sep [x] = x.
Proof. reflexivity. Qed.

Lemma join_cons sep (x y : string) l :
  join sep (x :: y :: l) = x +:+ sep +:+ join sep (y :: l).
Proof. reflexivity. Qed.

Lemma sorted_by_Permutation {A} key (pairs : list (string * A)) :
  sorted_by key pairs ≡ₚ pairs.
Proof. unfold sorted_by. apply merge_sort_Permutation. Qed.

Lemma sorted_by_Sorted {A} key (pairs : list (string * A)) :
  Sorted (fun p q => str_le (key (fst p)) (key (fst q))) (sorted_by key pairs).
Proof.
  unfold sorted_by. apply Sorted_merge_sort.
  intros p q. unfold str_le. apply String.leb_total.
Qed.

Lemma length_append (a b : string) :
  String.length (a +:+ b) = (String.length a + String.length b)%nat.
Proof.
  induction a as [| c a IH]; [reflexivity |].
  rewrite append_cons. cbn [String.length]. rewrite IH. reflexivity.
Qed.

(** An element of a joined list occurs in the joined text. *)
Lemma join_occurrence sep (x : string) l :
  x ∈ l -> exists before after, join sep l = before +:+ x +:+ after.
Proof.
  induction l as [| y l IH]; intros Hin; [apply elem_of_nil in Hin; contradiction |].
  apply elem_of_cons in Hin as [-> | Hin].
  - destruct l as [| z l].
    + exists EmptyString, EmptyString. rewrite join_one, append_nil_r. reflexivity.
    + exists EmptyString, (sep +:+ join sep (z :: l)). rewrite join_cons. reflexivity.
  - destruct (IH Hin) as (b & a & E).
    destruct l as [| z l]; [apply elem_of_nil in Hin; contradiction |].
    exists (y +:+ sep +:+ b), a. rewrite join_cons, E, !append_assoc. reflexivity.
Qed.

(** ** [data_loader] *)

(** X1: every [.csv] file of the data directory appears in the text of
    [get_all_csv_as_string]: its header line [=== TABLE: name ===]
    followed, on the next line, by the unchanged text of the file. *)
Theorem csv_listing_has_every_table (d : data_dir) (name : string) (f : csv_file) :
  csv_files d !! name = Some f ->
  contains (table_block name f) (DataLoader.get_all_csv_as_string d) = true.
Proof.
  intros H. unfold DataLoader.get_all_csv_as_string.
  change (fun p : string * csv_file =>
            "=== TABLE: " +:+ fst p +:+ " ===" +:+ Json.newline +:+ csv_text (snd p))
    with (fun p : string * csv_file => table_block (fst p) (snd p)).
  destruct (join_occurrence (Json.newline +:+ Json.newline) (table_block name f)
              (map (fun p : string * csv_file => table_block (fst p) (snd p))
                   (sorted_by (fun stem => stem +:+ ".csv") (map_to_list (csv_files d)))))
    as (before & after & E).
  - apply list_elem_of_fmap. exists (name, f). split; [reflexivity |].
    rewrite sorted_by_Permutation. apply elem_of_map_to_list. exact H.
  - rewrite E. apply contains_occurrence.
Qed.

Lemma csv_listing_has_every_table_witness :
  let f := file_of suppliers_columns [supplier_row] in
  csv_files small_store !! "suppliers" = Some f /\
  contains (table_block "suppliers" f) (DataLoader.get_all_csv_as_string small_store) = true.
Proof.
  assert (H : csv_files small_store !! "suppliers"
              = Some (file_of suppliers_columns [supplier_row]))
    by (vm_compute; reflexivity).
  split; [exact H |].
  exact (csv_listing_has_every_table small_store "suppliers" _ H).
Defined.


(** The two orders on a directory with the tables [a] and [a-b]. *)
Example listing_order_and_export_order :
  let f := {| csv_text := "x"; csv_frame := {| df_columns := ["x"]; df_rows := [] |} |} in
  let d := {| csv_files := list_to_map [("a", f); ("a-b", f)]; schema_metadata := None |} in
  DataLoader.get_all_csv_as_string d
  = join Json.newline ["=== TABLE: a-b ==="; "x"; ""; "=== TABLE: a ==="; "x"] /\
  map fst (DataLoader.all_data d) = ["a"; "a-b"].
Proof. vm_compute. split; reflexivity. Qed.

(** ** [csv_to_english] *)

Lemma getitem_raise row k e : Pandas.getitem row k = Raise e -> e = Pandas.key_error k.
Proof.
  induction row as [| [k' v] row IH]; cbn [Pandas.getitem]; intros H.
  - injection H as <-. reflexivity.
  - destruct (String.eqb k' k); [discriminate H | exact (IH H)].
Qed.

(** Reading a column of a row for a sentence either gives its text or
    raises the [KeyError] of the column. *)
Lemma field_cases row k :
  (exists v, Pandas.getitem row k = Ok v /\ field row k = Ok (PyVal.str v)) \/
  (Pandas.getitem row k = Raise (Pandas.key_error k) /\
   field row k = Raise (Pandas.key_error k)).
Proof.
  unfold field. destruct (Pandas.getitem row k) as [v | e] eqn:E.
  - left. exists v. split; reflexivity.
  - right. rewrite (getitem_raise _ _ _ E). split; reflexivity.
Qed.

(** Membership in a list that is written out. *)
Ltac listed :=
  unfold document_tables, summary_tables; rewrite ?elem_of_cons; auto 12.

(** Read the next column of a sentence; the case in which it is missing
    is closed by [missing]. *)
Ltac next_field row missing :=
  match goal with
  | |- context [mbind _ (field row ?k)] =>
      let v := fresh "v" in
      let Hg := fresh "Hg" in
      let Hf := fresh "Hf" in
      destruct (field_cases row k) as [(v & Hg & Hf) | (Hg & Hf)];
      rewrite Hf; cbn [mbind outcome_bind]; [| solve [missing k Hg]]
  end.

Ltac sentence_missing fields k Hg :=
  split;
  [ split;
    [ intros [s Hs]; discriminate Hs
    | intros HF; rewrite Forall_forall in HF;
      assert (Hin : k ∈ fields) by (unfold fields; listed);
      destruct (HF k Hin) as [v' Hv']; rewrite Hg in Hv'; discriminate Hv' ]
  | intros e' H'; injection H' as <-;
    exists k; split; [unfold fields; listed | split; [reflexivity | exact Hg]] ].

Ltac sentence_rendered fields :=
  split;
  [ split;
    [ intros _; unfold fields;
      repeat first [ apply List.Forall_nil
                   | apply List.Forall_cons; [eexists; eassumption |] ]
    | intros _; eexists; reflexivity ]
  | intros e' H'; discriminate H' ].

(** X3: a customer row renders exactly when it has the nine columns of
    the sentence, whatever they hold (numbers and missing values are
    written as [str] writes them); otherwise the rendering raises the
    [KeyError] of a column that the row lacks. *)
Theorem customer_sentence_needs_its_columns (row : Series) :
  ((exists s, convert_customer_to_english row = Ok s) <->
   Forall (fun k => exists v, Pandas.getitem row k = Ok v) customer_fields) /\
  (forall e, convert_customer_to_english row = Raise e ->
     exists k, k ∈ customer_fields /\ e = Pandas.key_error k /\
               Pandas.getitem row k = Raise e).
Proof.
  unfold convert_customer_to_english.
  repeat next_field row ltac:(sentence_missing customer_fields).
  sentence_rendered customer_fields.
Qed.

(** X4: a supplier row renders exactly when it has the six columns of
    the sentence; otherwise the rendering raises the [KeyError] of a
    column that the row lacks. *)
Theorem supplier_sentence_needs_its_columns (row : Series) :
  ((exists s, convert_supplier_to_english row = Ok s) <->
   Forall (fun k => exists v, Pandas.getitem row k = Ok v) supplier_fields) /\
  (forall e, convert_supplier_to_english row = Raise e ->
     exists k, k ∈ supplier_fields /\ e = Pandas.key_error k /\
               Pandas.getitem row k = Raise e).
Proof.
  unfold convert_supplier_to_english.
  repeat next_field row ltac:(sentence_missing supplier_fields).
  sentence_rendered supplier_fields.
Qed.

Lemma filter_no_match (v : cell) (ids : list cell) :
  forall (rows : list Series),
    Forall (fun id => PyVal.eqb id v = false) ids ->
    filter (fun p : cell * Series => PyVal.eqb (fst p) v) (combine ids rows) = [].
Proof.
  induction ids as [| id ids IH]; intros rows Hall; [reflexivity |].
  destruct rows as [| row rows]; [reflexivity |].
  apply Forall_cons in Hall as [Hid Hall].
  cbn [combine]. rewrite filter_cons_False.
  - apply IH, Hall.
  - cbn [fst]. rewrite Hid. intros H. exact H.
Qed.

(** X5: an order whose [customer_id] occurs in no row of the customers
    table cannot be rendered: taking the first matching customer raises
    [IndexError], whatever else the order row holds. *)
Theorem order_of_unknown_customer_raises
  (row : Series) (customers_df : DataFrame) (ids : list cell) (v : cell) :
  Pandas.column customers_df "customer_id" = Ok ids ->
  Pandas.getitem row "customer_id" = Ok v ->
  Forall (fun id => PyVal.eqb id v = false) ids ->
  convert_order_to_english row customers_df
  = Raise (Exn IndexError "single positional indexer is out-of-bounds").
Proof.
  intros Hcol Hv Hall.
  unfold convert_order_to_english, lookup_by, Pandas.first_where.
  rewrite Hcol. cbn [mbind outcome_bind]. rewrite Hv. cbn [mbind outcome_bind].
  rewrite (filter_no_match v ids _ Hall). reflexivity.
Qed.

Lemma order_of_unknown_customer_raises_witness :
  let row := combine orders_columns (order_row 0) in
  let customers_df := {| df_columns := customers_columns;
                         df_rows := [customer_row "C002" "Robert" "Kim" "VIP"] |} in
  convert_order_to_english row customers_df
  = Raise (Exn IndexError "single positional indexer is out-of-bounds").
Proof.
  apply (order_of_unknown_customer_raises _ _ [CStr "C002"] (CStr "C001")).
  - vm_compute. reflexivity.
  - vm_compute. reflexivity.
  - repeat constructor.
Defined.

(** X6: a line item whose [product_id] occurs in no row of the
    products table cannot be rendered: [convert_order_item_to_english]
    raises [IndexError] at its first lookup, whatever the orders and
    customers tables hold. *)
Theorem order_item_of_unknown_product_raises
  (row : Series) (products_df orders_df customers_df : DataFrame)
  (ids : list cell) (v : cell) :
  Pandas.column products_df "product_id" = Ok ids ->
  Pandas.getitem row "product_id" = Ok v ->
  Forall (fun id => PyVal.eqb id v = false) ids ->
  convert_order_item_to_english row products_df orders_df customers_df
  = Raise (Exn IndexError "single positional indexer is out-of-bounds").
Proof.
  intros Hcol Hv Hall.
  unfold convert_order_item_to_english, lookup_by, Pandas.first_where.
  rewrite Hcol. cbn [mbind outcome_bind]. rewrite Hv. cbn [mbind outcome_bind].
  rewrite (filter_no_match v ids _ Hall). reflexivity.
Qed.

Lemma order_item_of_unknown_product_raises_witness :
  let row := combine order_items_columns order_item_row in
  let products_df := {| df_columns := products_columns; df_rows := [] |} in
  let orders_df := {| df_columns := orders_columns; df_rows := [order_row 0] |} in
  let customers_df := {| df_columns := customers_columns;
                         df_rows := [customer_row "C001" "Emily" "Nakamura" "VIP"] |} in
  convert_order_item_to_english row products_df orders_df customers_df
  = Raise (Exn IndexError "single positional indexer is out-of-bounds").
Proof.
  apply (order_item_of_unknown_product_raises _ _ _ _ [] (CStr "P001")).
  - vm_compute. reflexivity.
  - vm_compute. reflexivity.
  - constructor.
Defined.

(** A text that ends with [t] still does after a prefix is put before it. *)
Lemma ends_with_after (a r t : string) :
  (exists body, r = body +:+ t) -> exists body, a +:+ r = body +:+ t.
Proof. intros [body ->]. exists (a +:+ body). rewrite append_assoc. reflexivity. Qed.

Ltac ends_with :=
  repeat first [ exists EmptyString; reflexivity | apply ends_with_after ].

(** Run a sequence of binds that is known to succeed, one bind at a time. *)
Ltac run_ok H :=
  repeat (cbn [mbind outcome_bind fmap outcome_fmap] in H;
          match type of H with
          | mbind _ (if ?b then _ else _) = Ok _ => destruct b eqn:?
          | mbind _ ?m = Ok _ =>
              let E := fresh "E" in destruct m eqn:E; [| discriminate H]
          end).

(** X7: a rendered order mentions a discount exactly when its
    [discount_applied] is a number greater than zero, and then with two
    decimals; zero, a negative number and a missing value give the
    sentence without the discount clause, which ends with the status. *)
Theorem order_sentence_discount
  (row : Series) (customers_df : DataFrame) (s : string) (d : cell) :
  convert_order_to_english row customers_df = Ok s ->
  Pandas.getitem row "discount_applied" = Ok d ->
  exists body status,
    field row "order_status" = Ok status /\
    match PyVal.gt_zero d with
    | Ok true =>
        exists amount,
          PyVal.format_f false 2 d = Ok amount /\
          s = body +:+ status +:+ " with a discount of $" +:+ amount +:+ " applied."
    | Ok false => s = body +:+ status +:+ "."
    | Raise _ => False
    end.
Proof.
  intros H Hd. unfold convert_order_to_english, field_f in H.
  rewrite !Hd in H. run_ok H.
  - run_ok E3. cbn [mbind outcome_bind] in E3, H. injection E3 as <-.
    match goal with
    | Ef : PyVal.format_f false 2 d = Ok ?amount, Es : field row "order_status" = Ok ?status
      |- _ =>
        assert (Hb : exists body,
                   s = body +:+ status +:+ " with a discount of $" +:+ amount +:+ " applied.")
          by (injection H as <-; rewrite !append_assoc; ends_with);
        destruct Hb as [body Hb]; exists body, status;
        split; [reflexivity | exists amount; split; [reflexivity | exact Hb]]
    end.
  - cbn [mbind outcome_bind] in H.
    match goal with
    | Es : field row "order_status" = Ok ?status |- _ =>
        assert (Hb : exists body, s = body +:+ status +:+ ".")
          by (injection H as <-; ends_with);
        destruct Hb as [body Hb]; exists body, status; split; [reflexivity | exact Hb]
    end.
Qed.

Lemma order_sentence_discount_witness :
  let row := combine orders_columns (order_row 5) in
  let customers_df := {| df_columns := customers_columns;
                         df_rows := [customer_row "C001" "Emily" "Nakamura" "VIP"] |} in
  exists body status,
    field row "order_status" = Ok status /\
    exists amount,
      Ok (PyFloat.format_f false 2 5) = Ok amount /\
      "Order ORD001 was placed by Emily Nakamura (C001) on 2024-03-01. The order uses " +:+
      "Express shipping to Portland and was paid via Credit Card. Current status: " +:+
      "Delivered with a discount of $5.00 applied."
      = body +:+ status +:+ " with a discount of $" +:+ amount +:+ " applied.".
Proof.
  exact (order_sentence_discount
           (combine orders_columns (order_row 5))
           {| df_columns := customers_columns;
              df_rows := [customer_row "C001" "Emily" "Nakamura" "VIP"] |}
           _ (CFloat 5) eq_refl eq_refl).
Defined.

(** X8: when one of the five tables is absent from the data directory,
    [convert_all_to_english] raises [KeyError] for an absent table (the
    first one that it takes from the dictionary) before any row is
    rendered. *)
Theorem english_document_needs_five_tables (d : data_dir) (missing : string) :
  missing ∈ document_tables ->
  DataLoader.load_all_tables d !! missing = None ->
  exists name,
    name ∈ document_tables /\
    DataLoader.load_all_tables d !! name = None /\
    convert_all_to_english d = Raise (Pandas.key_error name).
Proof.
  intros Hin Hmissing. unfold convert_all_to_english, table.
  destruct (DataLoader.load_all_tables d !! "customers") eqn:E1;
    [| exists "customers"; split; [listed | split; [exact E1 | reflexivity]]].
  destruct (DataLoader.load_all_tables d !! "products") eqn:E2;
    [| exists "products"; split; [listed | split; [exact E2 | reflexivity]]].
  destruct (DataLoader.load_all_tables d !! "suppliers") eqn:E3;
    [| exists "suppliers"; split; [listed | split; [exact E3 | reflexivity]]].
  destruct (DataLoader.load_all_tables d !! "orders") eqn:E4;
    [| exists "orders"; split; [listed | split; [exact E4 | reflexivity]]].
  destruct (DataLoader.load_all_tables d !! "order_items") eqn:E5;
    [| exists "order_items"; split; [listed | split; [exact E5 | reflexivity]]].
  exfalso. unfold document_tables in Hin.
  repeat (apply elem_of_cons in Hin; destruct Hin as [-> | Hin]); try congruence.
  apply elem_of_nil in Hin. exact Hin.
Qed.

Lemma english_document_needs_five_tables_witness :
  exists name,
    name ∈ document_tables /\
    DataLoader.load_all_tables (env_data env_without_client) !! name = None /\
    convert_all_to_english (env_data env_without_client) = Raise (Pandas.key_error name).
Proof.
  apply (english_document_needs_five_tables (env_data env_without_client) "orders").
  - unfold document_tables. listed.
  - vm_compute. reflexivity.
Defined.

(** X9: when one of the tables [order_items], [orders], [products] and
    [customers] is absent, [get_summary_statistics] raises [KeyError] for
    an absent table before it computes anything, whatever the numeric
    kernels do. *)
Theorem summary_needs_its_tables (K : kernels) (d : data_dir) (missing : string) :
  missing ∈ summary_tables ->
  DataLoader.load_all_tables d !! missing = None ->
  exists name,
    name ∈ summary_tables /\
    DataLoader.load_all_tables d !! name = None /\
    get_summary_statistics K d = Raise (Pandas.key_error name).
Proof.
  intros Hin Hmissing. unfold get_summary_statistics, table.
  destruct (DataLoader.load_all_tables d !! "order_items") eqn:E1;
    [| exists "order_items"; split; [listed | split; [exact E1 | reflexivity]]].
  destruct (DataLoader.load_all_tables d !! "orders") eqn:E2;
    [| exists "orders"; split; [listed | split; [exact E2 | reflexivity]]].
  destruct (DataLoader.load_all_tables d !! "products") eqn:E3;
    [| exists "products"; split; [listed | split; [exact E3 | reflexivity]]].
  destruct (DataLoader.load_all_tables d !! "customers") eqn:E4;
    [| exists "customers"; split; [listed | split; [exact E4 | reflexivity]]].
  exfalso. unfold summary_tables in Hin.
  repeat (apply elem_of_cons in Hin; destruct Hin as [-> | Hin]); try congruence.
  apply elem_of_nil in Hin. exact Hin.
Qed.

Lemma summary_needs_its_tables_witness :
  exists name,
    name ∈ summary_tables /\
    DataLoader.load_all_tables (env_data env_without_client) !! name = None /\
    get_summary_statistics reference_kernels (env_data env_without_client)
    = Raise (Pandas.key_error name).
Proof.
  apply (summary_needs_its_tables reference_kernels (env_data env_without_client) "customers").
  - unfold summary_tables. listed.
  - vm_compute. reflexivity.
Defined.

(** ** [experiment] *)


(** X11: the non-streaming runner calls the endpoint at most once.  When
    the client cannot be created or the data prompt cannot be prepared,
    the exception leaves the runner before anything is sent and before
    the clock is read.  Otherwise exactly one request goes out, built
    from the arguments, and the runner returns a result when the
    endpoint replies (extracting the answer never fails the run) and
    raises the endpoint's exception when it does not. *)
Theorem run_single_experiment_calls_once
  (env : Env) (q : string) (f : DataFormat) (m : string) (t : float) (th : bool)
  (st : State) :
  match env_client env, _prepare_data_prompt (env_data env) f with
  | Raise e, _ => run_single_experiment env q f m t th st = (Raise e, st)
  | Ok _, Raise e => run_single_experiment env q f m t th st = (Raise e, st)
  | Ok _, Ok dp =>
      let req := request_of q m t th dp in
      st_sent (snd (run_single_experiment env q f m t th st)) = req :: st_sent st /\
      match env_generate_content env (length (st_sent st)) req with
      | Raise e => fst (run_single_experiment env q f m t th st) = Raise e
      | Ok resp =>
          exists r,
            fst (run_single_experiment env q f m t th st) = Ok r /\
            answer r = extract_answer resp /\
            data_format r = f /\ question r = q /\ model r = m
      end
  end.
Proof.
  unfold run_single_experiment, mbind, io_bind, lift, perf_counter, generate_content.
  destruct (env_client env) as [u | e]; cbn; [| reflexivity].
  destruct (_prepare_data_prompt (env_data env) f) as [dp | e]; cbn; [| reflexivity].
  fold (request_of q m t th dp).
  destruct (env_generate_content env (length (st_sent st)) (request_of q m t th dp))
    as [resp | ex]; cbn.
  - destruct (usage resp) as [i o]. cbn. split; [reflexivity |].
    eexists. repeat split; reflexivity.
  - split; reflexivity.
Qed.

(** What a successful single run leaves behind. *)
Lemma run_single_experiment_ok env q f m t th st r st' :
  run_single_experiment env q f m t th st = (Ok r, st') ->
  data_format r = f /\ question r = q /\ model r = m /\
  length (st_sent st') = S (length (st_sent st)).
Proof.
  intros H.
  pose proof (run_single_experiment_result env q f m t th st r st' H)
    as (dp & resp & Hp & _ & _ & _ & _ & Hf & Hm & Hq & _).
  repeat (split; [assumption |]).
  revert H.
  unfold run_single_experiment, mbind, io_bind, lift, perf_counter, generate_content.
  destruct (env_client env) as [u | e]; cbn; [| discriminate].
  rewrite Hp. cbn.
  match goal with
  | |- context [env_generate_content ?e ?n ?rq] =>
      destruct (env_generate_content e n rq) as [resp' | ex]
  end; cbn; [| discriminate].
  destruct (usage resp') as [i o]. cbn. intros H. inversion H. reflexivity.
Qed.

Lemma run_formats_ok env q m formats :
  forall st rs st',
    run_formats env q m formats st = (Ok rs, st') ->
    map fst rs = formats /\
    Forall (fun fr => data_format (snd fr) = fst fr /\ question (snd fr) = q /\
                      model (snd fr) = m) rs /\
    length (st_sent st') = (length formats + length (st_sent st))%nat.
Proof.
  induction formats as [| f formats IH]; intros st rs st' H.
  - cbn in H. inversion H. repeat split. constructor.
  - cbn [run_formats] in H. unfold mbind, io_bind in H.
    destruct (run_single_experiment env q f m default_temperature default_thinking_enabled st)
      as [[r | e] st1] eqn:E1; [| discriminate H].
    fold (@mbind io _) in H.
    destruct (run_formats env q m formats st1) as [[rs' | e] st2] eqn:E2;
      [| discriminate H].
    inversion H; subst; clear H.
    destruct (IH _ _ _ E2) as (Hk & Hall & Hlen).
    destruct (run_single_experiment_ok _ _ _ _ _ _ _ _ _ E1) as (Hf & Hq & Hm & Hl1).
    split; [cbn [map fst]; rewrite Hk; reflexivity |].
    split; [constructor; [cbn [fst snd]; auto | exact Hall] |].
    rewrite Hlen, Hl1. cbn [length]. lia.
Qed.

Lemma run_comparison_ok env q ex m st c st' :
  run_comparison env q ex m st = (Ok c, st') ->
  map fst (cr_results c) = all_formats /\
  Forall (fun fr => data_format (snd fr) = fst fr /\ question (snd fr) = q /\
                    model (snd fr) = m) (cr_results c) /\
  cr_question c = q /\ cr_expected_answer c = ex /\
  length (st_sent st') = (5 + length (st_sent st))%nat.
Proof.
  unfold run_comparison, mbind, io_bind.
  destruct (run_formats env q m all_formats st) as [[rs | e] st1] eqn:E; [| discriminate].
  intros H. inversion H; subst; clear H. cbn.
  destruct (run_formats_ok _ _ _ _ _ _ _ E) as (Hk & Hall & Hlen).
  repeat split; assumption.
Qed.

(** X12: [run_comparison] runs all five encodings of the enumeration,
    in its order, not three.  When it returns, its results hold one
    entry per encoding, each for the question and model it was called
    with, and exactly five requests were sent. *)
Theorem run_comparison_covers_all_formats
  (env : Env) (q : string) (ex : option string) (m : string) (st : State)
  (c : ComparisonResult) (st' : State) :
  run_comparison env q ex m st = (Ok c, st') ->
  map fst (cr_results c) = all_formats /\
  Forall (fun fr => data_format (snd fr) = fst fr /\ question (snd fr) = q /\
                    model (snd fr) = m) (cr_results c) /\
  cr_question c = q /\ cr_expected_answer c = ex /\
  length (st_sent st') = (5 + length (st_sent st))%nat.
Proof. apply run_comparison_ok. Qed.

Lemma run_comparison_covers_all_formats_witness :
  exists c st',
    run_comparison env_documented "How many products are in the catalog?" None
      default_model initial_state = (Ok c, st') /\
    map fst (cr_results c) = all_formats /\
    length (st_sent st') = 5%nat.
Proof.
  pose proof (run_comparison_covers_all_formats env_documented
                "How many products are in the catalog?" None default_model initial_state)
    as H.
  destruct (run_comparison env_documented "How many products are in the catalog?" None
              default_model initial_state) as [[c | e] st'] eqn:E.
  - exists c, st'. split; [reflexivity |].
    destruct (H c st' eq_refl) as (Hk & _ & _ & _ & Hl). split; [exact Hk | exact Hl].
  - exfalso. vm_compute in E. discriminate E.
Defined.

(** *** The streaming runner when the stream ends normally *)

Lemma update_usage_answer l chunk : l_full_answer (update_usage l chunk) = l_full_answer l.
Proof. unfold update_usage. destruct (resp_usage_metadata chunk); reflexivity. Qed.

Lemma update_usage_tokens l chunk :
  tokens (update_usage l chunk) = usage_after (tokens l) chunk.
Proof.
  unfold update_usage, usage_after, tokens. destruct (resp_usage_metadata chunk); reflexivity.
Qed.

Lemma text_stage_some env a l ct st ev l' st' :
  text_stage env a l ct st = (Some ev, l', st') ->
  ev = EvChunk (value (sa_data_format a)) (text_or_empty ct) /\
  l_full_answer l' = l_full_answer l +:+ text_or_empty ct /\
  tokens l' = tokens l.
Proof.
  unfold text_stage. destruct (truthy ct); [| discriminate].
  destruct (l_first_token_time l); intros H; inversion H; repeat split; reflexivity.
Qed.

Lemma text_stage_none env a l ct st l' st' :
  text_stage env a l ct st = (None, l', st') -> l' = l.
Proof.
  unfold text_stage. destruct (truthy ct).
  - destruct (l_first_token_time l); discriminate.
  - intros H. inversion H. reflexivity.
Qed.

(** From inside the loop over a stream that ends normally, the consumer
    receives fragments, then the [complete] event with everything that the
    [chunk] events carried and the token counts that the stream leaves,
    and the generator returns. *)
Lemma stream_loop_completing env a chunks :
  forall l st fuel,
    (2 * length chunks + 1 <= fuel)%nat ->
    exists mid answer latency ttft tin tout st',
      received env a fuel (stream_loop env a None chunks l st)
      = ((mid ++ [EvComplete (value (sa_data_format a)) answer latency ttft tin tout
                             (sa_model a)], Returned), st') /\
      answer = l_full_answer l +:+ chunk_texts mid /\
      (tin, tout) = fold_left usage_after chunks (tokens l) /\
      Forall is_fragment mid.
Proof.
  induction chunks as [| chunk rest IH]; intros l st fuel Hfuel.
  - destruct fuel as [| fuel]; [simpl in Hfuel; lia |].
    eexists [], _, _, _, _, _, _. split; [reflexivity |].
    split; [cbn [chunk_texts]; rewrite append_nil_r; reflexivity |].
    split; [reflexivity | constructor].
  - cbn [stream_loop fold_left]. cbn [length] in Hfuel.
    destruct (extract_chunk chunk) as [ct cth].
    assert (Hstage : forall l0 st0 fuel0,
               (2 * length rest + 2 <= fuel0)%nat ->
               exists mid answer latency ttft tin tout st',
                 received env a fuel0
                   match text_stage env a l0 ct st0 with
                   | (Some ev, l', st') => (Yield ev, AtChunk l' chunk (rest, None), st')
                   | (None, l', st') =>
                       stream_loop env a None rest (update_usage l' chunk) st'
                   end
                 = ((mid ++ [EvComplete (value (sa_data_format a)) answer latency ttft
                                        tin tout (sa_model a)], Returned), st') /\
                 answer = l_full_answer l0 +:+ chunk_texts mid /\
                 (tin, tout) = fold_left usage_after rest (usage_after (tokens l0) chunk) /\
                 Forall is_fragment mid).
    { intros l0 st0 fuel0 Hf.
      destruct (text_stage env a l0 ct st0) as [[[ev |] l'] st'] eqn:Hts.
      - destruct fuel0 as [| fuel0]; [lia |].
        cbn [received]. rewrite consume_S. cbn [next].
        destruct (IH (update_usage l' chunk) st' fuel0)
          as (mid & answer & lat & ttft & tin & tout & st'' & Hr & Ha & Hu & Hm); [lia |].
        rewrite Hr. destruct (text_stage_some _ _ _ _ _ _ _ _ Hts) as (-> & Hl' & Ht').
        exists (EvChunk (value (sa_data_format a)) (text_or_empty ct) :: mid),
          answer, lat, ttft, tin, tout, st''.
        split; [reflexivity |]. split; [| split].
        + rewrite Ha, update_usage_answer, Hl'. cbn [chunk_texts].
          apply append_assoc.
        + rewrite Hu, update_usage_tokens, Ht'. reflexivity.
        + constructor; [left; reflexivity | exact Hm].
      - rewrite (text_stage_none _ _ _ _ _ _ _ Hts).
        destruct (IH (update_usage l0 chunk) st' fuel0)
          as (mid & answer & lat & ttft & tin & tout & st'' & Hr & Ha & Hu & Hm); [lia |].
        exists mid, answer, lat, ttft, tin, tout, st''.
        split; [exact Hr |]. split; [| split; [| exact Hm]].
        + rewrite Ha, update_usage_answer. reflexivity.
        + rewrite Hu, update_usage_tokens. reflexivity. }
    destruct (truthy cth).
    + destruct fuel as [| fuel]; [lia |].
      cbn [received]. rewrite consume_S. cbn [next].
      destruct (Hstage (add_thinking l (text_or_empty cth)) st fuel)
        as (mid & answer & lat & ttft & tin & tout & st' & Hr & Ha & Hu & Hm); [lia |].
      rewrite Hr.
      exists (EvThinking (value (sa_data_format a)) (text_or_empty cth) :: mid),
        answer, lat, ttft, tin, tout, st'.
      split; [reflexivity |]. split; [exact Ha |]. split; [exact Hu |].
      constructor; [right; reflexivity | exact Hm].
    + apply Hstage. lia.
Qed.



(** The events of that run. *)
Example stream_complete_events :
  let a := {| sa_question := "How many products are in the catalog?";
              sa_data_format := RAW_CSV;
              sa_model := default_model;
              sa_temperature := default_temperature;
              sa_thinking_enabled := true |} in
  map (fun e => match e with
                | EvComplete _ answer _ _ tin tout _ =>
                    "complete: " +:+ answer +:+ " " +:+ str_int tin +:+ "/" +:+ str_int tout
                | EvChunk _ text => "chunk: " +:+ text
                | EvThinking _ text => "thinking: " +:+ text
                | _ => event_type e
                end)
      (fst (fst (consume env_documented a 7 Created initial_state)))
  = ["prompt"; "thinking: Let me think."; "chunk: 12 products";
     "complete: 12 products 1500/0"].
Proof. vm_compute. reflexivity. Qed.

(** X14: the token counts of the [complete] event are those of the
    last chunk of the stream that carried usage metadata (a count that is
    missing there is zero), and zero when no chunk carried any: earlier
    counts are replaced, not added. *)
Theorem stream_token_counts
  (env : Env) (a : stream_args) (st : State) (data_prompt : string)
  (chunks : list Response) (fuel : nat) :
  env_client env = Ok () ->
  _prepare_data_prompt (env_data env) (sa_data_format a) = Ok data_prompt ->
  env_generate_content_stream env (length (st_sent st))
    (request_of (sa_question a) (sa_model a) (sa_temperature a)
                (sa_thinking_enabled a) data_prompt)
  = (chunks, None) ->
  (2 * length chunks + 3 <= fuel)%nat ->
  exists before answer latency ttft st',
    consume env a fuel Created st
    = ((before ++ [EvComplete (value (sa_data_format a)) answer latency ttft
                              (fst (final_usage chunks)) (snd (final_usage chunks))
                              (sa_model a)],
        Returned), st').
Proof.
  intros Hc Hp Hs Hfuel.
  destruct fuel as [| fuel]; [lia |]. destruct fuel as [| fuel]; [lia |].
  rewrite consume_S. cbn [next]. rewrite Hc, Hp. cbn [received].
  rewrite consume_S. cbn [next]. unfold generate_content_stream. cbn [st_sent].
  unfold request_of in Hs. rewrite Hs. cbn [fst snd].
  match goal with
  | |- context [stream_loop env a None chunks ?l ?s] =>
      destruct (stream_loop_completing env a chunks l s fuel)
        as (mid & answer & lat & ttft & tin & tout & st' & Hr & _ & Hu & _); [lia |]
  end.
  rewrite Hr. unfold final_usage. unfold tokens in Hu. cbn [l_input_tokens l_output_tokens] in Hu.
  rewrite <- Hu. cbn [fst snd].
  eexists (_ :: mid), answer, lat, ttft, st'. reflexivity.
Qed.

Lemma stream_token_counts_witness :
  let a := {| sa_question := "How many products are in the catalog?";
              sa_data_format := RAW_CSV;
              sa_model := default_model;
              sa_temperature := default_temperature;
              sa_thinking_enabled := false |} in
  final_usage two_chunks = (1500, 0) /\
  exists before answer latency ttft st',
    consume env_documented a 7 Created initial_state
    = ((before ++ [EvComplete "raw_csv" answer latency ttft 1500 0 default_model],
        Returned), st').
Proof.
  intros a. split; [reflexivity |].
  apply (stream_token_counts env_documented a initial_state
           ("Here is the data in CSV format:" +:+ nl +:+ nl +:+
            DataLoader.get_all_csv_as_string documented_store) two_chunks 7).
  - reflexivity.
  - reflexivity.
  - reflexivity.
  - simpl. lia.
Defined.

(** *** What a stream sends *)

Lemma stream_loop_started env a ending chunks :
  forall l st, started (snd (fst (stream_loop env a ending chunks l st))).
Proof.
  induction chunks as [| chunk rest IH]; intros l st; cbn [stream_loop].
  - destruct ending; exact I.
  - destruct (extract_chunk chunk) as [ct cth].
    destruct (truthy cth); [exact I |].
    destruct (text_stage env a l ct st) as [[[ev |] l'] st']; [exact I | apply IH].
Qed.

Lemma next_started env a g st :
  started g ->
  started (snd (fst (next env a g st))) /\
  st_sent (snd (next env a g st)) = st_sent st.
Proof.
  destruct g as [| fp | l ct chunk [rest ending] | l chunk [rest ending] | |];
    cbn [started next]; intros Hg; try contradiction.
  - pose proof (text_stage_sent env a l ct st) as Hs.
    destruct (text_stage env a l ct st) as [[[ev |] l'] st']; cbn [fst snd] in *.
    + split; [exact I | exact Hs].
    + split; [apply stream_loop_started | rewrite stream_loop_sent; exact Hs].
  - split; [apply stream_loop_started | apply stream_loop_sent].
  - split; [exact I | reflexivity].
  - split; [exact I | reflexivity].
Qed.

Lemma consume_started env a fuel :
  forall g st, started g -> st_sent (snd (consume env a fuel g st)) = st_sent st.
Proof.
  induction fuel as [| fuel IH]; intros g st Hg; [reflexivity |].
  cbn [consume].
  destruct (next_started env a g st Hg) as [Hg' Hs].
  destruct (next env a g st) as [[[ev | | e] g'] st']; cbn [fst snd] in *;
    [| exact Hs | exact Hs].
  specialize (IH g' st' Hg').
  destruct (consume env a fuel g' st') as [[evs fin] st'']. cbn [snd] in *.
  rewrite IH. exact Hs.
Qed.

(** X15: a streaming run makes its request lazily and once.  After the
    [prompt] event alone nothing has been sent and the clock has not
    been read; as soon as the consumer asks for a second event, the one
    request built from the arguments has been sent, and nothing more is
    sent however long the consumer goes on and however the stream
    ends. *)
Theorem stream_sends_one_request
  (env : Env) (a : stream_args) (st : State) (data_prompt : string) (fuel : nat) :
  env_client env = Ok () ->
  _prepare_data_prompt (env_data env) (sa_data_format a) = Ok data_prompt ->
  snd (consume env a 1 Created st) = st /\
  st_sent (snd (consume env a (S (S fuel)) Created st))
  = request_of (sa_question a) (sa_model a) (sa_temperature a)
               (sa_thinking_enabled a) data_prompt :: st_sent st.
Proof.
  intros Hc Hp. split.
  - cbn [consume next]. rewrite Hc, Hp. reflexivity.
  - rewrite consume_S. cbn [next]. rewrite Hc, Hp. cbn [received].
    rewrite consume_S. cbn [next]. unfold generate_content_stream. cbn [st_sent].
    match goal with
    | |- context [env_generate_content_stream ?e ?n ?r] =>
        destruct (env_generate_content_stream e n r) as [chunks ending]
    end.
    cbn [fst snd].
    match goal with
    | |- context [stream_loop env a ending chunks ?l ?s] =>
        pose proof (stream_loop_started env a ending chunks l s) as Hg;
        pose proof (stream_loop_sent env a ending chunks l s) as Hs;
        destruct (stream_loop env a ending chunks l s) as [[[ev | | e] g'] st']
    end; cbn [fst snd received] in *.
    + pose proof (consume_started env a fuel g' st' Hg) as Hk.
      destruct (consume env a fuel g' st') as [[evs fin] st'']. cbn [snd] in *.
      rewrite Hk. exact Hs.
    + exact Hs.
    + exact Hs.
Qed.

Lemma stream_sends_one_request_witness :
  snd (consume env_stream_failing raw_csv_args 1 Created initial_state) = initial_state /\
  st_sent (snd (consume env_stream_failing raw_csv_args 9 Created initial_state))
  = [request_of (sa_question raw_csv_args) default_model default_temperature true
       ("Here is the data in CSV format:" +:+ nl +:+ nl)].
Proof.
  apply (stream_sends_one_request env_stream_failing raw_csv_args initial_state
           ("Here is the data in CSV format:" +:+ nl +:+ nl) 7).
  - reflexivity.
  - reflexivity.
Defined.

(** *** One chunk of a stream *)

Lemma scan_part_last acc p :
  part_thought p = false -> truthy (part_text p) = true ->
  fst (scan_part acc p) = part_text p.
Proof.
  intros Ht Hx. unfold scan_part. destruct acc as [ct cth]. rewrite Ht, Hx. reflexivity.
Qed.

(** X16: within one streamed chunk only the text of the last
    non-thinking part counts: when the last part of the chunk's only
    candidate is a non-thinking part with a non-empty text, that text is
    the chunk's text, and the texts of the parts before it are dropped
    (they are overwritten, not appended, unlike in the non-streaming
    runner, which concatenates all parts). *)
Theorem chunk_keeps_last_text (chunk : Response) (parts : list Part) (p : Part) :
  resp_candidates chunk
  = Some [{| candidate_content := Some {| content_parts := Some (parts ++ [p]) |} |}] ->
  part_thought p = false ->
  truthy (part_text p) = true ->
  fst (extract_chunk chunk) = part_text p.
Proof.
  intros Hc Ht Hx. unfold extract_chunk. rewrite Hc.
  cbn [scan_candidates candidate_content content_parts].
  rewrite fold_left_app. cbn [fold_left].
  pose proof (scan_part_last (fold_left scan_part parts (None, None)) p Ht Hx) as Hl.
  destruct (scan_part (fold_left scan_part parts (None, None)) p) as [ct cth].
  cbn [fst] in Hl. subst ct. rewrite Hx. reflexivity.
Qed.

Lemma chunk_keeps_last_text_witness :
  let part t := {| part_text := Some t; part_thought := false |} in
  let chunk :=
    {| resp_text := Ok None;
       resp_candidates :=
         Some [{| candidate_content :=
                    Some {| content_parts := Some ([part "12 "] ++ [part "products"]) |} |}];
       resp_usage_metadata := None |} in
  fst (extract_chunk chunk) = Some "products" /\
  extract_answer chunk = "12 products".
Proof.
  intros part chunk. split; [| reflexivity].
  apply (chunk_keeps_last_text chunk [part "12 "] (part "products")); reflexivity.
Defined.

(** ** [web_app] *)

(** [DataFormat(s)] finds the format whose value is [s], if there is one. *)
Lemma of_value_spec (s : string) :
  (exists f, s = value f /\ of_value s = Ok f) \/
  ((forall f, value f <> s) /\ exists e, of_value s = Raise e).
Proof.
  unfold of_value, all_formats. cbn [find].
  destruct (String.eqb_spec (value RAW_CSV) s) as [<- | H1];
    [left; exists RAW_CSV; split; reflexivity |].
  destruct (String.eqb_spec (value CSV_WITH_METADATA) s) as [<- | H2];
    [left; exists CSV_WITH_METADATA; split; reflexivity |].
  destruct (String.eqb_spec (value ENGLISH_SENTENCES) s) as [<- | H3];
    [left; exists ENGLISH_SENTENCES; split; reflexivity |].
  destruct (String.eqb_spec (value JSON) s) as [<- | H4];
    [left; exists JSON; split; reflexivity |].
  destruct (String.eqb_spec (value JSON_WITH_METADATA) s) as [<- | H5];
    [left; exists JSON_WITH_METADATA; split; reflexivity |].
  right. split; [intros [] | eexists; reflexivity]; assumption.
Qed.

(** A single run sends at most one request. *)
Lemma run_single_experiment_sent_length env q f m t th st :
  (length (st_sent (snd (run_single_experiment env q f m t th st)))
   <= S (length (st_sent st)))%nat.
Proof.
  unfold run_single_experiment, mbind, io_bind, lift, perf_counter, generate_content.
  destruct (env_client env) as [u | e]; cbn; [| lia].
  destruct (_prepare_data_prompt (env_data env) f) as [dp | e]; cbn; [| lia].
  match goal with
  | |- context [env_generate_content ?e ?n ?r] =>
      destruct (env_generate_content e n r) as [resp | ex]
  end; cbn; [| lia].
  destruct (usage resp) as [i o]. cbn. lia.
Qed.

(** A single run whose data prompt cannot be prepared raises and leaves
    the state as it was. *)
Lemma run_single_experiment_unprepared env q f m t th st e :
  _prepare_data_prompt (env_data env) f = Raise e ->
  exists e', run_single_experiment env q f m t th st = (Raise e', st).
Proof.
  intros Hp.
  unfold run_single_experiment, mbind, io_bind, lift.
  destruct (env_client env) as [u | e0]; cbn; [| eexists; reflexivity].
  rewrite Hp. eexists. reflexivity.
Qed.

(** X17: [/api/experiment/single] answers 400 exactly when the
    [data_format] of the request is not the value of one of the five
    encodings, and then without running anything: nothing is sent and
    the clock is not read.  For the five values the status is never
    400. *)
Theorem run_single_rejects_unknown_format
  (env : Env) (request : SingleExperimentRequest) (st : State) :
  ((exists f, se_data_format request = value f) /\
   forall detail, fst (run_single env request st) <> HttpError 400 detail) \/
  ((forall f, value f <> se_data_format request) /\
   run_single env request st
   = (HttpError 400 ("Invalid data format: " +:+ se_data_format request), st)).
Proof.
  unfold run_single.
  destruct (of_value_spec (se_data_format request)) as [(f & Hs & ->) | (Hn & e & ->)].
  - left. split; [exists f; exact Hs |].
    intros detail.
    destruct (run_single_experiment env (se_question request) f (se_model request)
                default_temperature default_thinking_enabled st) as [[r | e] st'];
      cbn [fst]; discriminate.
  - right. split; [exact Hn | reflexivity].
Qed.

(** What the endpoint answers to a format that does not exist. *)
Example run_single_unknown_format :
  run_single env_documented
    {| se_question := "How many products are in the catalog?";
       se_data_format := "xml";
       se_model := default_model;
       se_temperature := default_temperature;
       se_thinking_enabled := false |} initial_state
  = (HttpError 400 "Invalid data format: xml", initial_state).
Proof. reflexivity. Qed.

(** One round of the loop of [run_comparison]. *)
Lemma run_formats_cons env q m f rest st :
  run_formats env q m (f :: rest) st
  = match run_single_experiment env q f m default_temperature default_thinking_enabled st
    with
    | (Ok r, st1) =>
        match run_formats env q m rest st1 with
        | (Ok rs, st2) => (Ok ((f, r) :: rs), st2)
        | (Raise e, st2) => (Raise e, st2)
        end
    | (Raise e, st1) => (Raise e, st1)
    end.
Proof.
  cbn [run_formats]. unfold mbind at 1, io_bind at 1.
  destruct (run_single_experiment env q f m default_temperature default_thinking_enabled st)
    as [[r | e] st1]; [| reflexivity].
  unfold mbind, io_bind.
  destruct (run_formats env q m rest st1) as [[rs | e] st2]; reflexivity.
Qed.

(** X18: without [schema_metadata.json] the sequential comparison can
    never succeed, because it runs the encodings with metadata too:
    [/api/experiment/compare] answers 500, and by then at most one
    request (the one of the raw CSV encoding) has been sent. *)
Theorem compare_without_metadata_fails
  (env : Env) (request : QuestionRequest) (st : State) :
  schema_metadata (env_data env) = None ->
  exists detail st',
    run_comparison_endpoint env request st = (HttpError 500 detail, st') /\
    (length (st_sent st') <= S (length (st_sent st)))%nat.
Proof.
  intros Hm.
  assert (Hp : exists e, _prepare_data_prompt (env_data env) CSV_WITH_METADATA = Raise e).
  { cbn [_prepare_data_prompt]. unfold DataLoader.load_metadata. rewrite Hm.
    eexists. reflexivity. }
  destruct Hp as [e Hp].
  unfold run_comparison_endpoint, run_comparison, all_formats.
  unfold mbind at 1, io_bind at 1. rewrite run_formats_cons.
  pose proof (run_single_experiment_sent_length env (qr_question request) RAW_CSV
                (qr_model request) default_temperature default_thinking_enabled st) as Hl.
  destruct (run_single_experiment env (qr_question request) RAW_CSV (qr_model request)
              default_temperature default_thinking_enabled st) as [[r | e1] st1];
    cbn [snd] in Hl.
  - rewrite run_formats_cons.
    destruct (run_single_experiment_unprepared env (qr_question request) CSV_WITH_METADATA
                (qr_model request) default_temperature default_thinking_enabled st1 e Hp)
      as [e' ->].
    eexists _, st1. split; [reflexivity | exact Hl].
  - eexists _, st1. split; [reflexivity | exact Hl].
Qed.

Lemma compare_without_metadata_fails_witness :
  exists detail st',
    run_comparison_endpoint (env_replying plain_response) sample_question initial_state
    = (HttpError 500 detail, st') /\
    (length (st_sent st') <= 1)%nat.
Proof.
  exact (compare_without_metadata_fails (env_replying plain_response) sample_question
           initial_state eq_refl).
Defined.

(** What it answers there, and what it has sent by then. *)
Example compare_without_metadata :
  let '(response, st') :=
    run_comparison_endpoint (env_replying plain_response) sample_question initial_state in
  (exists detail, response = HttpError 500 detail) /\
  map (fun r => String.substring 0 31 (req_contents r)) (st_sent st')
  = ["Here is the data in CSV format:"].
Proof. vm_compute. split; [eexists |]; reflexivity. Qed.

Lemma run_workers_sent_length env request schedule :
  forall st,
    (length (st_sent (snd (run_workers env request schedule st)))
     <= length schedule + length (st_sent st))%nat.
Proof.
  induction schedule as [| f schedule IH]; intros st; cbn [run_workers]; [cbn; lia |].
  unfold run_format.
  pose proof (run_single_experiment_sent_length env (qr_question request) f
                (qr_model request) (qr_temperature request) (qr_thinking_enabled request) st)
    as Hl.
  destruct (run_single_experiment env (qr_question request) f (qr_model request)
              (qr_temperature request) (qr_thinking_enabled request) st) as [[r | e] st1];
    cbn [snd] in Hl;
    specialize (IH st1);
    destruct (run_workers env request schedule st1) as [entries st2];
    cbn [snd length] in *; lia.
Qed.

(** X19: the parallel comparison sends at most one request per worker,
    whatever the order in which the workers run and complete and whether
    or not they fail: three workers, so at most three requests. *)
Theorem parallel_sends_one_request_per_worker
  (env : Env) (request : QuestionRequest) (schedule completion : list DataFormat)
  (st : State) :
  (length (st_sent (snd (run_parallel_experiment env request schedule completion st)))
   <= length schedule + length (st_sent st))%nat /\
  (Permutation schedule formats ->
   (length (st_sent (snd (run_parallel_experiment env request schedule completion st)))
    <= 3 + length (st_sent st))%nat).
Proof.
  assert (H : (length (st_sent (snd (run_parallel_experiment env request schedule
                                       completion st)))
               <= length schedule + length (st_sent st))%nat).
  { unfold run_parallel_experiment.
    pose proof (run_workers_sent_length env request schedule st) as Hl.
    destruct (run_workers env request schedule st) as [futures st']. exact Hl. }
  split; [exact H |].
  intros Hp. apply Permutation_length in Hp. rewrite Hp in H. exact H.
Qed.

(** X20: what [/api/experiment/compare] returns when it succeeds: the
    question, an [expected_answer] that is always null (the handler
    passes none), and one entry per encoding under [results], keyed by
    the values of all five encodings in the order of the enumeration,
    each with the answer, the latency and the two token counts. *)
Theorem compare_endpoint_body
  (env : Env) (request : QuestionRequest) (st : State) (body : json) (st' : State) :
  run_comparison_endpoint env request st = (HttpOk body, st') ->
  exists results,
    body = JObj [("question", JStr (qr_question request));
                 ("expected_answer", JNull);
                 ("results", JObj results)] /\
    map fst results = map value all_formats /\
    Forall (fun kv => exists a l i o,
                snd kv = JObj [("answer", JStr a); ("latency_ms", JFloat l);
                               ("input_tokens", JInt i); ("output_tokens", JInt o)])
           results.
Proof.
  unfold run_comparison_endpoint.
  destruct (run_comparison env (qr_question request) None (qr_model request) st)
    as [[c | e] st1] eqn:E; [| discriminate].
  intros H. inversion H; subst; clear H.
  destruct (run_comparison_ok _ _ _ _ _ _ _ E) as (Hk & _ & Hq & Hx & _).
  unfold to_dict. rewrite Hq, Hx.
  eexists. split; [reflexivity |]. split.
  - rewrite map_map. cbn [fst]. rewrite <- Hk, map_map. reflexivity.
  - apply Forall_forall. intros kv Hin.
    apply list_elem_of_fmap in Hin as (fr & -> & _). cbn [snd]. eauto.
Qed.

Lemma compare_endpoint_body_witness :
  exists body st' results,
    run_comparison_endpoint env_documented sample_question initial_state
    = (HttpOk body, st') /\
    body = JObj [("question", JStr (qr_question sample_question));
                 ("expected_answer", JNull);
                 ("results", JObj results)] /\
    map fst results
    = ["raw_csv"; "csv_with_metadata"; "english_sentences"; "json"; "json_with_metadata"].
Proof.
  pose proof (compare_endpoint_body env_documented sample_question initial_state) as H.
  destruct (run_comparison_endpoint env_documented sample_question initial_state)
    as [[body | status detail] st'] eqn:E.
  - destruct (H body st' eq_refl) as (results & Hb & Hk & _).
    exists body, st', results. split; [reflexivity |]. split; [exact Hb | exact Hk].
  - exfalso. vm_compute in E. discriminate E.
Defined.

(** *** Dictionaries *)

Lemma dict_set_keys d k v k' :
  k' ∈ map fst (Json.dict_set d k v) <-> k' = k \/ k' ∈ map fst d.
Proof.
  induction d as [| [k0 v0] d IH]; cbn [Json.dict_set map fst].
  - rewrite elem_of_cons. reflexivity.
  - destruct (String.eqb_spec k0 k) as [-> | Hne]; cbn [map fst];
      rewrite !elem_of_cons; [tauto |]. rewrite IH. tauto.
Qed.

Lemma dict_set_NoDup d k v :
  NoDup (map fst d) -> NoDup (map fst (Json.dict_set d k v)).
Proof.
  induction d as [| [k0 v0] d IH]; cbn [Json.dict_set map fst]; intros Hnd.
  - apply NoDup_singleton.
  - apply NoDup_cons in Hnd as [Hk0 Hnd].
    destruct (String.eqb_spec k0 k) as [-> | Hne]; cbn [map fst]; apply NoDup_cons.
    + split; assumption.
    + split; [| apply IH, Hnd].
      rewrite dict_set_keys. intros [-> | Hin]; [apply Hne; reflexivity | apply Hk0, Hin].
Qed.

Lemma dict_of_keys_from pairs :
  forall acc,
    NoDup (map fst acc) ->
    NoDup (map fst (fold_left (fun d kv => Json.dict_set d (fst kv) (snd kv)) pairs acc)) /\
    forall k,
      k ∈ map fst (fold_left (fun d kv => Json.dict_set d (fst kv) (snd kv)) pairs acc)
      <-> k ∈ map fst acc \/ k ∈ map fst pairs.
Proof.
  induction pairs as [| [k0 v0] pairs IH]; intros acc Hnd; cbn [fold_left map fst snd].
  - split; [exact Hnd |]. intros k. rewrite elem_of_nil. tauto.
  - destruct (IH (Json.dict_set acc k0 v0) (dict_set_NoDup acc k0 v0 Hnd)) as [H1 H2].
    split; [exact H1 |]. intros k. rewrite H2, dict_set_keys, elem_of_cons. tauto.
Qed.

(** A dictionary has every key once, and the keys are those of the pairs
    it was built from. *)
Lemma dict_of_keys pairs :
  NoDup (map fst (Json.dict_of pairs)) /\
  forall k, k ∈ map fst (Json.dict_of pairs) <-> k ∈ map fst pairs.
Proof.
  destruct (dict_of_keys_from pairs [] (NoDup_nil_2)) as [H1 H2].
  split; [exact H1 |]. intros k. unfold Json.dict_of. rewrite H2.
  cbn [map]. rewrite elem_of_nil. tauto.
Qed.


Lemma to_dict_records_length df : length (Pandas.to_dict_records df) = Pandas.len df.
Proof.
  unfold Pandas.to_dict_records, Pandas.iterrows, Pandas.len. rewrite !length_map. reflexivity.
Qed.


Import WebAppData.


(** X22: a successful [/api/experiment/single] response echoes the
    request: its [question], [data_format] and [model] are those of the
    request (the format passes through [DataFormat] and back unchanged),
    and one request was sent to the endpoint for it. *)
Theorem run_single_echoes_request
  (env : Env) (request : SingleExperimentRequest) (st : State) (body : json) (st' : State) :
  run_single env request st = (HttpOk body, st') ->
  exists a l i o,
    body = JObj [("question", JStr (se_question request));
                 ("data_format", JStr (se_data_format request));
                 ("answer", JStr a);
                 ("latency_ms", JFloat l);
                 ("input_tokens", JInt i);
                 ("output_tokens", JInt o);
                 ("model", JStr (se_model request))] /\
    length (st_sent st') = S (length (st_sent st)).
Proof.
  unfold run_single.
  destruct (of_value_spec (se_data_format request)) as [(f & Hs & ->) | (_ & e & ->)];
    [| discriminate].
  destruct (run_single_experiment env (se_question request) f (se_model request)
              default_temperature default_thinking_enabled st) as [[r | e] st1] eqn:E;
    [| discriminate].
  intros H. inversion H; subst; clear H.
  destruct (run_single_experiment_ok _ _ _ _ _ _ _ _ _ E) as (Hf & Hq & Hm & Hl).
  rewrite Hf, Hq, Hm, <- Hs. eexists _, _, _, _. split; [reflexivity | exact Hl].
Qed.

Lemma run_single_echoes_request_witness :
  let request := {| se_question := "How many products are in the catalog?";
                    se_data_format := "json";
                    se_model := "gemini-2.0-flash";
                    se_temperature := 0.2%float;
                    se_thinking_enabled := true |} in
  exists a l i o st',
    run_single env_documented request initial_state
    = (HttpOk (JObj [("question", JStr "How many products are in the catalog?");
                     ("data_format", JStr "json");
                     ("answer", JStr a);
                     ("latency_ms", JFloat l);
                     ("input_tokens", JInt i);
                     ("output_tokens", JInt o);
                     ("model", JStr "gemini-2.0-flash")]), st') /\
    length (st_sent st') = 1%nat.
Proof.
  intros request.
  pose proof (run_single_echoes_request env_documented request initial_state) as H.
  destruct (run_single env_documented request initial_state) as [[body | status detail] st']
    eqn:E.
  - destruct (H body st' eq_refl) as (a & l & i & o & -> & Hl).
    exists a, l, i, o, st'. split; [reflexivity | exact Hl].
  - exfalso. vm_compute in E. discriminate E.
Defined.

(** ** [experiment]: the report *)

Import Report.

Lemma replace_newlines_length s :
  String.length (replace_newlines s) = String.length s.
Proof. induction s as [| c s IH]; cbn [replace_newlines String.length]; congruence. Qed.

Lemma substring_prefix_length n :
  forall s, (String.length (String.substring 0 n s) <= n)%nat.
Proof.
  induction n as [| n IH]; intros [| c s]; cbn [String.substring String.length]; try lia.
  specialize (IH s). lia.
Qed.

Lemma substring_all n :
  forall s, (String.length s <= n)%nat -> String.substring 0 n s = s.
Proof.
  induction n as [| n IH]; intros [| c s]; cbn [String.substring String.length];
    intros H; try reflexivity; try lia.
  rewrite IH; [reflexivity | lia].
Qed.

(** Looking for a single character. *)
Lemma contains_char_cons (c c' : ascii) (r : string) :
  contains (String c EmptyString) (String c' r)
  = (if ascii_dec c c' then true else false) || contains (String c EmptyString) r.
Proof.
  cbn [contains String.prefix]. destruct (ascii_dec c c'); [| reflexivity].
  destruct r; reflexivity.
Qed.

Lemma contains_char_append (c : ascii) (a b : string) :
  contains (String c EmptyString) (a +:+ b)
  = contains (String c EmptyString) a || contains (String c EmptyString) b.
Proof.
  induction a as [| c' a IH].
  - rewrite append_nil_l. reflexivity.
  - rewrite append_cons, !contains_char_cons, IH. apply orb_assoc.
Qed.

Lemma replace_newlines_clean s : contains nl (replace_newlines s) = false.
Proof.
  unfold nl, Json.newline.
  induction s as [| c s IH]; [reflexivity |].
  cbn [replace_newlines]. rewrite contains_char_cons, IH, orb_false_r.
  destruct (Ascii.eqb_spec c (ascii_of_N 10)) as [-> | Hne].
  - destruct (ascii_dec (ascii_of_N 10) " "%char) as [H | _]; [discriminate H | reflexivity].
  - destruct (ascii_dec (ascii_of_N 10) c) as [H | _]; [| reflexivity].
    exfalso. apply Hne. symmetry. exact H.
Qed.

Lemma replace_newlines_id s : contains nl s = false -> replace_newlines s = s.
Proof.
  unfold nl, Json.newline.
  induction s as [| c s IH]; [reflexivity |].
  rewrite contains_char_cons. intros H. apply orb_false_elim in H as [Hc Hs].
  cbn [replace_newlines]. rewrite (IH Hs).
  destruct (Ascii.eqb_spec c (ascii_of_N 10)) as [-> | _]; [| reflexivity].
  destruct (ascii_dec (ascii_of_N 10) (ascii_of_N 10)) as [_ | Hne];
    [discriminate Hc | contradiction].
Qed.

(** X23: the answer cell of the report's table never breaks the table
    row and never grows long: it holds no line break and at most 103
    characters (a hundred of the answer and the ellipsis).  An answer of
    at most a hundred characters on one line is shown unchanged. *)
Theorem answer_short_fits (answer : string) :
  (String.length (answer_short answer) <= 103)%nat /\
  contains nl (answer_short answer) = false /\
  ((String.length answer <= 100)%nat -> contains nl answer = false ->
   answer_short answer = answer).
Proof.
  unfold answer_short.
  pose proof (substring_prefix_length 100 answer) as Hlen.
  pose proof (replace_newlines_length (String.substring 0 100 answer)) as Hr.
  pose proof (replace_newlines_clean (String.substring 0 100 answer)) as Hc.
  split; [| split].
  - destruct (100 <? String.length answer)%nat.
    + rewrite length_append, Hr. cbn [String.length]. lia.
    + rewrite Hr. lia.
  - destruct (100 <? String.length answer)%nat; [| exact Hc].
    unfold nl, Json.newline in *. rewrite contains_char_append, Hc. reflexivity.
  - intros Hshort Hline.
    destruct (Nat.ltb_spec 100 (String.length answer)) as [Hlt | _]; [lia |].
    rewrite substring_all by exact Hshort. apply replace_newlines_id, Hline.
Qed.

(** The cells of some answers. *)
Example answer_short_samples :
  answer_short ("12 products" +:+ nl +:+ "in the catalog") = "12 products in the catalog" /\
  String.length (answer_short (replicate_char 250 "a")) = 103%nat.
Proof. vm_compute. split; reflexivity. Qed.

Lemma comprehension_raise {A B} (f : A -> outcome B) (l : list A) e :
  comprehension f l = Raise e -> exists x, x ∈ l /\ f x = Raise e.
Proof.
  induction l as [| x l IH]; cbn [comprehension]; [discriminate |].
  destruct (f x) as [y | e0] eqn:Ex; cbn [mbind outcome_bind].
  - destruct (comprehension f l) as [ys | e1]; cbn [mbind outcome_bind]; [discriminate |].
    intros H. destruct (IH H) as (x' & Hin & Hx').
    exists x'. split; [apply elem_of_cons; right; exact Hin | exact Hx'].
  - intros H. injection H as <-. exists x. split; [apply elem_of_cons; left; reflexivity |].
    exact Ex.
Qed.

Lemma comprehension_ok {A B} (f : A -> outcome B) (l : list A) ys :
  comprehension f l = Ok ys -> forall x, x ∈ l -> exists y, f x = Ok y.
Proof.
  revert ys. induction l as [| x l IH]; intros ys H x' Hin;
    [apply elem_of_nil in Hin; contradiction |].
  cbn [comprehension] in H.
  destruct (f x) as [y | e0] eqn:Ex; cbn [mbind outcome_bind] in H; [| discriminate H].
  destruct (comprehension f l) as [ys' | e1] eqn:El; cbn [mbind outcome_bind] in H;
    [| discriminate H].
  apply elem_of_cons in Hin as [-> | Hin]; [exists y; exact Ex | exact (IH _ eq_refl _ Hin)].
Qed.

Lemma results_getitem_raise rs f e :
  results_getitem rs f = Raise e -> e = Exn KeyError (repr f).
Proof.
  induction rs as [| [f' r] rs IH]; cbn [results_getitem].
  - intros H. injection H as <-. reflexivity.
  - destruct (decide (f' = f)); [discriminate | exact IH].
Qed.

Lemma results_getitem_found rs f :
  f ∈ map fst rs -> exists r, results_getitem rs f = Ok r.
Proof.
  induction rs as [| [f' r] rs IH]; cbn [results_getitem map fst]; intros Hin.
  - apply elem_of_nil in Hin. contradiction.
  - destruct (decide (f' = f)) as [-> | Hne]; [exists r; reflexivity |].
    apply elem_of_cons in Hin as [-> | Hin]; [contradiction | exact (IH Hin)].
Qed.

Lemma all_formats_complete f : f ∈ all_formats.
Proof. unfold all_formats. destruct f; rewrite ?elem_of_cons; auto 12. Qed.

Lemma comparison_lines_cases i (c : ComparisonResult) :
  ((exists ls, comparison_lines i c = Ok ls) <-> complete_comparison c) /\
  (forall e, comparison_lines i c = Raise e ->
     exists f, results_getitem (cr_results c) f = Raise e /\ e = Exn KeyError (repr f)).
Proof.
  unfold comparison_lines.
  destruct (comprehension
              (fun fmt => result ← results_getitem (cr_results c) fmt;
                          Ok (result_row fmt result)) all_formats)
    as [rows | e0] eqn:E; cbn [mbind outcome_bind].
  - split; [split |].
    + intros _ f.
      destruct (comprehension_ok _ _ _ E f (all_formats_complete f)) as [y Hy].
      destruct (results_getitem (cr_results c) f) as [r | e1]; [eauto | discriminate Hy].
    + intros _. eexists. reflexivity.
    + discriminate.
  - apply comprehension_raise in E as (f & _ & Hf).
    assert (Hr : results_getitem (cr_results c) f = Raise e0).
    { destruct (results_getitem (cr_results c) f) as [r | e1];
        cbn [mbind outcome_bind] in Hf; [discriminate Hf | injection Hf as ->; reflexivity]. }
    split; [split |].
    + intros [ls Hls]. discriminate Hls.
    + intros Hall. destruct (Hall f) as [r Hr']. rewrite Hr in Hr'. discriminate Hr'.
    + intros e H. injection H as <-. exists f. split; [exact Hr |].
      exact (results_getitem_raise _ _ _ Hr).
Qed.

Lemma report_lines_cases (results : list ComparisonResult) :
  forall i,
    ((exists ls, report_lines i results = Ok ls) <-> Forall complete_comparison results) /\
    (forall e, report_lines i results = Raise e ->
       exists c f, c ∈ results /\ results_getitem (cr_results c) f = Raise e /\
                   e = Exn KeyError (repr f)).
Proof.
  induction results as [| c results IH]; intros i; cbn [report_lines].
  - split; [split; [intros _; constructor | intros _; eexists; reflexivity] | discriminate].
  - destruct (comparison_lines_cases i c) as [Hc1 Hc2].
    destruct (IH (S i)) as [Hr1 Hr2].
    destruct (comparison_lines i c) as [ls | e0]; cbn [mbind outcome_bind].
    + destruct (report_lines (S i) results) as [more | e1]; cbn [mbind outcome_bind].
      * split; [split |].
        -- intros _. constructor; [apply Hc1; eauto | apply Hr1; eauto].
        -- intros _. eexists. reflexivity.
        -- discriminate.
      * split; [split |].
        -- intros [x Hx]. discriminate Hx.
        -- intros Hall. apply Forall_cons in Hall as [_ Hall].
           apply Hr1 in Hall as [x Hx]. discriminate Hx.
        -- intros e H. destruct (Hr2 e H) as (c' & f & Hin & Hf).
           exists c', f. split; [apply elem_of_cons; right; exact Hin | exact Hf].
    + split; [split |].
      * intros [x Hx]. discriminate Hx.
      * intros Hall. apply Forall_cons in Hall as [Hall _].
        apply Hc1 in Hall as [x Hx]. discriminate Hx.
      * intros e H. destruct (Hc2 e H) as (f & Hf).
        exists c, f. split; [apply elem_of_cons; left; reflexivity | exact Hf].
Qed.

(** X24: [format_results_markdown] produces a report exactly when
    every comparison holds a result for each of the five encodings;
    otherwise it raises the [KeyError] of an encoding that a comparison
    lacks, and no partial report is returned. *)
Theorem report_needs_every_format (results : list ComparisonResult) :
  ((exists text, format_results_markdown results = Ok text) <->
   Forall complete_comparison results) /\
  (forall e, format_results_markdown results = Raise e ->
     exists c f, c ∈ results /\ results_getitem (cr_results c) f = Raise e /\
                 e = Exn KeyError (repr f)).
Proof.
  unfold format_results_markdown.
  destruct (report_lines_cases results 1) as [H1 H2].
  destruct (report_lines 1 results) as [ls | e0]; cbn [mbind outcome_bind].
  - split; [split |].
    + intros _. apply H1. eauto.
    + intros _. eexists. reflexivity.
    + discriminate.
  - split; [split |].
    + intros [x Hx]. discriminate Hx.
    + intros Hall. apply H1 in Hall as [x Hx]. discriminate Hx.
    + intros e H. apply H2. injection H as ->. reflexivity.
Qed.

(** The report of one comparison that lacks the prose encoding. *)
Example report_of_incomplete_comparison :
  format_results_markdown
    [{| cr_question := "How many products are in the catalog?";
        cr_expected_answer := None;
        cr_results := [] |}]
  = Raise (Exn KeyError "<DataFormat.RAW_CSV: 'raw_csv'>").
Proof. vm_compute. reflexivity. Qed.

(** *** The full experiment *)

Lemma run_questions_ok env m qs :
  forall st results st',
    run_questions env m qs st = (Ok results, st') ->
    Forall2 (fun q c => entry_get q "question" = Some (cr_question c) /\
                        entry_get q "expected" = cr_expected_answer c /\
                        map fst (cr_results c) = all_formats) qs results /\
    length (st_sent st') = (5 * length qs + length (st_sent st))%nat.
Proof.
  induction qs as [| q qs IH]; intros st results st' H.
  - cbn in H. inversion H. split; [constructor | reflexivity].
  - cbn [run_questions] in H. unfold mbind at 1, io_bind at 1, lift, entry_getitem in H.
    destruct (entry_get q "question") as [question |] eqn:Eq; [| discriminate H].
    unfold mbind at 1, io_bind at 1 in H.
    destruct (run_comparison env question (entry_get q "expected") m st)
      as [[c | e] st1] eqn:Ec; [| discriminate H].
    unfold mbind at 1, io_bind at 1 in H.
    destruct (run_questions env m qs st1) as [[cs | e] st2] eqn:Er; [| discriminate H].
    inversion H; subst; clear H.
    destruct (run_comparison_ok _ _ _ _ _ _ _ Ec) as (Hk & _ & Hq & Hx & Hl).
    destruct (IH _ _ _ Er) as (Hall & Hlen).
    split.
    + constructor; [| exact Hall]. rewrite Hq, Hx.
      split; [exact Eq | split; [reflexivity | exact Hk]].
    + rewrite Hlen, Hl. cbn [length]. lia.
Qed.

(** X25: when [run_full_experiment] returns, it returns one comparison
    per question, in the order of the questions, each with the text and
    the expected answer of its entry and a result for every one of the
    five encodings; five requests were sent per question; and the
    markdown report of what it returned can always be produced.  With no
    list given the questions are the project's research questions. *)
Theorem full_experiment_report
  (env : Env) (m : string) (questions : option (list question_entry)) (st : State)
  (results : list ComparisonResult) (st' : State) :
  run_full_experiment env m questions st = (Ok results, st') ->
  let qs := match questions with None => RESEARCH_QUESTIONS | Some qs => qs end in
  Forall2 (fun q c => entry_get q "question" = Some (cr_question c) /\
                      entry_get q "expected" = cr_expected_answer c /\
                      map fst (cr_results c) = all_formats) qs results /\
  length (st_sent st') = (5 * length qs + length (st_sent st))%nat /\
  exists text, format_results_markdown results = Ok text.
Proof.
  intros H qs. unfold run_full_experiment in H. fold qs in H.
  destruct (run_questions_ok env m qs st results st' H) as (Hall & Hlen).
  split; [exact Hall |]. split; [exact Hlen |].
  unfold format_results_markdown.
  destruct (report_lines_cases results 1) as [H1 _].
  assert (Hc : Forall complete_comparison results).
  { clear -Hall. induction Hall as [| q c qs cs (_ & _ & Hk) _ IH]; constructor; [| exact IH].
    intros f. apply results_getitem_found. rewrite Hk. apply all_formats_complete. }
  apply H1 in Hc as [ls ->]. eexists. reflexivity.
Qed.

Lemma full_experiment_report_witness :
  exists results st' text,
    run_full_experiment env_documented default_model
      (Some (firstn 2 RESEARCH_QUESTIONS)) initial_state = (Ok results, st') /\
    map cr_question results
    = ["What is the most expensive product in the catalog?";
       "Which supplier has the best reliability rating?"] /\
    length (st_sent st') = 10%nat /\
    format_results_markdown results = Ok text.
Proof.
  pose proof (full_experiment_report env_documented default_model
                (Some (firstn 2 RESEARCH_QUESTIONS)) initial_state) as H.
  destruct (run_full_experiment env_documented default_model
              (Some (firstn 2 RESEARCH_QUESTIONS)) initial_state)
    as [[results | e] st'] eqn:E.
  - destruct (H results st' eq_refl) as (Hall & Hlen & text & Ht).
    exists results, st', text. split; [reflexivity |].
    split; [| split; [exact Hlen | exact Ht]].
    cbn [firstn RESEARCH_QUESTIONS] in Hall.
    inversion Hall as [| q1 c1 qs1 cs1 (Hq1 & _) Hall1]; subst.
    inversion Hall1 as [| q2 c2 qs2 cs2 (Hq2 & _) Hall2]; subst.
    inversion Hall2; subst.
    cbn in Hq1, Hq2. injection Hq1 as Hq1. injection Hq2 as Hq2.
    cbn [map]. rewrite <- Hq1, <- Hq2. reflexivity.
  - exfalso. vm_compute in E. discriminate E.
Defined.

(** The report of a run over one question. *)
Example report_of_one_question :
  (results ← fst (run_full_experiment env_documented default_model
                    (Some (firstn 1 RESEARCH_QUESTIONS)) initial_state);
   format_results_markdown results)
  = Ok (join nl
          ["# Experiment Results"; "";
           "";
           "## Question 1: What is the most expensive product in the catalog?"; "";
           "**Expected:** The Smart Watch Fitness (P010) at $199.99"; "";
           "";
           "| Format | Answer | Latency | Tokens (in/out) |";
           "|--------|--------|---------|-----------------|";
           "| raw_csv | 12 products | 1000ms | 1500/4 |";
           "| csv_with_metadata | 12 products | 1000ms | 1500/4 |";
           "| english_sentences | 12 products | 1000ms | 1500/4 |";
           "| json | 12 products | 1000ms | 1500/4 |";
           "| json_with_metadata | 12 products | 1000ms | 1500/4 |";
           ""]).
Proof. vm_compute. reflexivity. Qed.

(** * The decoder reads the encoder's documents *)

Import Json.
Import JsonText.

Lemma all_digits_append a b :
  all_digits (a +:+ b) = all_digits a && all_digits b.
Proof.
  induction a as [| c a IH]; [reflexivity |].
  rewrite append_cons. cbn [all_digits]. rewrite IH. apply andb_assoc.
Qed.

Lemma all_digits_replicate n : all_digits (replicate_char n "0") = true.
Proof. induction n as [| n IH]; [reflexivity | exact IH]. Qed.

Lemma all_digits_substring s : forall n m,
  all_digits s = true -> all_digits (String.substring n m s) = true.
Proof.
  induction s as [| c s IH]; intros n m H.
  - destruct n, m; reflexivity.
  - cbn [all_digits] in H. apply andb_true_iff in H. destruct H as [Hc Hs].
    destruct n as [| n]; cbn [String.substring].
    + destruct m as [| m]; [reflexivity |]. cbn [all_digits].
      rewrite Hc. apply IH. exact Hs.
    + apply IH. exact Hs.
Qed.

Lemma string_of_uint_digits u : all_digits (NilEmpty.string_of_uint u) = true.
Proof. induction u; cbn [NilEmpty.string_of_uint all_digits]; try reflexivity; exact IHu. Qed.

(** The decimal digits of a positive number start with a digit that is
    not zero. *)
Lemma to_uint_head p :
  exists c rest,
    NilZero.string_of_uint (Pos.to_uint p) = String c rest /\
    is_digit c = true /\ Ascii.eqb c "0" = false /\ all_digits rest = true.
Proof.
  pose proof (Unsigned.to_uint_nonnil p) as Hnil.
  pose proof (Unsigned.to_uint_nonzero p) as Hzero.
  assert (Hnorm : Decimal.unorm (Pos.to_uint p) = Pos.to_uint p).
  { rewrite <- Unsigned.to_of. rewrite Unsigned.of_to. reflexivity. }
  assert (Hhead : Decimal.nzhead (Pos.to_uint p) = Pos.to_uint p).
  { unfold Decimal.unorm in Hnorm.
    destruct (Decimal.nzhead (Pos.to_uint p)) eqn:E; try exact Hnorm.
    symmetry in Hnorm. contradiction. }
  pose proof (string_of_uint_digits (Pos.to_uint p)) as Hd.
  unfold NilZero.string_of_uint.
  destruct (Pos.to_uint p) as [| u | u | u | u | u | u | u | u | u | u] eqn:E;
    [contradiction | | | | | | | | | |];
    [exfalso; apply (nzhead_nonzero (Decimal.D0 u) u); exact Hhead | ..];
    cbn [NilEmpty.string_of_uint all_digits] in *;
    apply andb_true_iff in Hd; destruct Hd as [_ Hd];
    eexists _, _; (split; [reflexivity |]); (split; [reflexivity |]);
    (split; [reflexivity | exact Hd]).
Qed.

Lemma ends_token_no_digit s : ends_token s -> no_digit_head s.
Proof. destruct s as [| c s]; [trivial |]. intros [-> | ->]; reflexivity. Qed.

Lemma span_digits_append digits rest :
  all_digits digits = true -> no_digit_head rest ->
  span_digits (digits +:+ rest) = (digits, rest).
Proof.
  intros Hd Hr. induction digits as [| c digits IH].
  - rewrite append_nil_l. destruct rest as [| c rest]; [reflexivity |].
    cbn [span_digits]. cbn in Hr. rewrite Hr. reflexivity.
  - cbn [all_digits] in Hd. apply andb_true_iff in Hd. destruct Hd as [Hc Hd].
    rewrite append_cons. cbn [span_digits]. rewrite Hc, (IH Hd). reflexivity.
Qed.

Lemma digit_not c (d : ascii) :
  is_digit c = true -> is_digit d = false -> Ascii.eqb c d = false.
Proof.
  intros Hc Hd. destruct (Ascii.eqb_spec c d) as [-> | Hne]; [congruence | reflexivity].
Qed.

Lemma scan_exponent_tail e rest :
  match e with Some (_, d) => valid_digits d | None => True end ->
  ends_token rest ->
  scan_exponent (exponent_tail e rest) = (e, rest).
Proof.
  intros He Hr. destruct e as [[negative digits] |]; cbn [exponent_tail].
  - destruct He as (c & r & -> & Hc & Hall).
    assert (Hspan : span_digits (String c r +:+ rest) = (String c r, rest)).
    { apply span_digits_append; [| apply ends_token_no_digit; exact Hr].
      cbn [all_digits]. rewrite Hc, Hall. reflexivity. }
    destruct negative; cbn [scan_exponent]; cbn; unfold scan_exponent_digits;
      rewrite append_cons; rewrite Hc; rewrite <- append_cons; rewrite Hspan; reflexivity.
  - destruct rest as [| c rest]; [reflexivity |].
    cbn [scan_exponent]. destruct Hr as [-> | ->]; reflexivity.
Qed.

Lemma scan_fraction_tail f rest :
  match f with Some d => valid_digits d | None => True end ->
  (match rest with
   | EmptyString => True
   | String c _ => Ascii.eqb c "." = false /\ is_digit c = false
   end) ->
  scan_fraction (fraction_tail f rest) = (f, rest).
Proof.
  intros Hf Hr. destruct f as [digits |]; cbn [fraction_tail].
  - destruct Hf as (c & r & -> & Hc & Hall).
    assert (Hspan : span_digits (String c r +:+ rest) = (String c r, rest)).
    { apply span_digits_append.
      - cbn [all_digits]. rewrite Hc, Hall. reflexivity.
      - destruct rest; [trivial | apply Hr]. }
    cbn [scan_fraction]. cbn. rewrite append_cons. rewrite Hc.
    rewrite <- append_cons. rewrite Hspan. reflexivity.
  - destruct rest as [| c rest]; [reflexivity |].
    cbn [scan_fraction]. destruct Hr as [Hr _]. rewrite Hr. reflexivity.
Qed.

(** What follows the integer part or the fraction starts with no digit
    and no point. *)
Lemma exponent_tail_head e rest :
  ends_token rest ->
  match exponent_tail e rest with
  | EmptyString => True
  | String c _ => Ascii.eqb c "." = false /\ is_digit c = false
  end.
Proof.
  intros Hr. destruct e as [[negative digits] |]; cbn [exponent_tail].
  - split; reflexivity.
  - destruct rest as [| c rest]; [trivial |]. destruct Hr as [-> | ->]; split; reflexivity.
Qed.

Lemma fraction_tail_head f rest :
  (match rest with
   | EmptyString => True
   | String c _ => Ascii.eqb c "." = false /\ is_digit c = false
   end) ->
  no_digit_head (fraction_tail f rest).
Proof.
  intros Hr. destruct f as [digits |]; cbn [fraction_tail].
  - reflexivity.
  - destruct rest as [| c rest]; [trivial |]. apply Hr.
Qed.

Lemma scan_integer_tail i rest :
  valid_integer i -> no_digit_head rest ->
  scan_integer (i +:+ rest) = Some (i, rest).
Proof.
  intros [-> | (c & r & -> & Hc & Hz & Hall)] Hr.
  - reflexivity.
  - rewrite append_cons. cbn [scan_integer]. rewrite Hz, Hc.
    rewrite <- append_cons. rewrite span_digits_append; [reflexivity | | exact Hr].
    cbn [all_digits]. rewrite Hc, Hall. reflexivity.
Qed.

Lemma valid_integer_head i rest :
  valid_integer i -> exists c r, i +:+ rest = String c r /\ is_digit c = true.
Proof.
  intros [-> | (c & r & -> & Hc & _)].
  - eexists _, _. split; reflexivity.
  - rewrite append_cons. eexists _, _. split; [reflexivity | exact Hc].
Qed.

(** The scanner splits a valid number text into its parts and stops where
    the token ends. *)
Lemma scan_number_tail t rest :
  valid_number t -> ends_token rest ->
  scan_number (number_tail t rest) = Some (t, rest).
Proof.
  intros (Hi & Hf & He) Hr. destruct t as [negative i f e]. cbn in Hi, Hf, He.
  unfold number_tail. cbn [nt_negative nt_integer nt_fraction nt_exponent].
  pose proof (exponent_tail_head e rest Hr) as Hhead.
  pose proof (fraction_tail_head f _ Hhead) as Hnd.
  assert (Hrest :
    match scan_integer (i +:+ fraction_tail f (exponent_tail e rest)) with
    | Some (integer, s2) =>
        let '(fraction, s3) := scan_fraction s2 in
        let '(exponent, s4) := scan_exponent s3 in
        Some ({| nt_negative := negative; nt_integer := integer;
                 nt_fraction := fraction; nt_exponent := exponent |}, s4)
    | None => None
    end = Some ({| nt_negative := negative; nt_integer := i;
                   nt_fraction := f; nt_exponent := e |}, rest)).
  { rewrite (scan_integer_tail i _ Hi Hnd).
    rewrite (scan_fraction_tail f _ Hf Hhead).
    rewrite (scan_exponent_tail e rest He Hr). reflexivity. }
  destruct negative.
  - unfold scan_number. cbn [Ascii.eqb Bool.eqb]. exact Hrest.
  - destruct (valid_integer_head i (fraction_tail f (exponent_tail e rest)) Hi)
      as (c & r & Heq & Hc).
    unfold scan_number. rewrite Heq.
    rewrite (digit_not c "-" Hc eq_refl). rewrite <- Heq. exact Hrest.
Qed.

(** *** The text of integers and floats *)

Lemma int_of_digits_str_int z : 0 <= z -> int_of_digits (str_int z) = z.
Proof.
  intros Hz. unfold int_of_digits, str_int.
  rewrite NilZero.isi.
  - apply DecimalZ.of_to.
  - destruct z; cbn; try discriminate.
    intros H. inversion H as [H']. exact (Unsigned.to_uint_nonnil _ H').
  - destruct z; cbn; try discriminate. lia.
Qed.

Lemma str_int_valid z :
  0 <= z -> valid_integer (str_int z).
Proof.
  intros Hz. destruct z as [| p | p]; [left; reflexivity | | lia].
  right. unfold str_int. cbn [Z.to_int NilZero.string_of_int].
  destruct (to_uint_head p) as (c & r & E & Hc & Hn & Hall).
  exists c, r. auto.
Qed.

Lemma valid_integer_digits i : valid_integer i -> valid_digits i.
Proof.
  intros [-> | (c & r & -> & Hc & _ & Hall)].
  - eexists _, _. repeat split; reflexivity.
  - exists c, r. auto.
Qed.

(** The text of an integer is a number text whose value is the integer. *)
Lemma str_int_number z :
  exists t, valid_number t /\ number_value t = JInt z /\
            forall rest, str_int z +:+ rest = number_tail t rest.
Proof.
  destruct (Z_lt_le_dec z 0) as [Hneg | Hpos].
  - exists {| nt_negative := true; nt_integer := str_int (- z);
              nt_fraction := None; nt_exponent := None |}.
    split; [| split].
    + split; [apply str_int_valid; lia | split; exact I].
    + unfold number_value. cbn [nt_fraction nt_exponent nt_negative nt_integer].
      rewrite int_of_digits_str_int by lia. f_equal. lia.
    + intros rest. unfold number_tail.
      cbn [nt_fraction nt_exponent nt_negative nt_integer fraction_tail exponent_tail].
      destruct z as [| p | p]; [lia | lia |]. reflexivity.
  - exists {| nt_negative := false; nt_integer := str_int z;
              nt_fraction := None; nt_exponent := None |}.
    split; [| split].
    + split; [apply str_int_valid; lia | split; exact I].
    + unfold number_value. cbn [nt_fraction nt_exponent nt_negative nt_integer].
      rewrite int_of_digits_str_int by lia. reflexivity.
    + intros rest. reflexivity.
Qed.

Lemma strip_trailing_zeros_digits s :
  all_digits s = true -> all_digits (fst (PyFloat.strip_trailing_zeros s)) = true.
Proof.
  induction s as [| c s IH]; intros H; [reflexivity |].
  cbn [all_digits] in H. apply andb_true_iff in H. destruct H as [Hc Hs].
  specialize (IH Hs). cbn [PyFloat.strip_trailing_zeros].
  destruct (PyFloat.strip_trailing_zeros s) as [rest' k]. cbn [fst] in IH.
  destruct rest' as [| c' rest''].
  - destruct (Ascii.eqb c "0"); cbn [fst all_digits]; [reflexivity |].
    rewrite Hc. reflexivity.
  - cbn [fst all_digits] in *. rewrite Hc. exact IH.
Qed.

(** Stripping the trailing zeros keeps a leading digit that is not zero. *)
Lemma strip_trailing_zeros_head c s :
  Ascii.eqb c "0" = false -> all_digits s = true ->
  exists rest k, PyFloat.strip_trailing_zeros (String c s) = (String c rest, k) /\
                 all_digits rest = true.
Proof.
  intros Hc Hs. cbn [PyFloat.strip_trailing_zeros].
  pose proof (strip_trailing_zeros_digits s Hs) as Hd.
  destruct (PyFloat.strip_trailing_zeros s) as [rest' k]. cbn [fst] in Hd.
  destruct rest' as [| c' rest''].
  - rewrite Hc. eexists _, _. split; reflexivity.
  - eexists _, _. split; [reflexivity | exact Hd].
Qed.


Lemma substring_length s : forall n m,
  (n + m <= String.length s)%nat -> String.length (String.substring n m s) = m.
Proof.
  induction s as [| c s IH]; intros n m H; cbn [String.length] in H.
  - destruct n, m; try lia; reflexivity.
  - destruct n as [| n]; cbn [String.substring].
    + destruct m as [| m]; [reflexivity |]. cbn [String.length]. rewrite IH; lia.
    + apply IH. lia.
Qed.

Lemma valid_digits_of s :
  all_digits s = true -> (0 < String.length s)%nat -> valid_digits s.
Proof.
  intros H Hl. destruct s as [| c r]; [cbn in Hl; lia |].
  cbn [all_digits] in H. apply andb_true_iff in H. destruct H as [Hc Hr].
  exists c, r. auto.
Qed.

Lemma exponent_text_shape x :
  exists (negative : bool) digits,
    valid_digits digits /\
    PyFloat.exponent_text x
    = String (if negative then "-" else "+")%char digits.
Proof.
  unfold PyFloat.exponent_text.
  exists (x <? 0), (replicate_char (2 - String.length (str_int (Z.abs x))) "0"
                    +:+ str_int (Z.abs x)).
  split.
  - apply valid_digits_of.
    + rewrite all_digits_append, all_digits_replicate. cbn [andb].
      destruct (valid_integer_digits _ (str_int_valid (Z.abs x) (Z.abs_nonneg x)))
        as (c & r & -> & Hc & Hr).
      cbn [all_digits]. rewrite Hc, Hr. reflexivity.
    + rewrite length_append.
      destruct (valid_integer_digits _ (str_int_valid (Z.abs x) (Z.abs_nonneg x)))
        as (c & r & -> & _). cbn [String.length]. lia.
  - destruct (x <? 0); reflexivity.
Qed.

Lemma substring_0_0 s : String.substring 0 0 s = EmptyString.
Proof. destruct s; reflexivity. Qed.

(** The shortest representation of a positive magnitude is a number
    text. *)
Lemma repr_magnitude_number m e :
  exists t, valid_number t /\ nt_negative t = false /\
            forall rest, PyFloat.repr_magnitude m e +:+ rest = number_tail t rest.
Proof.
  unfold PyFloat.repr_magnitude.
  destruct (PyFloat.shortest_digits 17 1 m e (PyFloat.decimal_exponent m e)) as [d k].
  unfold PyFloat.digit_text.
  destruct (to_uint_head (Z.to_pos d)) as (c & s & -> & Hc & Hnz & Hs).
  destruct (strip_trailing_zeros_head c s Hnz Hs) as (r & zeros & -> & Hr).
  set (digits := String c r).
  assert (Hdig : all_digits digits = true).
  { unfold digits. cbn [all_digits]. rewrite Hc, Hr. reflexivity. }
  set (n := Z.of_nat (String.length digits)).
  assert (Hn : 1 <= n).
  { unfold n, digits. cbn [String.length]. lia. }
  set (decpt := n + (k + zeros)).
  destruct ((-4 <? decpt) && (decpt <=? 16)) eqn:Hfixed.
  - destruct (decpt <=? 0) eqn:Hle.
    + (* 0.000ddd *)
      exists {| nt_negative := false; nt_integer := "0";
                nt_fraction := Some (replicate_char (Z.to_nat (- decpt)) "0" +:+ digits);
                nt_exponent := None |}.
      split; [| split; [reflexivity |]].
      * split; [left; reflexivity | split; [| exact I]].
        apply valid_digits_of.
        -- rewrite all_digits_append, all_digits_replicate, Hdig. reflexivity.
        -- rewrite length_append. unfold digits. cbn [String.length]. lia.
      * intros rest. unfold number_tail.
        cbn [nt_negative nt_integer nt_fraction nt_exponent fraction_tail exponent_tail].
        rewrite append_assoc. reflexivity.
    + destruct (n <=? decpt) eqn:Hnd.
      * (* ddd000.0 *)
        exists {| nt_negative := false;
                  nt_integer := digits +:+ replicate_char (Z.to_nat (decpt - n)) "0";
                  nt_fraction := Some "0";
                  nt_exponent := None |}.
        split; [| split; [reflexivity |]].
        -- split; [| split; [| exact I]].
           ++ right. unfold digits. rewrite append_cons. eexists _, _.
              split; [reflexivity |]. split; [exact Hc |]. split; [exact Hnz |].
              rewrite all_digits_append, Hr, all_digits_replicate. reflexivity.
           ++ eexists _, _. repeat split; reflexivity.
        -- intros rest. unfold number_tail.
           cbn [nt_negative nt_integer nt_fraction nt_exponent fraction_tail exponent_tail].
           rewrite !append_assoc. reflexivity.
      * (* dd.ddd *)
        apply Z.leb_gt in Hle, Hnd.
        exists {| nt_negative := false;
                  nt_integer := String.substring 0 (Z.to_nat decpt) digits;
                  nt_fraction :=
                    Some (String.substring (Z.to_nat decpt) (Z.to_nat (n - decpt)) digits);
                  nt_exponent := None |}.
        split; [| split; [reflexivity |]].
        -- split; [| split; [| exact I]].
           ++ right. destruct (Z.to_nat decpt) as [| j] eqn:Ej; [lia |].
              unfold digits. cbn [String.substring]. eexists _, _.
              split; [reflexivity |]. split; [exact Hc |]. split; [exact Hnz |].
              apply all_digits_substring. exact Hr.
           ++ apply valid_digits_of.
              ** apply all_digits_substring. exact Hdig.
              ** rewrite substring_length; unfold n in *; lia.
        -- intros rest. unfold number_tail.
           cbn [nt_negative nt_integer nt_fraction nt_exponent fraction_tail exponent_tail].
           rewrite !append_assoc. reflexivity.
  - (* d.ddde+XX *)
    destruct (exponent_text_shape (decpt - 1)) as (neg & ed & Hed & ->).
    assert (Hone : String.substring 0 1 digits = String c EmptyString).
    { unfold digits. cbn [String.substring]. rewrite substring_0_0. reflexivity. }
    rewrite Hone.
    destruct (1 <? n) eqn:Hlong.
    + apply Z.ltb_lt in Hlong.
      exists {| nt_negative := false; nt_integer := String c EmptyString;
                nt_fraction := Some (String.substring 1 (Z.to_nat (n - 1)) digits);
                nt_exponent := Some (neg, ed) |}.
      split; [| split; [reflexivity |]].
      * split; [| split; [| exact Hed]].
        -- right. eexists _, _. repeat split; [exact Hc | exact Hnz].
        -- apply valid_digits_of.
           ++ apply all_digits_substring. exact Hdig.
           ++ rewrite substring_length; unfold n in *; lia.
      * intros rest. unfold number_tail.
        cbn [nt_negative nt_integer nt_fraction nt_exponent fraction_tail exponent_tail].
        rewrite !append_assoc. reflexivity.
    + exists {| nt_negative := false; nt_integer := String c EmptyString;
                nt_fraction := None;
                nt_exponent := Some (neg, ed) |}.
      split; [| split; [reflexivity |]].
      * split; [| split; [exact I | exact Hed]].
        right. eexists _, _. repeat split; [exact Hc | exact Hnz].
      * intros rest. unfold number_tail.
        cbn [nt_negative nt_integer nt_fraction nt_exponent fraction_tail exponent_tail].
        rewrite !append_assoc. reflexivity.
Qed.

(** What the encoder writes for a float that is a number. *)
Lemma repr_number x :
  (forall s, Prim2SF x <> S754_infinity s) -> Prim2SF x <> S754_nan ->
  exists t, valid_number t /\
            forall rest, PyFloat.repr x +:+ rest = number_tail t rest.
Proof.
  intros Hinf Hnan. unfold PyFloat.repr.
  destruct (Prim2SF x) as [s | s | | s m e].
  - exists {| nt_negative := s; nt_integer := "0"; nt_fraction := Some "0";
              nt_exponent := None |}.
    split.
    + split; [left; reflexivity | split; [| exact I]].
      eexists _, _. repeat split; reflexivity.
    + intros rest. destruct s; reflexivity.
  - exfalso. apply (Hinf s). reflexivity.
  - contradiction.
  - destruct (repr_magnitude_number (Z.pos m) e) as (t & Hv & Hneg & Ht).
    exists {| nt_negative := s; nt_integer := nt_integer t;
              nt_fraction := nt_fraction t; nt_exponent := nt_exponent t |}.
    split; [exact Hv |].
    intros rest. destruct s; cbn [PyFloat.sign_text].
    + change ("-" +:+ PyFloat.repr_magnitude (Z.pos m) e)
        with (String "-" (PyFloat.repr_magnitude (Z.pos m) e)).
      rewrite append_cons, Ht. unfold number_tail. rewrite Hneg. reflexivity.
    + rewrite append_nil_l, Ht. unfold number_tail. rewrite Hneg. reflexivity.
Qed.

(** *** Literals *)

Lemma digit_head_not_letter c :
  is_digit c = true ->
  Ascii.eqb "n" c = false /\ Ascii.eqb "t" c = false /\ Ascii.eqb "f" c = false /\
  Ascii.eqb "N" c = false /\ Ascii.eqb "I" c = false /\ Ascii.eqb "-" c = false.
Proof.
  intros H. repeat split; rewrite Ascii.eqb_sym; apply digit_not; auto.
Qed.

Lemma strip_prefix_mismatch a literal c r :
  Ascii.eqb a c = false -> strip_prefix (String a literal) (String c r) = None.
Proof. intros H. cbn [strip_prefix]. rewrite H. reflexivity. Qed.

Lemma strip_prefix_match a literal r :
  strip_prefix (String a literal) (String a r) = strip_prefix literal r.
Proof. cbn [strip_prefix]. rewrite Ascii.eqb_refl. reflexivity. Qed.

(** A number text is read by the scanner; none of the constants matches
    it. *)
Lemma parse_literal_number t rest :
  valid_number t -> ends_token rest ->
  parse_literal (number_tail t rest) = Some (number_value t, rest).
Proof.
  intros Hv Hr. pose proof (scan_number_tail t rest Hv Hr) as Hscan.
  destruct Hv as (Hi & _).
  destruct (valid_integer_head (nt_integer t)
              (fraction_tail (nt_fraction t) (exponent_tail (nt_exponent t) rest)) Hi)
    as (c & r & Heq & Hc).
  destruct (digit_head_not_letter c Hc) as (H1 & H2 & H3 & H4 & H5 & H6).
  unfold parse_literal. unfold number_tail in *. rewrite Heq in *.
  destruct (nt_negative t).
  - rewrite (strip_prefix_mismatch "n" _ "-" _ eq_refl).
    rewrite (strip_prefix_mismatch "t" _ "-" _ eq_refl).
    rewrite (strip_prefix_mismatch "f" _ "-" _ eq_refl).
    rewrite (strip_prefix_mismatch "N" _ "-" _ eq_refl).
    rewrite (strip_prefix_mismatch "I" _ "-" _ eq_refl).
    rewrite strip_prefix_match.
    rewrite (strip_prefix_mismatch "I" _ c _ H5).
    rewrite Hscan. reflexivity.
  - rewrite (strip_prefix_mismatch "n" _ c _ H1).
    rewrite (strip_prefix_mismatch "t" _ c _ H2).
    rewrite (strip_prefix_mismatch "f" _ c _ H3).
    rewrite (strip_prefix_mismatch "N" _ c _ H4).
    rewrite (strip_prefix_mismatch "I" _ c _ H5).
    rewrite (strip_prefix_mismatch "-" _ c _ H6).
    rewrite Hscan. reflexivity.
Qed.

(** *** Strings *)

(** The decoder reads an escaped character back. *)
Lemma parse_string_escape_char c tail :
  parse_string (escape_char c +:+ tail) = cons_char c (parse_string tail).
Proof. destruct c as [[] [] [] [] [] [] [] []]; reflexivity. Qed.

Lemma parse_string_escape s rest :
  parse_string (escape s +:+ quote +:+ rest) = Some (s, rest).
Proof.
  induction s as [| c s IH].
  - reflexivity.
  - cbn [escape]. rewrite append_assoc, parse_string_escape_char, IH. reflexivity.
Qed.

(** *** White space *)

Lemma skip_ws_spaces n s : skip_ws (replicate_char n " " +:+ s) = skip_ws s.
Proof.
  induction n as [| n IH]; [reflexivity |].
  cbn [replicate_char]. rewrite append_cons. cbn [skip_ws]. exact IH.
Qed.

Lemma skip_ws_newline_indent lvl s : skip_ws (newline_indent lvl +:+ s) = skip_ws s.
Proof.
  unfold newline_indent, newline. rewrite append_assoc.
  rewrite append_cons, append_nil_l. cbn [skip_ws]. apply skip_ws_spaces.
Qed.

Lemma skip_ws_head c s : is_ws c = false -> skip_ws (String c s) = String c s.
Proof. intros H. cbn [skip_ws]. rewrite H. reflexivity. Qed.

Lemma newline_indent_ends lvl s : ends_token (newline_indent lvl +:+ s).
Proof.
  unfold newline_indent, newline. rewrite append_assoc, append_cons. right. reflexivity.
Qed.

Lemma newline_indent_length lvl : (1 <= String.length (newline_indent lvl))%nat.
Proof. unfold newline_indent, newline. rewrite length_append. cbn [String.length]. lia. Qed.

Lemma digit_value_head c : is_digit c = true -> value_head c.
Proof. destruct c as [[] [] [] [] [] [] [] []]; intros H; try discriminate H; repeat split. Qed.

Lemma number_tail_head t rest :
  valid_number t ->
  exists c r, number_tail t rest = String c r /\ value_head c /\
              Ascii.eqb c "[" = false /\ Ascii.eqb c "{" = false /\
              (N_of_ascii c =? 34)%N = false.
Proof.
  intros (Hi & _). unfold number_tail.
  destruct (valid_integer_head (nt_integer t)
              (fraction_tail (nt_fraction t) (exponent_tail (nt_exponent t) rest)) Hi)
    as (c & r & -> & Hc).
  destruct (nt_negative t).
  - eexists _, _. repeat split; reflexivity.
  - exists c, r. split; [reflexivity |]. split; [apply digit_value_head; exact Hc |].
    destruct c as [[] [] [] [] [] [] [] []]; try discriminate Hc; repeat split.
Qed.

Lemma dumps_float_cases x :
  (exists t, valid_number t /\ forall rest, dumps_float x +:+ rest = number_tail t rest) \/
  dumps_float x = "NaN" \/ dumps_float x = "Infinity" \/ dumps_float x = "-Infinity".
Proof.
  unfold dumps_float. destruct (Prim2SF x) as [s | s | | s m e] eqn:E.
  - left. apply repr_number; rewrite E; [intros s' H; discriminate H | discriminate].
  - destruct s; auto.
  - auto.
  - left. apply repr_number; rewrite E; [intros s' H; discriminate H | discriminate].
Qed.

(** The decoder reads the text of a float, up to the end of the token. *)
Lemma parse_literal_float x rest :
  ends_token rest ->
  parse_literal (dumps_float x +:+ rest) = Some (reread_float x, rest).
Proof.
  intros Hr. unfold reread_float.
  destruct (dumps_float_cases x) as [(t & Hv & Ht) | [E | [E | E]]].
  - rewrite Ht. rewrite (parse_literal_number t rest Hv Hr).
    rewrite <- (append_nil_r (dumps_float x)). rewrite Ht.
    rewrite (parse_literal_number t EmptyString Hv I). reflexivity.
  - rewrite E. reflexivity.
  - rewrite E. reflexivity.
  - rewrite E. reflexivity.
Qed.

(** Unfolding the decoder by the first character. *)
Lemma parse_value_literal fuel c r :
  Ascii.eqb c "[" = false -> Ascii.eqb c "{" = false -> (N_of_ascii c =? 34)%N = false ->
  parse_value (S fuel) (String c r) = parse_literal (String c r).
Proof. intros H1 H2 H3. cbn [parse_value]. rewrite H1, H2, H3. reflexivity. Qed.

Lemma parse_value_string fuel r :
  parse_value (S fuel) (quote +:+ r)
  = match parse_string r with
    | Some (text, rest') => Some (JStr text, rest')
    | None => None
    end.
Proof. reflexivity. Qed.

Lemma parse_value_array fuel r c r' :
  skip_ws r = String c r' -> Ascii.eqb c "]" = false ->
  parse_value (S fuel) (String "[" r)
  = match parse_elements fuel (String c r') with
    | Some (items, rest') => Some (JArr items, rest')
    | None => None
    end.
Proof.
  intros H1 H2. cbn [parse_value]. change (Ascii.eqb "[" "[") with true. cbn iota.
  rewrite H1, H2. reflexivity.
Qed.

Lemma parse_value_object fuel r c r' :
  skip_ws r = String c r' -> Ascii.eqb c "}" = false ->
  parse_value (S fuel) (String "{" r)
  = match parse_members fuel (String c r') with
    | Some (members, rest') => Some (JObj (dict_of members), rest')
    | None => None
    end.
Proof.
  intros H1 H2. cbn [parse_value].
  change (Ascii.eqb "{" "[") with false. change (Ascii.eqb "{" "{") with true. cbn iota.
  rewrite H1, H2. reflexivity.
Qed.

(** How the text of a value starts. *)
Lemma dumps_head v lvl tail :
  exists c r, dumps_at lvl v +:+ tail = String c r /\ value_head c.
Proof.
  destruct v as [| [] | n | x | s | [| item items] | [| member members]];
    cbn [dumps_at]; try (eexists _, _; split; [reflexivity | repeat split]).
  - destruct (str_int_number n) as (t & Hv & _ & Ht). rewrite Ht.
    destruct (number_tail_head t tail Hv) as (c & r & E & Hh & _). eauto.
  - destruct (dumps_float_cases x) as [(t & Hv & Ht) | [E | [E | E]]].
    + rewrite Ht. destruct (number_tail_head t tail Hv) as (c & r & E & Hh & _). eauto.
    + rewrite E. eexists _, _. split; [reflexivity | repeat split].
    + rewrite E. eexists _, _. split; [reflexivity | repeat split].
    + rewrite E. eexists _, _. split; [reflexivity | repeat split].
Qed.

Lemma dumps_length v lvl : (1 <= String.length (dumps_at lvl v))%nat.
Proof.
  destruct (dumps_head v lvl EmptyString) as (c & r & E & _).
  rewrite append_nil_r in E. rewrite E. cbn [String.length]. lia.
Qed.



Lemma skip_ws_dumps v lvl tail : skip_ws (dumps_at lvl v +:+ tail) = dumps_at lvl v +:+ tail.
Proof.
  destruct (dumps_head v lvl tail) as (c & r & -> & Hws & _). apply skip_ws_head. exact Hws.
Qed.

Lemma skip_ws_join sep lvl y ys tail :
  skip_ws (join sep (map (dumps_at lvl) (y :: ys)) +:+ tail)
  = join sep (map (dumps_at lvl) (y :: ys)) +:+ tail.
Proof.
  destruct ys as [| z zs]; cbn [map].
  - rewrite join_one. apply skip_ws_dumps.
  - rewrite join_cons, !append_assoc. apply skip_ws_dumps.
Qed.

Lemma parse_elements_more fuel s item rest1 tail :
  parse_value fuel s = Some (item, rest1) ->
  skip_ws rest1 = String "," tail ->
  parse_elements (S fuel) s
  = match parse_elements fuel (skip_ws tail) with
    | Some (items, rest') => Some (item :: items, rest')
    | None => None
    end.
Proof. intros H1 H2. cbn [parse_elements]. rewrite H1, H2. reflexivity. Qed.

Lemma parse_elements_last fuel s item rest1 tail :
  parse_value fuel s = Some (item, rest1) ->
  skip_ws rest1 = String "]" tail ->
  parse_elements (S fuel) s = Some ([item], tail).
Proof. intros H1 H2. cbn [parse_elements]. rewrite H1, H2. reflexivity. Qed.

Lemma skip_ws_separator lvl tail :
  skip_ws (separator lvl +:+ tail) = String "," (newline_indent (S lvl) +:+ tail).
Proof. unfold separator. rewrite append_assoc. reflexivity. Qed.

Lemma separator_ends lvl tail : ends_token (separator lvl +:+ tail).
Proof. unfold separator. rewrite append_assoc. left. reflexivity. Qed.

Lemma separator_length lvl : (2 <= String.length (separator lvl))%nat.
Proof.
  unfold separator. rewrite length_append.
  pose proof (newline_indent_length (S lvl)). cbn [String.length]. lia.
Qed.

Lemma parse_elements_dumps lvl rest items :
  Forall reads_back items -> items <> [] ->
  forall fuel,
    (String.length (join (separator lvl) (map (dumps_at (S lvl)) items)) < fuel)%nat ->
    parse_elements fuel
      (join (separator lvl) (map (dumps_at (S lvl)) items) +:+
       newline_indent lvl +:+ "]" +:+ rest)
    = Some (map reread items, rest).
Proof.
  intros Hall. induction Hall as [| x xs Hx Hxs IH]; intros Hne fuel Hfuel;
    [contradiction |].
  destruct fuel as [| fuel]; [lia |].
  destruct xs as [| y ys].
  - cbn [map] in *. rewrite join_one in *.
    apply (parse_elements_last fuel _ _ (newline_indent lvl +:+ "]" +:+ rest)).
    + apply Hx; [lia | apply newline_indent_ends].
    + rewrite skip_ws_newline_indent. reflexivity.
  - change (map (dumps_at (S lvl)) (x :: y :: ys))
      with (dumps_at (S lvl) x :: map (dumps_at (S lvl)) (y :: ys)) in *.
    change (map reread (x :: y :: ys)) with (reread x :: map reread (y :: ys)).
    set (more := map (dumps_at (S lvl)) (y :: ys)) in *.
    assert (Hjoin : join (separator lvl) (dumps_at (S lvl) x :: more)
                    = dumps_at (S lvl) x +:+ separator lvl +:+ join (separator lvl) more)
      by reflexivity.
    rewrite Hjoin in *. rewrite !length_append in Hfuel.
    pose proof (separator_length lvl) as Hsep.
    rewrite !append_assoc.
    rewrite (parse_elements_more fuel _ (reread x)
               (separator lvl +:+ join (separator lvl) more +:+
                newline_indent lvl +:+ "]" +:+ rest)
               (newline_indent (S lvl) +:+ join (separator lvl) more +:+
                newline_indent lvl +:+ "]" +:+ rest)).
    + rewrite skip_ws_newline_indent. unfold more.
      rewrite skip_ws_join. fold more. rewrite IH; [reflexivity | discriminate | lia].
    + apply Hx; [lia | apply separator_ends].
    + apply skip_ws_separator.
Qed.

Lemma parse_members_key fuel key text :
  parse_members (S fuel) (dumps_str key +:+ ": " +:+ text)
  = match parse_value fuel (skip_ws text) with
    | Some (v, rest3) =>
        match skip_ws rest3 with
        | String c rest4 =>
            if Ascii.eqb c "," then
              match parse_members fuel (skip_ws rest4) with
              | Some (members, rest5) => Some ((key, v) :: members, rest5)
              | None => None
              end
            else if Ascii.eqb c "}" then Some ([(key, v)], rest4)
            else None
        | EmptyString => None
        end
    | None => None
    end.
Proof.
  unfold dumps_str. rewrite !append_assoc.
  change (quote +:+ ?s) with (String (ascii_of_N 34) s).
  cbn [parse_members]. change (N_of_ascii (ascii_of_N 34) =? 34)%N with true. cbn iota.
  rewrite parse_string_escape. reflexivity.
Qed.

Lemma member_text_head lvl kv tail :
  exists r, member_text lvl kv +:+ tail = String (ascii_of_N 34) r.
Proof.
  unfold member_text, dumps_str. rewrite !append_assoc. eexists. reflexivity.
Qed.

Lemma skip_ws_members sep lvl kv kvs tail :
  skip_ws (join sep (map (member_text lvl) (kv :: kvs)) +:+ tail)
  = join sep (map (member_text lvl) (kv :: kvs)) +:+ tail.
Proof.
  destruct kvs as [| kv' kvs']; cbn [map].
  - rewrite join_one. destruct (member_text_head lvl kv tail) as [r ->]. reflexivity.
  - rewrite join_cons, !append_assoc.
    destruct (member_text_head lvl kv (sep +:+ join sep (member_text lvl kv' ::
                                        map (member_text lvl) kvs') +:+ tail)) as [r ->].
    reflexivity.
Qed.

Lemma parse_members_dumps lvl rest members :
  Forall (fun kv => reads_back (snd kv)) members -> members <> [] ->
  forall fuel,
    (String.length (join (separator lvl) (map (member_text lvl) members)) < fuel)%nat ->
    parse_members fuel
      (join (separator lvl) (map (member_text lvl) members) +:+
       newline_indent lvl +:+ "}" +:+ rest)
    = Some (map (fun kv => (fst kv, reread (snd kv))) members, rest).
Proof.
  intros Hall. induction Hall as [| [k v] kvs Hv Hkvs IH]; intros Hne fuel Hfuel;
    [contradiction |].
  cbn [fst snd] in Hv.
  destruct fuel as [| fuel]; [lia |].
  destruct kvs as [| kv' kvs'].
  - cbn [map] in *. rewrite join_one in *. unfold member_text in *. cbn [fst snd] in *.
    rewrite !length_append in Hfuel.
    rewrite !append_assoc. rewrite parse_members_key.
    rewrite skip_ws_dumps.
    rewrite (Hv fuel (S lvl) _); [| lia | apply newline_indent_ends].
    rewrite skip_ws_newline_indent. reflexivity.
  - change (map (member_text lvl) ((k, v) :: kv' :: kvs'))
      with (member_text lvl (k, v) :: map (member_text lvl) (kv' :: kvs')) in *.
    change (map (fun kv => (fst kv, reread (snd kv))) ((k, v) :: kv' :: kvs'))
      with ((k, reread v) :: map (fun kv => (fst kv, reread (snd kv))) (kv' :: kvs')).
    set (more := map (member_text lvl) (kv' :: kvs')) in *.
    assert (Hjoin : join (separator lvl) (member_text lvl (k, v) :: more)
                    = member_text lvl (k, v) +:+ separator lvl +:+ join (separator lvl) more)
      by reflexivity.
    rewrite Hjoin in *. unfold member_text at 1 in Hfuel. unfold member_text at 1.
    cbn [fst snd] in *. rewrite !length_append in Hfuel.
    pose proof (separator_length lvl) as Hsep.
    rewrite !append_assoc. rewrite parse_members_key.
    rewrite skip_ws_dumps.
    rewrite (Hv fuel (S lvl) _); [| lia | apply separator_ends].
    rewrite skip_ws_separator.
    change (Ascii.eqb "," ",") with true. cbn iota.
    rewrite skip_ws_newline_indent. unfold more. rewrite skip_ws_members. fold more.
    rewrite IH; [reflexivity | discriminate | lia].
Qed.

Lemma join_head_value sep lvl y ys tail :
  exists c r, join sep (map (dumps_at lvl) (y :: ys)) +:+ tail = String c r /\ value_head c.
Proof.
  destruct ys as [| z zs]; cbn [map].
  - rewrite join_one. apply dumps_head.
  - rewrite join_cons, !append_assoc. apply dumps_head.
Qed.

(** The decoder reads every value back from its text. *)
Theorem parse_value_dumps v : reads_back v.
Proof.
  induction v using json_nested_ind; intros fuel lvl rest Hfuel Hr;
    (destruct fuel as [| fuel];
     [match type of Hfuel with (String.length (dumps_at _ ?v) <= _)%nat =>
        pose proof (dumps_length v lvl) end; lia |]).
  - reflexivity.
  - destruct b; reflexivity.
  - cbn [dumps_at reread].
    destruct (str_int_number n) as (t & Hv & Hval & Ht). rewrite Ht.
    destruct (number_tail_head t rest Hv) as (c & r & E & _ & H1 & H2 & H3).
    rewrite E. rewrite (parse_value_literal fuel c r H1 H2 H3). rewrite <- E.
    rewrite (parse_literal_number t rest Hv Hr), Hval. reflexivity.
  - cbn [dumps_at reread].
    pose proof (parse_literal_float x rest Hr) as Hp.
    destruct (dumps_float_cases x) as [(t & Hv & Ht) | [E | [E | E]]].
    + rewrite Ht in *.
      destruct (number_tail_head t rest Hv) as (c & r & E & _ & H1 & H2 & H3).
      rewrite E in *. rewrite (parse_value_literal fuel c r H1 H2 H3). exact Hp.
    + rewrite E in *. exact Hp.
    + rewrite E in *. exact Hp.
    + rewrite E in *. exact Hp.
  - cbn [dumps_at reread]. unfold dumps_str. rewrite !append_assoc.
    rewrite parse_value_string, parse_string_escape. reflexivity.
  - destruct items as [| x xs]; [reflexivity |].
    cbn [dumps_at reread] in *.
    change (dumps_at (S lvl) x :: map (dumps_at (S lvl)) xs)
      with (map (dumps_at (S lvl)) (x :: xs)) in *.
    fold (separator lvl) in *.
    rewrite !length_append in Hfuel. rewrite !append_assoc.
    change ("[" +:+ ?s) with (String "[" s).
    destruct (join_head_value (separator lvl) (S lvl) x xs
                (newline_indent lvl +:+ "]" +:+ rest)) as (c & r & E & _ & Hc & _).
    rewrite (parse_value_array fuel _ c r).
    + rewrite <- E. rewrite parse_elements_dumps; [reflexivity | assumption | discriminate |].
      cbn [String.length] in Hfuel. pose proof (newline_indent_length (S lvl)). lia.
    + rewrite skip_ws_newline_indent, skip_ws_join. exact E.
    + exact Hc.
  - destruct members as [| kv kvs]; [reflexivity |].
    cbn [dumps_at reread] in *.
    change (map (fun kv0 => dumps_str (fst kv0) +:+ ": " +:+ dumps_at (S lvl) (snd kv0))
                (kv :: kvs))
      with (map (member_text lvl) (kv :: kvs)) in *.
    fold (separator lvl) in *.
    rewrite !length_append in Hfuel. rewrite !append_assoc.
    change ("{" +:+ ?s) with (String "{" s).
    destruct (member_text_head lvl kv EmptyString) as [r0 _].
    assert (E : exists r, join (separator lvl) (map (member_text lvl) (kv :: kvs)) +:+
                          newline_indent lvl +:+ "}" +:+ rest = String (ascii_of_N 34) r).
    { destruct kvs as [| kv' kvs']; cbn [map].
      - rewrite join_one. apply member_text_head.
      - rewrite join_cons, !append_assoc. apply member_text_head. }
    destruct E as [r E].
    rewrite (parse_value_object fuel _ (ascii_of_N 34) r).
    + rewrite <- E. rewrite parse_members_dumps; [reflexivity | assumption | discriminate |].
      cbn [String.length] in Hfuel. pose proof (newline_indent_length (S lvl)). lia.
    + rewrite skip_ws_newline_indent, skip_ws_members. exact E.
    + reflexivity.
Qed.

Lemma dict_set_fresh d k v : k ∉ map fst d -> dict_set d k v = d ++ [(k, v)].
Proof.
  induction d as [| [k' v'] d IH]; intros Hk; [reflexivity |].
  cbn [dict_set]. cbn [map fst] in Hk. apply not_elem_of_cons in Hk as [Hne Hk].
  destruct (String.eqb_spec k' k) as [-> | _]; [contradiction |].
  cbn [app]. f_equal. apply IH, Hk.
Qed.

Lemma dict_of_from acc pairs :
  NoDup (map fst (acc ++ pairs)) ->
  fold_left (fun d kv => dict_set d (fst kv) (snd kv)) pairs acc = acc ++ pairs.
Proof.
  revert acc. induction pairs as [| [k v] pairs IH]; intros acc Hnd.
  - cbn. rewrite List.app_nil_r. reflexivity.
  - cbn [fold_left fst snd].
    assert (Hk : k ∉ map fst acc).
    { rewrite map_app in Hnd. apply NoDup_app in Hnd as (_ & Hd & _).
      intros Hin. apply (Hd k Hin). cbn [map fst]. apply elem_of_cons. left. reflexivity. }
    rewrite (dict_set_fresh acc k v Hk).
    rewrite IH; rewrite <- app_assoc; [reflexivity | exact Hnd].
Qed.

Lemma dict_of_distinct pairs : NoDup (map fst pairs) -> dict_of pairs = pairs.
Proof. intros Hnd. unfold dict_of. apply (dict_of_from [] pairs Hnd). Qed.

Lemma map_fst_reread members :
  map fst (map (fun kv : string * json => (fst kv, reread (snd kv))) members) = map fst members.
Proof. rewrite map_map. apply map_ext. reflexivity. Qed.

Lemma reread_plain v : plain v = true -> reread v = v.
Proof.
  induction v as [| b | n | x | s | items IH | members IH] using json_nested_ind;
    cbn [plain reread]; intros Hp; try reflexivity; try discriminate.
  - f_equal. induction IH as [| y ys Hy _ IHys]; [reflexivity |].
    cbn [forallb] in Hp. apply andb_prop in Hp as [Hy' Hys].
    cbn [map]. rewrite (Hy Hy'), (IHys Hys). reflexivity.
  - apply andb_prop in Hp as [Hnd Hall]. apply bool_decide_eq_true in Hnd.
    rewrite dict_of_distinct by (rewrite map_fst_reread; exact Hnd).
    f_equal. clear Hnd. induction IH as [| [k y] ys Hy _ IHys]; [reflexivity |].
    cbn [forallb snd] in Hall. apply andb_prop in Hall as [Hy' Hys].
    cbn [map fst snd]. cbn [snd] in Hy. rewrite (Hy Hy'), (IHys Hys). reflexivity.
Qed.

(** [json.loads(json.dumps(v, indent=2))] reads every document back. *)
Lemma loads_dumps v : loads (dumps v) = Ok (reread v).
Proof.
  unfold loads, dumps.
  pose proof (skip_ws_dumps v 0%nat EmptyString) as Hs. rewrite append_nil_r in Hs. rewrite Hs.
  pose proof (parse_value_dumps v (S (String.length (dumps_at 0%nat v))) 0%nat EmptyString) as Hp.
  rewrite append_nil_r in Hp. rewrite Hp; [reflexivity | lia | exact I].
Qed.

Lemma loads_dumps_plain v : plain v = true -> loads (dumps v) = Ok v.
Proof. intros Hp. rewrite loads_dumps, (reread_plain v Hp). reflexivity. Qed.

(** *** The JSON export of the tables *)


Lemma sorted_tables_distinct (d : data_dir) :
  NoDup (map fst (sorted_by id (map_to_list (DataLoader.load_all_tables d)))).
Proof.
  rewrite (Permutation_map fst (sorted_by_Permutation id _)).
  apply (NoDup_fst_map_to_list (DataLoader.load_all_tables d)).
Qed.

Lemma all_data_members (d : data_dir) :
  DataLoader.all_data d
  = map (fun p => (fst p, JArr (Pandas.to_dict_records (snd p))))
        (sorted_by id (map_to_list (DataLoader.load_all_tables d))).
Proof.
  unfold DataLoader.all_data. apply dict_of_distinct.
  rewrite map_map. cbn [fst]. apply sorted_tables_distinct.
Qed.


Lemma reread_records df :
  Forall is_object (map reread (Pandas.to_dict_records df)).
Proof.
  unfold Pandas.to_dict_records. rewrite map_map. apply Forall_forall. intros v Hv.
  apply list_elem_of_In, in_map_iff in Hv as (row & <- & _). cbn [reread]. eexists. reflexivity.
Qed.

Lemma Sorted_map_fst {A} (pairs : list (string * A)) :
  Sorted (fun p q => str_le (id (fst p)) (id (fst q))) pairs -> Sorted str_le (map fst pairs).
Proof.
  induction 1 as [| p l Hs IH Hhd]; cbn [map]; constructor; [exact IH |].
  destruct Hhd as [| q l' Hpq]; cbn [map]; constructor. exact Hpq.
Qed.

(** X26: the text that [get_all_data_as_json] returns is a JSON
    document that [json.loads] reads as one object with exactly the
    table names of [load_all_tables] as keys, each once and in ascending
    order; under each table name it holds an array of as many row
    objects as the table has rows. *)
Theorem json_export_reads_back (d : data_dir) :
  exists members,
    loads (DataLoader.get_all_data_as_json d) = Ok (JObj members) /\
    NoDup (map fst members) /\
    Sorted str_le (map fst members) /\
    (forall name, name ∈ map fst members <-> is_Some (DataLoader.load_all_tables d !! name)) /\
    (forall name df, DataLoader.load_all_tables d !! name = Some df ->
       exists rows, (name, JArr rows) ∈ members /\
                    length rows = Pandas.len df /\ Forall is_object rows).
Proof.
  set (tables := sorted_by id (map_to_list (DataLoader.load_all_tables d))).
  exists (map (fun p => (fst p, JArr (map reread (Pandas.to_dict_records (snd p))))) tables).
  assert (Hkeys : map fst (map (fun p : string * DataFrame =>
                    (fst p, JArr (map reread (Pandas.to_dict_records (snd p))))) tables)
                  = map fst tables).
  { rewrite map_map. reflexivity. }
  split; [| split; [| split; [| split]]].
  - unfold DataLoader.get_all_data_as_json. rewrite loads_dumps, all_data_members.
    fold tables. cbn [reread]. rewrite map_map. cbn [fst snd reread].
    rewrite dict_of_distinct; [reflexivity |].
    rewrite Hkeys. apply sorted_tables_distinct.
  - rewrite Hkeys. apply sorted_tables_distinct.
  - rewrite Hkeys. apply Sorted_map_fst. apply (sorted_by_Sorted id).
  - intros name. rewrite Hkeys. unfold tables.
    rewrite (Permutation_map fst (sorted_by_Permutation id _)).
    split.
    + intros Hin. apply list_elem_of_fmap in Hin as ([k df] & -> & Hin).
      apply elem_of_map_to_list in Hin. cbn [fst]. rewrite Hin. eexists. reflexivity.
    + intros [df Hdf]. apply list_elem_of_fmap. exists (name, df). split; [reflexivity |].
      apply elem_of_map_to_list. exact Hdf.
  - intros name df Hdf. exists (map reread (Pandas.to_dict_records df)).
    split; [| split].
    + apply list_elem_of_fmap. exists (name, df). split; [reflexivity |].
      unfold tables. rewrite (sorted_by_Permutation id _).
      apply elem_of_map_to_list. exact Hdf.
    + rewrite length_map. apply to_dict_records_length.
    + apply reread_records.
Qed.

(** The export of the small store, read back: the table names and the
    number of rows under each. *)
Example json_export_of_small_store :
  (fun v => match v with
            | JObj members =>
                map (fun kv => (fst kv, match snd kv with
                                        | JArr rows => length rows
                                        | _ => 0%nat
                                        end)) members
            | _ => []
            end)
    <$> loads (DataLoader.get_all_data_as_json whole_store)
  = Ok [("customers", 1%nat); ("order_items", 1%nat); ("orders", 1%nat);
        ("products", 1%nat); ("suppliers", 1%nat)].
Proof. vm_compute. reflexivity. Qed.

Lemma float_free_b_spec df : float_free_b df = true -> float_free df.
Proof.
  unfold float_free_b, float_free. intros H.
  apply Forall_forall. intros row Hrow. apply Forall_forall. intros c Hc.
  rewrite forallb_forall in H. specialize (H row (proj1 (list_elem_of_In _ _) Hrow)).
  rewrite forallb_forall in H. specialize (H c (proj1 (list_elem_of_In _ _) Hc)).
  destruct (is_float c); [discriminate H | reflexivity].
Qed.

(** X27: the schema metadata that a prompt shows is the loaded
    metadata again when it is read as JSON: for metadata without floats
    the text parses back to exactly the value that [load_metadata]
    returned, and that text is part of the data prompt of the CSV
    encoding with metadata. *)
Theorem metadata_text_reads_back (d : data_dir) (m : json) :
  DataLoader.load_metadata d = Ok m ->
  plain m = true ->
  loads (dumps m) = Ok m /\
  exists before after,
    _prepare_data_prompt d CSV_WITH_METADATA = Ok (before +:+ dumps m +:+ after).
Proof.
  intros Hm Hp. split; [apply loads_dumps_plain, Hp |].
  cbn [_prepare_data_prompt]. rewrite Hm. cbn [mbind outcome_bind].
  exists ("Here is the database schema metadata:" +:+ nl +:+ nl),
    (nl +:+ nl +:+ "Here is the data in CSV format:" +:+ nl +:+ nl +:+
     DataLoader.get_all_csv_as_string d).
  rewrite !append_assoc. reflexivity.
Qed.

Lemma metadata_text_reads_back_witness :
  exists before after,
    DataLoader.load_metadata documented_store = Ok sample_metadata /\
    loads (dumps sample_metadata) = Ok sample_metadata /\
    _prepare_data_prompt documented_store CSV_WITH_METADATA
    = Ok (before +:+ dumps sample_metadata +:+ after).
Proof.
  assert (Hp : plain sample_metadata = true) by (vm_compute; reflexivity).
  destruct (metadata_text_reads_back documented_store sample_metadata eq_refl Hp)
    as (Hl & before & after & Hq).
  exists before, after. split; [reflexivity |]. split; [exact Hl | exact Hq].
Defined.

(** *** Tables without floats *)

Lemma dict_set_values (P : json -> Prop) d k v :
  Forall (fun kv => P (snd kv)) d -> P v ->
  Forall (fun kv => P (snd kv)) (dict_set d k v).
Proof.
  intros Hd Hv. induction Hd as [| [k0 v0] d H0 Hd IH]; cbn [dict_set].
  - constructor; [exact Hv | constructor].
  - destruct (String.eqb k0 k); constructor; assumption.
Qed.

Lemma dict_of_values (P : json -> Prop) pairs :
  Forall (fun kv => P (snd kv)) pairs -> Forall (fun kv => P (snd kv)) (dict_of pairs).
Proof.
  unfold dict_of.
  assert (H : forall acc, Forall (fun kv => P (snd kv)) acc ->
                          Forall (fun kv => P (snd kv)) pairs ->
                          Forall (fun kv => P (snd kv))
                                 (fold_left (fun d kv => dict_set d (fst kv) (snd kv))
                                            pairs acc)).
  { induction pairs as [| [k v] pairs IH]; intros acc Hacc Hp; [exact Hacc |].
    apply Forall_cons in Hp as [Hv Hp]. cbn [fold_left fst snd].
    apply IH; [apply dict_set_values; assumption | exact Hp]. }
  apply H. constructor.
Qed.

Lemma forallb_Forall {A} (f : A -> bool) l :
  Forall (fun x => f x = true) l -> forallb f l = true.
Proof.
  induction 1 as [| x l Hx _ IH]; [reflexivity |]. cbn [forallb]. rewrite Hx, IH. reflexivity.
Qed.

(** The records of a frame without floats come back unchanged. *)
Lemma to_dict_records_plain df :
  float_free df -> Forall (fun r => plain r = true) (Pandas.to_dict_records df).
Proof.
  intros Hf. unfold Pandas.to_dict_records, Pandas.iterrows.
  apply Forall_forall. intros r Hr.
  apply list_elem_of_fmap in Hr as (row & -> & Hrow).
  apply list_elem_of_fmap in Hrow as (cells & -> & Hcells).
  unfold float_free in Hf. rewrite Forall_forall in Hf. specialize (Hf cells Hcells).
  cbn [plain].
  destruct (dict_of_keys (map (fun kv : string * cell => (fst kv, Pandas.cell_to_json (snd kv)))
                              (combine (df_columns df) cells))) as [Hnd _].
  apply andb_true_intro. split; [apply bool_decide_eq_true; exact Hnd |].
  apply forallb_Forall.
  apply (dict_of_values (fun v => plain v = true)).
  apply Forall_forall. intros kv Hkv.
  apply list_elem_of_fmap in Hkv as ([k c] & -> & Hkc). cbn [fst snd].
  assert (Hc : c ∈ cells).
  { clear -Hkc. revert cells Hkc. generalize (df_columns df).
    induction l as [| a l IH]; intros [| b cells]; cbn [combine];
      rewrite ?elem_of_nil; try contradiction.
    rewrite !elem_of_cons. intros [H | H]; [injection H as _ ->; left; reflexivity |].
    right. eapply IH, H. }
  rewrite Forall_forall in Hf. specialize (Hf c Hc).
  destruct c; [reflexivity | reflexivity | discriminate Hf].
Qed.

(** X28: when no table holds a float, the JSON export loses nothing:
    [json.loads] reads the text of [get_all_data_as_json] back as
    exactly the dictionary that the function serialised, table by table
    and record by record. *)
Theorem json_export_exact (d : data_dir) :
  (forall name df, DataLoader.load_all_tables d !! name = Some df -> float_free df) ->
  loads (DataLoader.get_all_data_as_json d) = Ok (JObj (DataLoader.all_data d)).
Proof.
  intros Hf. unfold DataLoader.get_all_data_as_json. apply loads_dumps_plain.
  rewrite all_data_members. cbn [plain].
  apply andb_true_intro. split.
  - apply bool_decide_eq_true. rewrite map_map. cbn [fst]. apply sorted_tables_distinct.
  - apply forallb_Forall, Forall_forall. intros kv Hkv.
    apply list_elem_of_fmap in Hkv as ([name df] & -> & Hin). cbn [fst snd plain].
    apply forallb_Forall, to_dict_records_plain, (Hf name).
    rewrite (sorted_by_Permutation id _) in Hin.
    apply elem_of_map_to_list in Hin. exact Hin.
Qed.

Lemma json_export_exact_witness :
  loads (DataLoader.get_all_data_as_json whole_store)
  = Ok (JObj (DataLoader.all_data whole_store)).
Proof.
  apply (json_export_exact whole_store).
  intros name df H.
  assert (Hall : map_Forall (fun _ df => float_free_b df = true)
                            (DataLoader.load_all_tables whole_store)).
  { apply map_Forall_to_list. vm_compute. repeat constructor. }
  apply float_free_b_spec. exact (Hall name df H).
Defined.
